(** * SEV / SEV-ES / SEV-SNP launch and page-state-change support

    A shallow embedding of [target/i386/sev.c]: the launch state machine,
    the SNP launch-update queue, the measured kernel-hash table and the
    runtime VMGEXIT handlers (page-state change, extended guest request),
    together with the properties the specification states about them;
    and the SEV-ES save areas and reset vector, the SNP CPUID page and
    the monitor's measurement query, with properties read off the code.

    Conventions.
    - C integers are [Z]; unsigned wrap-around is written out with
      [wrap16] / [wrap64].
    - A C function that calls into the platform (ioctl, memory conversion,
      guest memory mapping) is a computation in the monad [M]: it reads the
      collaborator's answers from an environment of oracles, each a function
      of the calls made so far, and appends its own calls to a trace.
    - [exit(1)], a failed [assert] and an out-of-range array access stop a
      computation; they are the [Stop] outcomes.
    - Diagnostics ([error_report], [g_warning], trace points) are not
      modelled. *)

From Stdlib Require Import ZArith Lia Bool List.
From Stdlib Require Import Strings.Byte Strings.String.
From stdpp Require Import base list.

Local Open Scope Z_scope.

(** ** Outcomes and the call-trace monad *)

Inductive stop : Type :=
| Exit (code : Z)        (* exit(code) *)
| AssertFail             (* a failed assert() *)
| OutOfRange (i : Z)     (* an array indexed outside its declared bounds *)
| OutOfFuel.             (* the model's loop bound was reached *)

Inductive outcome (A : Type) : Type :=
| Ret (a : A)
| Stop (s : stop).
Arguments Ret {A} a.
Arguments Stop {A} s.

Definition M (Ev A : Type) : Type := list Ev -> outcome A * list Ev.

Definition m_ret {Ev A} (a : A) : M Ev A := fun t => (Ret a, t).

Definition m_bind {Ev A B} (f : A -> M Ev B) (m : M Ev A) : M Ev B :=
  fun t => match m t with
           | (Ret a, t') => f a t'
           | (Stop s, t') => (Stop s, t')
           end.

#[global] Instance M_ret {Ev} : MRet (M Ev) := fun A => @m_ret Ev A.
#[global] Instance M_bind {Ev} : MBind (M Ev) := fun A B => @m_bind Ev A B.

Definition m_stop {Ev A} (s : stop) : M Ev A := fun t => (Stop s, t).

(** [call ev reply] performs one collaborator call: the answer is what the
    oracle [reply] says given the history, and the call joins the trace. *)
Definition call {Ev A} (ev : Ev) (reply : list Ev -> A) : M Ev A :=
  fun t => (Ret (reply t), t ++ [ev]).

Definition emit {Ev} (ev : Ev) : M Ev unit :=
  fun t => (Ret tt, t ++ [ev]).

Definition wrap16 (x : Z) : Z := x mod 2 ^ 16.
Definition wrap64 (x : Z) : Z := x mod 2 ^ 64.

(** Modelled from the spec: [TARGET_PAGE_SIZE] is declared outside this
    file; the i386 target has 4 KiB pages (the page-state-change handler
    below hard-codes the same 0x1000). *)
Definition TARGET_PAGE_SIZE : Z := 4096.

(** Modelled from the spec: [ENOENT] comes from <errno.h>. *)
Definition ENOENT : Z := 2.

(** ** Page-state-change protocol (VMGEXIT) *)

Module Psc.

Definition GHCB_SHARED_BUF_SIZE : Z := 0x7f0.
Definition VMGEXIT_PSC_MAX_ENTRY : Z := 253.
Definition PSC_ERROR_GENERIC : Z := Z.shiftl 0x100 32.

(** [struct psc_hdr]. *)
Record psc_hdr : Type := mk_psc_hdr {
  cur_entry : Z;      (* uint16_t *)
  end_entry : Z;      (* uint16_t *)
  reserved  : Z       (* uint32_t *)
}.

(** [struct psc_entry] is one packed 64-bit word:
    cur_page : 12, gfn : 40, operation : 4, pagesize : 1, reserved : 7. *)
Definition psc_entry : Type := Z.

Definition entry_cur_page (e : psc_entry) : Z := Z.land e (Z.ones 12).
Definition entry_gfn (e : psc_entry) : Z := Z.land (Z.shiftr e 12) (Z.ones 40).
Definition entry_operation (e : psc_entry) : Z := Z.land (Z.shiftr e 52) (Z.ones 4).
Definition entry_pagesize (e : psc_entry) : Z := Z.land (Z.shiftr e 56) (Z.ones 1).

(** [entry->cur_page = v]: the low 12 bits are replaced, the rest kept. *)
Definition entry_set_cur_page (e : psc_entry) (v : Z) : psc_entry :=
  Z.lor (Z.ldiff e (Z.ones 12)) (Z.land v (Z.ones 12)).

(** Builds an entry word from its fields (used to write down inputs). *)
Definition mk_entry (cur_page gfn operation pagesize : Z) : psc_entry :=
  Z.lor (Z.land cur_page (Z.ones 12))
    (Z.lor (Z.shiftl (Z.land gfn (Z.ones 40)) 12)
       (Z.lor (Z.shiftl (Z.land operation (Z.ones 4)) 52)
              (Z.shiftl (Z.land pagesize (Z.ones 1)) 56))).

(** [struct snp_psc_desc]: the header and [entries[VMGEXIT_PSC_MAX_ENTRY]]. *)
Record snp_psc_desc : Type := mk_desc {
  hdr : psc_hdr;
  entries : list psc_entry
}.

Definition set_cur_entry (d : snp_psc_desc) (c : Z) : snp_psc_desc :=
  mk_desc (mk_psc_hdr c (end_entry (hdr d)) (reserved (hdr d))) (entries d).

(** [&desc->entries[i]]: defined only inside the declared array. *)
Definition desc_entry (d : snp_psc_desc) (i : Z) : option psc_entry :=
  if decide (0 <= i < VMGEXIT_PSC_MAX_ENTRY) then entries d !! Z.to_nat i
  else None.

Definition set_entry (d : snp_psc_desc) (i : Z) (e : psc_entry) : snp_psc_desc :=
  mk_desc (hdr d) (<[Z.to_nat i := e]> (entries d)).

(** The four out-parameters of [next_contig_gpa_range]. *)
Record contig_range : Type := mk_range {
  entries_processed : Z;   (* uint16_t *)
  gfn_base : Z;            (* hwaddr *)
  gfn_count : Z;           (* int *)
  range_to_private : bool
}.

Definition entry_to_private (e : psc_entry) : bool := entry_operation e =? 1.
Definition entry_page_count (e : psc_entry) : Z :=
  if entry_pagesize e =? 0 then 1 else 512.

(** The body of the [for] loop of [next_contig_gpa_range], run for the [n]
    indices [i, i+1, ...] that remain up to [hdr.end_entry]. The result is
    the function's return value, its out-parameters and the descriptor
    with the progress counters it wrote. *)
Fixpoint contig_loop (n : nat) (i : Z) (d : snp_psc_desc) (r : contig_range)
  : outcome (Z * contig_range * snp_psc_desc) :=
  match n with
  | O => Ret (if gfn_count r =? 0 then - ENOENT else 0, r, d)
  | S n' =>
    match desc_entry d i with
    | None => Stop (OutOfRange i)
    | Some entry =>
      let to_private := entry_to_private entry in
      let page_count := entry_page_count entry in
      let r1 := if gfn_count r =? 0
                then mk_range (entries_processed r) (entry_gfn entry)
                              (gfn_count r) to_private
                else r in
      if negb (entry_gfn entry =? wrap64 (gfn_base r1 + gfn_count r1))
         || negb (eqb to_private (range_to_private r1))
      then Ret (0, r1, d)
      else
        let r2 := mk_range (wrap16 (entries_processed r1 + 1)) (gfn_base r1)
                           (gfn_count r1 + page_count) (range_to_private r1) in
        contig_loop n' (i + 1)
          (set_entry d i (entry_set_cur_page entry page_count)) r2
    end
  end.

Definition next_contig_gpa_range (d : snp_psc_desc)
  : outcome (Z * contig_range * snp_psc_desc) :=
  contig_loop (Z.to_nat (end_entry (hdr d) + 1 - cur_entry (hdr d)))
              (cur_entry (hdr d)) d (mk_range 0 0 0 false).

(** The collaborators of the page-state-change handler. *)
Inductive event : Type :=
| EvMap (gpa len : Z)                (* address_space_map(.., gpa, &len, true, ..) *)
| EvUnmap (len access_len : Z)       (* address_space_unmap(.., buf, len, true, access_len) *)
| EvWriteBack (gpa : Z) (d : snp_psc_desc)
                                     (* memcpy(ghcb_shared_buf, shared_buf, ..) *)
| EvConvertMemory (start size : Z) (to_private : bool).
                                     (* kvm_convert_memory(start, size, to_private) *)

Record Env : Type := mk_env {
  (* the length address_space_map leaves in [len] *)
  address_space_map : list event -> Z -> Z -> Z;
  (* what the mapped GHCB shared buffer holds, read through the
     [struct snp_psc_desc] cast *)
  shared_buffer : list event -> Z -> snp_psc_desc;
  (* the return value of kvm_convert_memory *)
  kvm_convert_memory : list event -> Z -> Z -> bool -> Z
}.

Section Handler.
Variable E : Env.

Definition convert_memory (start size : Z) (to_private : bool) : M event Z :=
  call (EvConvertMemory start size to_private)
       (fun t => kvm_convert_memory E t start size to_private).

(** The [while] loop of [kvm_handle_vmgexit_psc]. It yields the value left
    in [*psc_ret] and the local copy of the descriptor. The size handed to
    the conversion is an [int] product; for a run inside the array it is
    at most 253 * 512 * 0x1000, below 2^31. *)
Fixpoint psc_loop (fuel : nat) (d : snp_psc_desc) : M event (Z * snp_psc_desc) :=
  match fuel with
  | O => m_stop OutOfFuel
  | S fuel' =>
    match next_contig_gpa_range d with
    | Stop s => m_stop s
    | Ret (rc, r, d1) =>
      if rc =? 0 then
        ret ← convert_memory (wrap64 (gfn_base r * 0x1000))
                             (gfn_count r * 0x1000) (range_to_private r);
        if ret =? 0
        then psc_loop fuel'
               (set_cur_entry d1
                  (wrap16 (cur_entry (hdr d1) + entries_processed r)))
        else mret (Z.shiftl 0x100 32, d1)
      else mret (0, d1)
    end
  end.

(** Iterations the loop can need: one per entry between the cursor and
    the end entry, and the final call that finds nothing left. *)
Definition psc_fuel (d : snp_psc_desc) : nat :=
  S (Z.to_nat (end_entry (hdr d) + 1 - cur_entry (hdr d))).

(** [kvm_handle_vmgexit_psc]: the result is the return value and [*psc_ret]. *)
Definition kvm_handle_vmgexit_psc (shared_gpa : Z) : M event (Z * Z) :=
  len ← call (EvMap shared_gpa GHCB_SHARED_BUF_SIZE)
             (fun t => address_space_map E t shared_gpa GHCB_SHARED_BUF_SIZE);
  if len <? GHCB_SHARED_BUF_SIZE then
    _ ← emit (EvUnmap len len);
    mret (0, PSC_ERROR_GENERIC)
  else
    d ← (fun t => (Ret (shared_buffer E t shared_gpa), t));
    _ ← emit (EvUnmap len len);
    '(psc_ret, d') ← psc_loop (psc_fuel d) d;
    len2 ← call (EvMap shared_gpa len)
                (fun t => address_space_map E t shared_gpa len);
    if len2 <? GHCB_SHARED_BUF_SIZE then
      _ ← emit (EvUnmap len2 len2);
      mret (0, PSC_ERROR_GENERIC)
    else
      _ ← emit (EvWriteBack shared_gpa d');
      _ ← emit (EvUnmap len2 len2);
      mret (0, psc_ret).

End Handler.

(** *** What the specification calls a run *)

(** Two consecutive entries continue a run when the second starts at the
    frame right after the pages of the first (512 for a 2 MiB entry, 1 for
    a 4 KiB entry) and asks for the same direction. *)
Definition adjacent (a b : psc_entry) : bool :=
  (entry_gfn b =? entry_gfn a + entry_page_count a)
  && eqb (entry_to_private a) (entry_to_private b).


(** Entries of [l] that continue the run whose last entry is [prev]. *)
Fixpoint run_ext (prev : psc_entry) (l : list psc_entry) : nat :=
  match l with
  | e :: l' => if adjacent prev e then S (run_ext e l') else O
  | [] => O
  end.

(** Length of the longest run that starts at the head of [w]. *)
Definition run_length (w : list psc_entry) : nat :=
  match w with
  | e :: l => S (run_ext e l)
  | [] => O
  end.

(** The entries from the cursor to the end entry (as far as the array
    reaches). *)
Definition window (d : snp_psc_desc) : list psc_entry :=
  take (Z.to_nat (end_entry (hdr d) + 1 - cur_entry (hdr d)))
       (drop (Z.to_nat (cur_entry (hdr d))) (entries d)).

Definition sum_pages (l : list psc_entry) : Z :=
  foldr (fun e acc => entry_page_count e + acc) 0 l.

(** The progress counter of a consumed entry is set to its page count. *)
Definition mark (e : psc_entry) : psc_entry :=
  entry_set_cur_page e (entry_page_count e).

Definition mark_range (j k : nat) (es : list psc_entry) : list psc_entry :=
  take j es ++ (mark <$> take k (drop j es)) ++ drop (j + k) es.








Definition is_convert (ev : event) : bool :=
  match ev with
  | EvConvertMemory _ _ _ => true
  | _ => false
  end.

Definition is_write_back (ev : event) : bool :=
  match ev with
  | EvWriteBack _ _ => true
  | _ => false
  end.

(** Descriptors and environments on which the handler is exercised. *)
Definition private_4k (gfn : Z) : psc_entry := mk_entry 0 gfn 1 0.
Definition shared_4k (gfn : Z) : psc_entry := mk_entry 0 gfn 2 0.

Definition desc_of (cur last : Z) (l : list psc_entry) : snp_psc_desc :=
  mk_desc (mk_psc_hdr cur last 0)
          (l ++ replicate (Z.to_nat VMGEXIT_PSC_MAX_ENTRY - length l) 0).

(** Frames 10, 11, 12 to private, then frame 20 to shared. *)
Definition desc_three_then_one : snp_psc_desc :=
  desc_of 0 3 [private_4k 10; private_4k 11; private_4k 12; shared_4k 20].

(** Contiguous frames 10, 11, 12 with the direction changing at 11. *)
Definition desc_direction_change : snp_psc_desc :=
  desc_of 0 2 [private_4k 10; shared_4k 11; private_4k 12].

(** All 253 slots hold one run, and the end entry points one past them. *)
Definition desc_end_253 : snp_psc_desc :=
  desc_of 0 253 ((fun i => private_4k (Z.of_nat i)) <$> seq 0 253).

(** The buffer always maps in full and holds [d]; conversions return
    [ret]. *)
Definition env_const (d : snp_psc_desc) (ret : Z) : Env :=
  mk_env (fun _ _ len => len) (fun _ _ => d) (fun _ _ _ _ => ret).


Definition desc_wf (d : snp_psc_desc) : Prop :=
  length (entries d) = Z.to_nat VMGEXIT_PSC_MAX_ENTRY
  /\ 0 <= cur_entry (hdr d) < 2 ^ 16
  /\ 0 <= end_entry (hdr d) < 2 ^ 16.

End Psc.

(** ** Measured kernel-hash table *)

Module HashTable.

(** [#define HASH_SIZE 32]: the SHA-256 digest size. *)
Definition HASH_SIZE : Z := 32.

(** Modelled from the spec: [ROUND_UP(n, d)] is a macro of the common
    headers, outside this file; it rounds [n] up to the next multiple of
    the power of two [d]. *)
Definition ROUND_UP (n d : Z) : Z := Z.land (n + d - 1) (- d).

(** Modelled from the spec: [QemuUUID] is declared outside this file; it
    is 16 bytes, and [UUID_LE] lays the first three fields out in
    little-endian byte order. *)
Definition sizeof_QemuUUID : Z := 16.

Definition byte_of_Z (v : Z) : byte :=
  default Byte.x00 (Byte.of_N (Z.to_N (v mod 256))).

(** The [n] low bytes of [v], least significant first. *)
Definition le_bytes (n : nat) (v : Z) : list byte :=
  (fun i => byte_of_Z (Z.shiftr v (8 * Z.of_nat i))) <$> seq 0 n.

Definition UUID_LE (time_low time_mid time_hi_and_version
                    clock_seq_hi clock_seq_low
                    node0 node1 node2 node3 node4 node5 : Z) : list byte :=
  le_bytes 4 time_low ++ le_bytes 2 time_mid ++ le_bytes 2 time_hi_and_version
  ++ (byte_of_Z <$> [clock_seq_hi; clock_seq_low;
                     node0; node1; node2; node3; node4; node5]).

Definition sev_hash_table_header_guid : list byte :=
  UUID_LE 0x9438d606 0x4f22 0x4cc9 0xb4 0x79 0xa7 0x93 0xd4 0x11 0xfd 0x21.
Definition sev_kernel_entry_guid : list byte :=
  UUID_LE 0x4de79437 0xabd2 0x427f 0xb8 0x35 0xd5 0xb1 0x72 0xd2 0x04 0x5b.
Definition sev_initrd_entry_guid : list byte :=
  UUID_LE 0x44baf731 0x3a2f 0x4bd7 0x9a 0xf1 0x41 0xe2 0x91 0x69 0x78 0x1d.
Definition sev_cmdline_entry_guid : list byte :=
  UUID_LE 0x97d02dd8 0xbd20 0x4c94 0xaa 0x78 0xe7 0x71 0x4d 0x36 0xab 0x2a.

(** [struct SevHashTableEntry] (packed). *)
Record SevHashTableEntry : Type := mk_entry {
  e_guid : list byte;     (* QemuUUID *)
  e_len  : Z;             (* uint16_t *)
  e_hash : list byte      (* uint8_t hash[HASH_SIZE] *)
}.

(** [struct SevHashTable] (packed). *)
Record SevHashTable : Type := mk_table {
  guid    : list byte;    (* QemuUUID *)
  len     : Z;            (* uint16_t *)
  cmdline : SevHashTableEntry;
  initrd  : SevHashTableEntry;
  kernel  : SevHashTableEntry
}.

Definition sizeof_SevHashTableEntry : Z := sizeof_QemuUUID + 2 + HASH_SIZE.
Definition sizeof_SevHashTable : Z :=
  sizeof_QemuUUID + 2 + 3 * sizeof_SevHashTableEntry.

(** [struct PaddedSevHashTable]: the table and
    [padding[ROUND_UP(sizeof(SevHashTable), 16) - sizeof(SevHashTable)]]. *)
Record PaddedSevHashTable : Type := mk_padded {
  ht : SevHashTable;
  padding : list byte
}.

Definition sizeof_padding : Z :=
  ROUND_UP sizeof_SevHashTable 16 - sizeof_SevHashTable.
Definition sizeof_PaddedSevHashTable : Z := sizeof_SevHashTable + sizeof_padding.

(** The bytes of the packed structures, as they lie in guest memory. *)
Definition entry_bytes (e : SevHashTableEntry) : list byte :=
  e_guid e ++ le_bytes 2 (e_len e) ++ e_hash e.

Definition table_bytes (t : SevHashTable) : list byte :=
  guid t ++ le_bytes 2 (len t)
  ++ entry_bytes (cmdline t) ++ entry_bytes (initrd t) ++ entry_bytes (kernel t).

Definition padded_bytes (p : PaddedSevHashTable) : list byte :=
  table_bytes (ht p) ++ padding p.

(** Modelled from the spec: [SevKernelLoaderContext] is declared in the
    header of this file; each buffer is given here with its contents, its
    size being the length. *)
Record SevKernelLoaderContext : Type := mk_ctx {
  setup_data   : list byte;
  kernel_data  : list byte;
  initrd_data  : list byte;
  cmdline_data : list byte
}.

Section Build.
(** [qcrypto_hash_bytes(QCRYPTO_HASH_ALG_SHA256, ..)] and
    [qcrypto_hash_bytesv]: the digest, or [None] for a negative return. The
    vectored form hashes the concatenation of its buffers. *)
Variable qcrypto_hash_bytes : list byte -> option (list byte).

(** One hashing step of [build_kernel_loader_hashes]: [None] is the early
    [return false]; the [assert(hash_len == HASH_SIZE)] follows. *)
Definition hash_step (data : list byte) : outcome (option (list byte)) :=
  match qcrypto_hash_bytes data with
  | None => Ret None
  | Some digest =>
    if Z.of_nat (length digest) =? HASH_SIZE then Ret (Some digest)
    else Stop AssertFail
  end.

(** [build_kernel_loader_hashes]: the return value and the table left in
    [*padded_ht]. *)
Definition build_kernel_loader_hashes (padded_ht : PaddedSevHashTable)
    (ctx : SevKernelLoaderContext) : outcome (bool * PaddedSevHashTable) :=
  match hash_step (cmdline_data ctx) with
  | Stop s => Stop s
  | Ret None => Ret (false, padded_ht)
  | Ret (Some cmdline_hash) =>
    match hash_step (initrd_data ctx) with
    | Stop s => Stop s
    | Ret None => Ret (false, padded_ht)
    | Ret (Some initrd_hash) =>
      match hash_step (setup_data ctx ++ kernel_data ctx) with
      | Stop s => Stop s
      | Ret None => Ret (false, padded_ht)
      | Ret (Some kernel_hash) =>
        let copy (h : list byte) := take (Z.to_nat HASH_SIZE) h in
        let ht' :=
          mk_table sev_hash_table_header_guid sizeof_SevHashTable
            (mk_entry sev_cmdline_entry_guid sizeof_SevHashTableEntry
                      (copy cmdline_hash))
            (mk_entry sev_initrd_entry_guid sizeof_SevHashTableEntry
                      (copy initrd_hash))
            (mk_entry sev_kernel_entry_guid sizeof_SevHashTableEntry
                      (copy kernel_hash)) in
        Ret (true,
             mk_padded ht' (replicate (Z.to_nat sizeof_padding) Byte.x00))
      end
    end
  end.

End Build.

(** A stand-in hash function with 32-byte digests, a loader context and
    a destination holding arbitrary bytes, to run the builder on. *)
Definition digest_stub (data : list byte) : option (list byte) :=
  Some (replicate 32 (byte_of_Z (Z.of_nat (length data)))).

Definition ctx_sample : SevKernelLoaderContext :=
  mk_ctx [] [Byte.x4d; Byte.x5a] [] [Byte.x00].

Definition table_scratch : PaddedSevHashTable :=
  mk_padded (mk_table [] 0 (mk_entry [] 0 []) (mk_entry [] 0 [])
                      (mk_entry [] 0 []))
            (replicate 8 Byte.xff).

End HashTable.

(** ** Launch state machine *)

Module Launch.

(** Modelled from the spec: [SevState] is generated from the QAPI schema,
    outside this file. The four launch states come first; the schema also
    has two migration states, and [SEV_STATE__MAX] closes the list. *)
Inductive SevState : Type :=
| SEV_STATE_UNINIT
| SEV_STATE_LAUNCH_UPDATE
| SEV_STATE_LAUNCH_SECRET
| SEV_STATE_RUNNING
| SEV_STATE_SEND_UPDATE
| SEV_STATE_RECEIVE_UPDATE.

#[global] Instance SevState_eq_dec : EqDecision SevState.
Proof. solve_decision. Defined.

(** The integer value of the enumerator. *)
Definition SevState_val (s : SevState) : Z :=
  match s with
  | SEV_STATE_UNINIT => 0
  | SEV_STATE_LAUNCH_UPDATE => 1
  | SEV_STATE_LAUNCH_SECRET => 2
  | SEV_STATE_RUNNING => 3
  | SEV_STATE_SEND_UPDATE => 4
  | SEV_STATE_RECEIVE_UPDATE => 5
  end.

Definition SEV_STATE__MAX : Z := 6.

(** Modelled from the spec: these constants come from the kernel and
    firmware headers, outside this file. *)
Definition SEV_POLICY_ES : Z := 0x4.
Definition SEV_STATUS_FLAGS_CONFIG_ES : Z := 0x100.
Definition TARGET_PAGE_BITS : Z := 12.
Definition KVM_SEV_SNP_PAGE_TYPE_NORMAL : Z := 1.
Definition KVM_SEV_SNP_PAGE_TYPE_VMSA : Z := 2.
Definition KVM_SEV_SNP_PAGE_TYPE_ZERO : Z := 3.
Definition KVM_SEV_SNP_PAGE_TYPE_UNMEASURED : Z := 4.
Definition KVM_SEV_SNP_PAGE_TYPE_SECRETS : Z := 5.
Definition KVM_SEV_SNP_PAGE_TYPE_CPUID : Z := 6.
Definition SEV_DESC_TYPE_SNP_SEC_MEM : Z := 1.
Definition SEV_DESC_TYPE_SNP_SECRETS : Z := 2.
Definition SEV_DESC_TYPE_CPUID : Z := 3.
Definition SEV_DESC_TYPE_SNP_KERNEL_HASHES : Z := 0x10.

Definition wrap32 (x : Z) : Z := x mod 2 ^ 32.

(** [struct SevCommonState]; [launch_vmsa], which none of the functions
    below reads, is left out. Host pointers are integers, 0 being NULL. *)
Record SevCommonState : Type := mk_common {
  cbitpos : Z;
  reduced_phys_bits : Z;
  kernel_hashes : bool;
  api_major : Z;
  api_minor : Z;
  build_id : Z;
  sev_fd : Z;
  state : SevState
}.

(** [struct SevGuestState] without the embedded common part. The
    measurement is kept as the bytes that are base64-encoded. *)
Record SevGuestState : Type := mk_sev_guest {
  measurement : option (list byte);
  handle : Z;
  policy : Z;
  dh_cert_file : option String.string;
  session_file : option String.string
}.

(** [struct SevSnpGuestState] without the embedded common part; the
    configuration blobs handed unchanged to the kernel are left out. *)
Record SevSnpGuestState : Type := mk_snp_guest {
  certs_path : option String.string;
  kernel_hashes_offset : Z;
  kernel_hashes_data : option HashTable.PaddedSevHashTable
}.

(** The two concrete object types that share [SevCommonState]. *)
Inductive SevKind : Type :=
| SevGuest (g : SevGuestState)
| SevSnpGuest (g : SevSnpGuestState).

Record SevObject : Type := mk_obj {
  common : SevCommonState;
  kind : SevKind
}.

(** [struct SevLaunchUpdateData]. *)
Record SevLaunchUpdateData : Type := mk_update {
  gpa : Z;      (* hwaddr *)
  hva : Z;      (* void * *)
  len : Z;      (* uint64_t *)
  type : Z      (* int *)
}.

(** What the functions below reach through globals: the machine's
    confidential-guest object ([None] when SEV is not configured), the
    static list [launch_update], and the notifiers registered with the
    machine core. *)
Record Machine : Type := mk_machine {
  cgs : option SevObject;
  launch_update : list SevLaunchUpdateData;
  ram_notifier : bool;
  machine_done_notifier : bool;
  vm_change_state_handler : bool;
  cgs_ready : bool;
  require_guest_memfd : bool
}.

Definition set_state (c : SevCommonState) (s : SevState) : SevCommonState :=
  mk_common (cbitpos c) (reduced_phys_bits c) (kernel_hashes c)
            (api_major c) (api_minor c) (build_id c) (sev_fd c) s.

Definition set_sev_fd (c : SevCommonState) (fd : Z) : SevCommonState :=
  mk_common (cbitpos c) (reduced_phys_bits c) (kernel_hashes c)
            (api_major c) (api_minor c) (build_id c) fd (state c).

Definition set_versions (c : SevCommonState) (build major minor : Z)
  : SevCommonState :=
  mk_common (cbitpos c) (reduced_phys_bits c) (kernel_hashes c)
            major minor build (sev_fd c) (state c).

Definition set_cgs (m : Machine) (o : SevObject) : Machine :=
  mk_machine (Some o) (launch_update m) (ram_notifier m)
             (machine_done_notifier m) (vm_change_state_handler m)
             (cgs_ready m) (require_guest_memfd m).

Definition set_common (m : Machine) (o : SevObject) (c : SevCommonState)
  : Machine :=
  set_cgs m (mk_obj c (kind o)).

Definition set_launch_update (m : Machine) (q : list SevLaunchUpdateData)
  : Machine :=
  mk_machine (cgs m) q (ram_notifier m) (machine_done_notifier m)
             (vm_change_state_handler m) (cgs_ready m) (require_guest_memfd m).

(** The commands sent with [KVM_MEMORY_ENCRYPT_OP], with the fields of
    their argument structures that this file fills in. *)
Inductive sev_cmd : Type :=
| KVM_SEV_INIT
| KVM_SEV_ES_INIT
| KVM_SEV_SNP_INIT
| KVM_SEV_LAUNCH_START (handle policy : Z) (session dh_cert : option (list byte))
| KVM_SEV_SNP_LAUNCH_START
| KVM_SEV_LAUNCH_UPDATE_DATA (uaddr len : Z)
| KVM_SEV_LAUNCH_UPDATE_VMSA
| KVM_SEV_LAUNCH_MEASURE (has_buffer : bool) (len : Z)
| KVM_SEV_LAUNCH_SECRET (hdr trans : list byte) (guest_uaddr guest_len : Z)
| KVM_SEV_LAUNCH_FINISH
| KVM_SEV_SNP_LAUNCH_UPDATE (uaddr start_gfn len page_type : Z)
| KVM_SEV_SNP_LAUNCH_FINISH.

(** Calls that leave this file. *)
Inductive event : Type :=
| EvRamBlockDiscardDisable (on : bool)
| EvOpenDevice
| EvPlatformStatus (fd : Z)                    (* sev_platform_ioctl *)
| EvSevIoctl (fd : Z) (cmd : sev_cmd)          (* sev_ioctl *)
| EvReadFile (name : String.string)            (* sev_read_file_base64 *)
| EvChangeState (old new : SevState)           (* trace_kvm_sev_change_state *)
| EvMigrateAddBlocker
| EvConvertMemory (start size : Z) (to_private : bool)
| EvGpa2Hva (gpa len : Z)
| EvCpuidTable (hva : Z)                       (* the CPUID page is filled in *)
| EvKernelHashes (hva len offset : Z) (data : HashTable.PaddedSevHashTable).
                                               (* memset + memcpy into the page *)

(** What [sev_ioctl] hands back: the return value, the firmware error,
    and what the kernel stored in the argument structure. *)
Record ioctl_reply : Type := mk_reply {
  io_ret : Z;
  io_error : Z;
  io_len : Z;              (* measurement.len *)
  io_handle : Z;           (* start.handle *)
  io_data : list byte      (* the bytes left in the caller's buffer *)
}.

Record status_reply : Type := mk_status {
  st_ret : Z;
  st_error : Z;
  st_build : Z;
  st_api_major : Z;
  st_api_minor : Z;
  st_flags : Z
}.

(** [struct OvmfSevMetadataDesc] (declared with the firmware loader). *)
Record OvmfSevMetadataDesc : Type := mk_meta {
  meta_base : Z;
  meta_len : Z;
  meta_type : Z
}.

Record Env : Type := mk_env {
  ram_block_discard_disable : list event -> bool -> Z;
  host_cpuid_ebx : Z;                          (* CPUID 0x8000001F, EBX *)
  open_device : list event -> Z;
  platform_status : list event -> Z -> status_reply;
  kvm_kernel_irqchip_allowed : bool;
  kvm_sev_ioctl : list event -> Z -> sev_cmd -> ioctl_reply;
  read_file_base64 : list event -> String.string -> option (list byte);
  migrate_add_blocker : list event -> Z;
  kvm_convert_memory : list event -> Z -> Z -> bool -> Z;
  ovmf_sev_metadata : option (list OvmfSevMetadataDesc);
  gpa2hva : list event -> Z -> Z -> Z;
  (* KVM_GET_CPUID2 and the table filled from it: 0 when both succeed *)
  cpuid_table : list event -> Z -> Z;
  g_base64_decode : String.string -> list byte
}.

(** Errors handed back through [Error **errp]. *)
Inductive error : Type :=
| ErrNotEnabled                 (* "SEV not enabled for guest" *)
| ErrNotInState (s : SevState)  (* "SEV: Not in correct state. (LSECRET) %x" *)
| ErrDecodeHeader               (* "SEV: Failed to decode sequence header" *)
| ErrDecodeData                 (* "SEV: Failed to decode data" *)
| ErrGuestAddress               (* "SEV: Failed to calculate guest address: " *)
| ErrInjectSecret (ret fw_error : Z)
                                (* "SEV: failed to inject secret ret=.." *)
| ErrEncryptFlash               (* "SEV: Failed to encrypt pflash rom" *)
| ErrCbitpos | ErrReducedPhysBits | ErrOpen | ErrPlatformStatus
| ErrIrqchip | ErrInit | ErrLaunchStart.

Section Functions.
Variable E : Env.

Definition exit {A} (code : Z) : M event A := m_stop (Exit code).

Definition sev_ioctl (fd : Z) (cmd : sev_cmd) : M event ioctl_reply :=
  call (EvSevIoctl fd cmd) (fun t => kvm_sev_ioctl E t fd cmd).

Definition convert_memory (start size : Z) (to_private : bool) : M event Z :=
  call (EvConvertMemory start size to_private)
       (fun t => kvm_convert_memory E t start size to_private).

Definition sev_enabled (m : Machine) : bool :=
  match cgs m with
  | Some _ => true
  | None => false
  end.

Definition sev_snp_enabled (m : Machine) : bool :=
  match cgs m with
  | Some (mk_obj _ (SevSnpGuest _)) => true
  | _ => false
  end.

Definition sev_es_enabled (m : Machine) : bool :=
  sev_snp_enabled m
  || match cgs m with
     | Some (mk_obj _ (SevGuest g)) => negb (Z.land (policy g) SEV_POLICY_ES =? 0)
     | _ => false
     end.

Definition sev_check_state (c : SevCommonState) (s : SevState) : bool :=
  bool_decide (state c = s).

(** [sev_set_guest_state]: the trace point records the change. *)
Definition sev_set_guest_state (c : SevCommonState) (new_state : SevState)
  : M event SevCommonState :=
  if SevState_val new_state <? SEV_STATE__MAX then
    _ ← emit (EvChangeState (state c) new_state);
    mret (set_state c new_state)
  else m_stop AssertFail.

Definition sev_launch_update_vmsa (c : SevCommonState) : M event Z :=
  r ← sev_ioctl (sev_fd c) KVM_SEV_LAUNCH_UPDATE_VMSA;
  mret (io_ret r).

(** [sev_launch_get_measure], the machine-init-done notifier. The casts
    [SEV_COMMON()] and [SEV_GUEST()] need a plain SEV object. *)
Definition sev_launch_get_measure (m : Machine) : M event Machine :=
  match cgs m with
  | Some (mk_obj c (SevGuest g)) =>
    if negb (sev_check_state c SEV_STATE_LAUNCH_UPDATE) then mret m
    else
      _ ← (if sev_es_enabled m then
             ret ← sev_launch_update_vmsa c;
             if negb (ret =? 0) then exit 1 else mret tt
           else mret tt);
      (* query the measurement blob length *)
      r1 ← sev_ioctl (sev_fd c) (KVM_SEV_LAUNCH_MEASURE false 0);
      if io_len r1 =? 0 then mret m
      else
        (* get the measurement blob *)
        r2 ← sev_ioctl (sev_fd c) (KVM_SEV_LAUNCH_MEASURE true (io_len r1));
        if negb (io_ret r2 =? 0) then mret m
        else
          c' ← sev_set_guest_state c SEV_STATE_LAUNCH_SECRET;
          mret (set_cgs m
                  (mk_obj c' (SevGuest
                     (mk_sev_guest (Some (io_data r2)) (handle g) (policy g)
                                   (dh_cert_file g) (session_file g)))))
  | _ => m_stop AssertFail
  end.

Definition sev_launch_finish (m : Machine) (o : SevObject) : M event Machine :=
  r ← sev_ioctl (sev_fd (common o)) KVM_SEV_LAUNCH_FINISH;
  if negb (io_ret r =? 0) then exit 1
  else
    c' ← sev_set_guest_state (common o) SEV_STATE_RUNNING;
    (* migrate_add_blocker(.., &error_fatal) *)
    b ← call EvMigrateAddBlocker (migrate_add_blocker E);
    if negb (b =? 0) then exit 1 else mret (set_common m o c').

(** [snp_launch_update_data]: [QTAILQ_INSERT_TAIL]; the length parameter
    is a [uint32_t]. *)
Definition snp_launch_update_data (m : Machine) (gpa hva len type : Z)
  : Z * Machine :=
  (0, set_launch_update m
        (launch_update m ++ [mk_update gpa hva (wrap32 len) type])).

Definition sizeof_SnpCpuidInfo : Z := 16 + 64 * 48.

(** [snp_launch_update_cpuid]; reading the CPUID leaves from the kernel,
    re-encoding them and copying the table into the page is the one call
    [EvCpuidTable], which answers 0 when no step failed. *)
Definition snp_launch_update_cpuid (m : Machine) (cpuid_addr hva cpuid_len : Z)
  : M event (Z * Machine) :=
  if cpuid_len <? sizeof_SnpCpuidInfo then m_stop AssertFail
  else
    ret ← call (EvCpuidTable hva) (fun t => cpuid_table E t hva);
    if negb (ret =? 0) then mret (1, m)
    else mret (snp_launch_update_data m cpuid_addr hva cpuid_len
                                      KVM_SEV_SNP_PAGE_TYPE_CPUID).

Definition snp_launch_update_kernel_hashes (m : Machine) (c : SevCommonState)
    (snp : SevSnpGuestState) (addr hva len : Z) : M event (Z * Machine) :=
  if kernel_hashes c then
    match kernel_hashes_data snp with
    | None => m_stop AssertFail
    | Some data =>
      if len <? kernel_hashes_offset snp + HashTable.sizeof_PaddedSevHashTable
      then m_stop AssertFail
      else
        _ ← emit (EvKernelHashes hva len (kernel_hashes_offset snp) data);
        mret (snp_launch_update_data m addr hva len KVM_SEV_SNP_PAGE_TYPE_NORMAL)
    end
  else mret (snp_launch_update_data m addr hva len KVM_SEV_SNP_PAGE_TYPE_ZERO).

Definition snp_metadata_desc_to_page_type (desc_type : Z) : Z :=
  if desc_type =? SEV_DESC_TYPE_SNP_SEC_MEM then KVM_SEV_SNP_PAGE_TYPE_ZERO
  else if desc_type =? SEV_DESC_TYPE_SNP_SECRETS then KVM_SEV_SNP_PAGE_TYPE_SECRETS
  else if desc_type =? SEV_DESC_TYPE_CPUID then KVM_SEV_SNP_PAGE_TYPE_CPUID
  else if desc_type =? SEV_DESC_TYPE_SNP_KERNEL_HASHES
       then KVM_SEV_SNP_PAGE_TYPE_NORMAL
  else -1.

Fixpoint snp_populate_metadata_pages (m : Machine) (c : SevCommonState)
    (snp : SevSnpGuestState) (descs : list OvmfSevMetadataDesc)
  : M event Machine :=
  match descs with
  | [] => mret m
  | desc :: descs' =>
    let type := snp_metadata_desc_to_page_type (meta_type desc) in
    if type <? 0 then exit 1
    else
      hva ← call (EvGpa2Hva (meta_base desc) (meta_len desc))
                 (fun t => gpa2hva E t (meta_base desc) (meta_len desc));
      if hva =? 0 then exit 1
      else
        '(ret, m1) ←
          (if type =? KVM_SEV_SNP_PAGE_TYPE_CPUID then
             snp_launch_update_cpuid m (meta_base desc) hva (meta_len desc)
           else if meta_type desc =? SEV_DESC_TYPE_SNP_KERNEL_HASHES then
             snp_launch_update_kernel_hashes m c snp (meta_base desc) hva
                                             (meta_len desc)
           else mret (snp_launch_update_data m (meta_base desc) hva
                                             (meta_len desc) type));
        if negb (ret =? 0) then exit 1
        else snp_populate_metadata_pages m1 c snp descs'
  end.

Definition sev_snp_launch_update (c : SevCommonState) (data : SevLaunchUpdateData)
  : M event Z :=
  if (hva data =? 0) || (len data =? 0) then mret 1
  else
    r ← sev_ioctl (sev_fd c)
          (KVM_SEV_SNP_LAUNCH_UPDATE (hva data)
             (Z.shiftr (gpa data) TARGET_PAGE_BITS) (len data) (type data));
    if negb (io_ret r =? 0) then mret (io_ret r)
    else convert_memory (gpa data) (len data) true.

(** The [QTAILQ_FOREACH] loop of [sev_snp_launch_finish]. *)
Fixpoint launch_update_foreach (c : SevCommonState)
    (q : list SevLaunchUpdateData) : M event unit :=
  match q with
  | [] => mret tt
  | data :: q' =>
    ret ← sev_snp_launch_update c data;
    if negb (ret =? 0) then exit 1
    else launch_update_foreach c q'
  end.

Definition sev_snp_launch_finish (m : Machine) (o : SevObject)
    (snp : SevSnpGuestState) : M event Machine :=
  match ovmf_sev_metadata E with
  | None => exit 1
  | Some descs =>
    m1 ← snp_populate_metadata_pages m (common o) snp descs;
    _ ← launch_update_foreach (common o) (launch_update m1);
    r ← sev_ioctl (sev_fd (common o)) KVM_SEV_SNP_LAUNCH_FINISH;
    if negb (io_ret r =? 0) then exit 1
    else
      c' ← sev_set_guest_state (common o) SEV_STATE_RUNNING;
      b ← call EvMigrateAddBlocker (migrate_add_blocker E);
      if negb (b =? 0) then exit 1 else mret (set_common m1 o c')
  end.

Definition sev_vm_state_change (m : Machine) (running : bool) : M event Machine :=
  if running then
    match cgs m with
    | None => m_stop AssertFail
    | Some o =>
      if negb (sev_check_state (common o) SEV_STATE_RUNNING) then
        match kind o with
        | SevSnpGuest snp => sev_snp_launch_finish m o snp
        | SevGuest _ => sev_launch_finish m o
        end
      else mret m
    end
  else mret m.

Definition sev_read_file_base64 (name : String.string)
  : M event (option (list byte)) :=
  call (EvReadFile name) (fun t => read_file_base64 E t name).

(** [sev_launch_start]: the return value and the updated object. *)
Definition sev_launch_start (c : SevCommonState) (g : SevGuestState)
  : M event (Z * SevObject) :=
  let unchanged := mk_obj c (SevGuest g) in
  session ← match session_file g with
            | Some f => r ← sev_read_file_base64 f; mret (Some r)
            | None => mret None
            end;
  match session with
  | Some None => mret (1, unchanged)
  | _ =>
    dh_cert ← match dh_cert_file g with
              | Some f => r ← sev_read_file_base64 f; mret (Some r)
              | None => mret None
              end;
    match dh_cert with
    | Some None => mret (1, unchanged)
    | _ =>
      r ← sev_ioctl (sev_fd c)
            (KVM_SEV_LAUNCH_START (handle g) (policy g)
               (mjoin session) (mjoin dh_cert));
      if io_ret r <? 0 then mret (1, unchanged)
      else
        c' ← sev_set_guest_state c SEV_STATE_LAUNCH_UPDATE;
        mret (0, mk_obj c' (SevGuest
                   (mk_sev_guest (measurement g) (io_handle r) (policy g)
                                 (dh_cert_file g) (session_file g))))
    end
  end.

(** [sev_snp_launch_start]: the return value, the object and the
    ([QTAILQ_INIT]ed) update list. *)
Definition sev_snp_launch_start (m : Machine) (c : SevCommonState)
    (snp : SevSnpGuestState) : M event (Z * Machine) :=
  r ← sev_ioctl (sev_fd c) KVM_SEV_SNP_LAUNCH_START;
  if io_ret r <? 0 then mret (1, m)
  else
    c' ← sev_set_guest_state c SEV_STATE_LAUNCH_UPDATE;
    mret (0, set_launch_update (set_cgs m (mk_obj c' (SevSnpGuest snp))) []).

Definition set_notifiers (m : Machine) (ram done change ready memfd : bool)
  : Machine :=
  mk_machine (cgs m) (launch_update m) ram done change ready memfd.

(** [sev_kvm_init]: the return value, the error left in [errp] and the
    machine. *)
Definition sev_kvm_init (m : Machine) : M event (Z * option error * Machine) :=
  match cgs m with
  | None => mret (0, None, m)
  | Some o =>
    ret ← call (EvRamBlockDiscardDisable true)
               (fun t => ram_block_discard_disable E t true);
    if negb (ret =? 0) then mret (-1, None, m)
    else
      let c0 := set_state (common o) SEV_STATE_UNINIT in
      let m0 := set_common m o c0 in
      let err (e : option error) (m' : Machine)
            : M event (Z * option error * Machine) :=
        _ ← call (EvRamBlockDiscardDisable false)
                 (fun t => ram_block_discard_disable E t false);
        mret (-1, e, m') in
      let host_cbitpos := Z.land (host_cpuid_ebx E) 0x3f in
      if negb (host_cbitpos =? cbitpos c0) then err (Some ErrCbitpos) m0
      else if (reduced_phys_bits c0 <? 1) || (63 <? reduced_phys_bits c0)
      then err (Some ErrReducedPhysBits) m0
      else
        fd ← call EvOpenDevice (open_device E);
        let c1 := set_sev_fd c0 fd in
        let m1 := set_common m o c1 in
        if fd <? 0 then err (Some ErrOpen) m1
        else
          status ← call (EvPlatformStatus fd) (fun t => platform_status E t fd);
          if negb (st_ret status =? 0) then err (Some ErrPlatformStatus) m1
          else
            let c2 := set_versions c1 (st_build status) (st_api_major status)
                                   (st_api_minor status) in
            let m2 := set_common m o c2 in
            let snp := sev_snp_enabled m in
            if snp && negb (kvm_kernel_irqchip_allowed E)
            then err (Some ErrIrqchip) m2
            else if negb snp && sev_es_enabled m
                    && negb (kvm_kernel_irqchip_allowed E)
            then err None m2
            else if negb snp && sev_es_enabled m
                    && (Z.land (st_flags status) SEV_STATUS_FLAGS_CONFIG_ES =? 0)
            then err None m2
            else
              let cmd := if snp then KVM_SEV_SNP_INIT
                         else if sev_es_enabled m then KVM_SEV_ES_INIT
                         else KVM_SEV_INIT in
              let m3 := set_notifiers m2 (ram_notifier m2)
                          (machine_done_notifier m2)
                          (vm_change_state_handler m2) (cgs_ready m2)
                          (snp || require_guest_memfd m2) in
              r ← sev_ioctl fd cmd;
              if negb (io_ret r =? 0) then err (Some ErrInit) m3
              else
                '(ret, m4) ←
                  match kind o with
                  | SevSnpGuest g => sev_snp_launch_start m3 c2 g
                  | SevGuest g =>
                    '(ret, o') ← sev_launch_start c2 g;
                    mret (ret, set_cgs m3 o')
                  end;
                if negb (ret =? 0) then err (Some ErrLaunchStart) m4
                else
                  (* the RAM block notifier and the machine-init-done
                     notifier are for plain SEV and SEV-ES only *)
                  mret (0, None,
                        set_notifiers m4 (negb snp || ram_notifier m4)
                          (negb snp || machine_done_notifier m4)
                          true true (require_guest_memfd m4))
  end.

Definition sev_launch_update_data (c : SevCommonState) (addr len : Z)
  : M event Z :=
  if (addr =? 0) || (len =? 0) then mret 1
  else
    r ← sev_ioctl (sev_fd c) (KVM_SEV_LAUNCH_UPDATE_DATA addr len);
    mret (io_ret r).

Definition sev_encrypt_flash (m : Machine) (gpa ptr len : Z)
  : M event (Z * option error * Machine) :=
  match cgs m with
  | None => mret (0, None, m)
  | Some o =>
    if sev_check_state (common o) SEV_STATE_LAUNCH_UPDATE then
      '(ret, m') ←
        (if sev_snp_enabled m
         then mret (snp_launch_update_data m gpa ptr len
                                           KVM_SEV_SNP_PAGE_TYPE_NORMAL)
         else ret ← sev_launch_update_data (common o) ptr len; mret (ret, m));
      if ret <? 0 then mret (ret, Some ErrEncryptFlash, m')
      else mret (0, None, m')
    else mret (0, None, m)
  end.

(** [sev_inject_launch_secret]: the return value, the error left in
    [errp] and the machine. *)
Definition sev_inject_launch_secret (m : Machine)
    (packet_hdr secret : String.string) (gpa : Z)
  : M event (Z * option error * Machine) :=
  match cgs m with
  | None => mret (1, Some ErrNotEnabled, m)
  | Some o =>
    (* secret can be injected only in this state *)
    if negb (sev_check_state (common o) SEV_STATE_LAUNCH_SECRET)
    then mret (1, Some (ErrNotInState (state (common o))), m)
    else
      let hdr := g_base64_decode E packet_hdr in
      if Z.of_nat (length hdr) =? 0 then mret (1, Some ErrDecodeHeader, m)
      else
        let data := g_base64_decode E secret in
        let data_sz := Z.of_nat (length data) in
        if data_sz =? 0 then mret (1, Some ErrDecodeData, m)
        else
          hva ← call (EvGpa2Hva gpa data_sz) (fun t => gpa2hva E t gpa data_sz);
          if hva =? 0 then mret (1, Some ErrGuestAddress, m)
          else
            r ← sev_ioctl (sev_fd (common o))
                  (KVM_SEV_LAUNCH_SECRET hdr data hva data_sz);
            if negb (io_ret r =? 0)
            then mret (io_ret r, Some (ErrInjectSecret (io_ret r) (io_error r)), m)
            else mret (0, None, m)
  end.

(** *** Launch sequences *)

(** What the machine core and the monitor do to a guest after
    [sev_kvm_init]: run the machine-init-done notifiers, report a run-state
    change, encrypt a flash image, inject a secret. *)
Inductive launch_op : Type :=
| OpMachineInitDone
| OpVmStateChange (running : bool)
| OpEncryptFlash (gpa ptr len : Z)
| OpInjectSecret (packet_hdr secret : String.string) (gpa : Z).

Definition launch_step (m : Machine) (op : launch_op) : M event Machine :=
  match op with
  | OpMachineInitDone =>
    if machine_done_notifier m then sev_launch_get_measure m else mret m
  | OpVmStateChange running =>
    if vm_change_state_handler m then sev_vm_state_change m running else mret m
  | OpEncryptFlash gpa ptr len =>
    r ← sev_encrypt_flash m gpa ptr len; mret (snd r)
  | OpInjectSecret packet_hdr secret gpa =>
    r ← sev_inject_launch_secret m packet_hdr secret gpa; mret (snd r)
  end.

Fixpoint launch_steps (m : Machine) (ops : list launch_op) : M event Machine :=
  match ops with
  | [] => mret m
  | op :: ops' => m' ← launch_step m op; launch_steps m' ops'
  end.

(** A launch sequence: [sev_kvm_init], and when it succeeds the
    operations that follow. *)
Definition launch (m : Machine) (ops : list launch_op) : M event Machine :=
  r ← sev_kvm_init m;
  if fst (fst r) =? 0 then launch_steps (snd r) ops else mret (snd r).

End Functions.

Definition machine_state (m : Machine) : SevState :=
  match cgs m with
  | Some o => state (common o)
  | None => SEV_STATE_UNINIT
  end.

(** The state changes the code makes: from [UNINIT] to [LAUNCH_UPDATE],
    from [LAUNCH_UPDATE] to [LAUNCH_SECRET] or [RUNNING], from
    [LAUNCH_SECRET] to [RUNNING]. *)
Definition allowed_change (old new : SevState) : bool :=
  match old, new with
  | SEV_STATE_UNINIT, SEV_STATE_LAUNCH_UPDATE
  | SEV_STATE_LAUNCH_UPDATE, SEV_STATE_LAUNCH_SECRET
  | SEV_STATE_LAUNCH_UPDATE, SEV_STATE_RUNNING
  | SEV_STATE_LAUNCH_SECRET, SEV_STATE_RUNNING => true
  | _, _ => false
  end.

(** The changes in which no state of the chain
    [UNINIT, LAUNCH_UPDATE, LAUNCH_SECRET, RUNNING] is skipped. *)
Definition next_in_chain (old new : SevState) : bool :=
  match old, new with
  | SEV_STATE_UNINIT, SEV_STATE_LAUNCH_UPDATE
  | SEV_STATE_LAUNCH_UPDATE, SEV_STATE_LAUNCH_SECRET
  | SEV_STATE_LAUNCH_SECRET, SEV_STATE_RUNNING => true
  | _, _ => false
  end.

(** Follows the recorded state changes of a trace from state [s]: the
    state reached, or [None] when a change is not permitted by [ok] or
    does not start from the state reached before it. *)
Fixpoint follow (ok : SevState -> SevState -> bool) (s : SevState)
    (t : list event) : option SevState :=
  match t with
  | [] => Some s
  | EvChangeState old new :: t' =>
    if bool_decide (old = s) && ok old new then follow ok new t' else None
  | _ :: t' => follow ok s t'
  end.

(** Guests and environments to run the launch functions on: a plain SEV
    or SEV-ES guest (by policy) and an SNP guest, in a given state; a
    platform on which every call succeeds, and variations of it. *)
Definition common_sample (st : SevState) : SevCommonState :=
  mk_common 51 1 false 0 0 0 3 st.

Definition sev_machine (policy : Z) (st : SevState) : Machine :=
  mk_machine
    (Some (mk_obj (common_sample st)
                  (SevGuest (mk_sev_guest None 0 policy None None))))
    [] false false false false false.

Definition snp_machine (q : list SevLaunchUpdateData) (st : SevState)
  : Machine :=
  mk_machine
    (Some (mk_obj (common_sample st)
                  (SevSnpGuest (mk_snp_guest None 0 None))))
    q false false false false false.

Definition reply_ok : ioctl_reply := mk_reply 0 0 48 1 (replicate 48 Byte.x00).
Definition reply_fail : ioctl_reply := mk_reply (-1) 1 0 0 [].

Definition env_with (ioctl : list event -> Z -> sev_cmd -> ioctl_reply) : Env :=
  mk_env (fun _ _ => 0) 0x6f3 (fun _ => 3)
         (fun _ _ => mk_status 0 0 1 1 55 SEV_STATUS_FLAGS_CONFIG_ES)
         true ioctl (fun _ _ => Some []) (fun _ => 0) (fun _ _ _ _ => 0)
         (Some []) (fun _ gpa _ => gpa + 0x7f0000000000) (fun _ _ => 0)
         (fun _ => [Byte.x01]).

Definition env_ok : Env := env_with (fun _ _ _ => reply_ok).

(** The launch-measure length query fails and leaves a zero length. *)
Definition env_measure_fails : Env :=
  env_with (fun _ _ cmd => match cmd with
                           | KVM_SEV_LAUNCH_MEASURE _ _ => reply_fail
                           | _ => reply_ok
                           end).

(** The length query answers, the retrieval of the measurement fails. *)
Definition env_measure_retrieval_fails : Env :=
  env_with (fun _ _ cmd => match cmd with
                           | KVM_SEV_LAUNCH_MEASURE true _ =>
                             mk_reply (-1) 1 48 0 []
                           | _ => reply_ok
                           end).

(** The update of the VM save areas fails. *)
Definition env_vmsa_fails : Env :=
  env_with (fun _ _ cmd => match cmd with
                           | KVM_SEV_LAUNCH_UPDATE_VMSA => reply_fail
                           | _ => reply_ok
                           end).

(** Five queued pages; the platform rejects the one at guest address
    0x3000, the third. *)
Definition five_updates : list SevLaunchUpdateData :=
  (fun i => mk_update (Z.of_nat i * 0x1000) (0x7f0000000000 + Z.of_nat i * 0x1000)
                      0x1000 KVM_SEV_SNP_PAGE_TYPE_NORMAL) <$> seq 1 5.

Definition env_third_fails : Env :=
  env_with (fun _ _ cmd => match cmd with
                           | KVM_SEV_SNP_LAUNCH_UPDATE _ 3 _ _ => reply_fail
                           | _ => reply_ok
                           end).

(** The platform commands of a trace. *)
Definition sev_cmds (t : list event) : list sev_cmd :=
  omap (fun ev => match ev with
                  | EvSevIoctl _ cmd => Some cmd
                  | _ => None
                  end) t.

(** The command that [sev_snp_launch_update] sends for a queue entry. *)
Definition update_cmd (data : SevLaunchUpdateData) : sev_cmd :=
  KVM_SEV_SNP_LAUNCH_UPDATE (hva data) (Z.shiftr (gpa data) TARGET_PAGE_BITS)
                            (len data) (type data).

(** The calls [sev_snp_launch_update] makes for a queue entry that the
    platform accepts. *)
Definition update_events (c : SevCommonState) (data : SevLaunchUpdateData)
  : list event :=
  [EvSevIoctl (sev_fd c) (update_cmd data);
   EvConvertMemory (gpa data) (len data) true].

(** At history [t] the entry [data] is well formed, its platform command
    succeeds and so does the conversion of its pages. *)
Definition update_ok (E : Env) (c : SevCommonState) (t : list event)
    (data : SevLaunchUpdateData) : Prop :=
  hva data <> 0 /\ len data <> 0
  /\ io_ret (kvm_sev_ioctl E t (sev_fd c) (update_cmd data)) = 0
  /\ kvm_convert_memory E (t ++ [EvSevIoctl (sev_fd c) (update_cmd data)])
                        (gpa data) (len data) true = 0.

Fixpoint updates_ok (E : Env) (c : SevCommonState) (t : list event)
    (q : list SevLaunchUpdateData) : Prop :=
  match q with
  | [] => True
  | data :: q' =>
    update_ok E c t data /\ updates_ok E c (t ++ update_events c data) q'
  end.

(** Started in state [s], the computation [c] records only state changes
    that [ok] permits, each from the state reached before it; a value it
    returns satisfies [post] together with the state reached. *)
Definition tracks {A} (ok : SevState -> SevState -> bool) (s : SevState)
    (c : M event A) (post : A -> SevState -> Prop) : Prop :=
  forall t, exists new s',
    snd (c t) = t ++ new
    /\ follow ok s new = Some s'
    /\ forall a, fst (c t) = Ret a -> post a s'.

(** The states a guest is in once [sev_kvm_init] has succeeded. *)
Definition launched_state (s : SevState) : bool :=
  match s with
  | SEV_STATE_LAUNCH_UPDATE | SEV_STATE_LAUNCH_SECRET | SEV_STATE_RUNNING => true
  | _ => false
  end.

Definition launched (m : Machine) : Prop :=
  match cgs m with
  | Some o => launched_state (state (common o)) = true
  | None => True
  end.

Definition in_state (m' : Machine) (s' : SevState) : Prop :=
  machine_state m' = s' /\ launched m'.

(** The state changes recorded in a trace. *)
Definition state_changes (t : list event) : list (SevState * SevState) :=
  omap (fun ev => match ev with
                  | EvChangeState old new => Some (old, new)
                  | _ => None
                  end) t.

Definition is_change (ev : event) : bool :=
  match ev with
  | EvChangeState _ _ => true
  | _ => false
  end.

End Launch.

(** ** Extended guest request (VMGEXIT) *)

Module ExtReq.

Definition SNP_EXT_REQ_ERROR_INVALID_LEN : Z := 1.
Definition SNP_EXT_REQ_ERROR_BUSY : Z := 2.
Definition SNP_EXT_REQ_ERROR_GENERIC : Z := Z.shiftl 1 31.

Inductive event : Type :=
| EvGetContents (path : String.string)     (* g_file_get_contents *)
| EvMap (gpa len : Z)                      (* address_space_map *)
| EvCopy (gpa : Z) (contents : list byte) (n : Z)
                                           (* memcpy(guest_buf, contents, n) *)
| EvUnmap (len access_len : Z).            (* address_space_unmap *)

Record Env : Type := mk_env {
  (* the file contents, or [None] when the read fails *)
  g_file_get_contents : list event -> String.string -> option (list byte);
  (* the length address_space_map leaves in [buf_sz] *)
  address_space_map : list event -> Z -> Z -> Z
}.

Section Handler.
Variable E : Env.

(** [kvm_handle_vmgexit_ext_req]: the return value, [*npages] and
    [*vmm_ret]. *)
Definition kvm_handle_vmgexit_ext_req (m : Launch.Machine) (gpa npages : Z)
  : M event (Z * Z * Z) :=
  match Launch.cgs m with
  | Some (Launch.mk_obj _ (Launch.SevSnpGuest sev_snp_guest)) =>
    match Launch.certs_path sev_snp_guest with
    | None => mret (0, npages, 0)
    | Some path =>
      contents ← call (EvGetContents path)
                      (fun t => g_file_get_contents E t path);
      match contents with
      | None => mret (0, npages, SNP_EXT_REQ_ERROR_GENERIC)
      | Some contents =>
        let sz := Z.of_nat (length contents) in
        let buf_sz := wrap64 (npages * TARGET_PAGE_SIZE) in
        if buf_sz <? sz then
          mret (0, wrap64 (sz + TARGET_PAGE_SIZE) / TARGET_PAGE_SIZE,
                SNP_EXT_REQ_ERROR_INVALID_LEN)
        else
          mapped ← call (EvMap gpa buf_sz)
                        (fun t => address_space_map E t gpa buf_sz);
          if mapped <? sz then
            _ ← emit (EvUnmap mapped mapped);
            mret (0, npages, SNP_EXT_REQ_ERROR_GENERIC)
          else
            _ ← emit (EvCopy gpa contents mapped);
            _ ← emit (EvUnmap mapped mapped);
            mret (0, npages, 0)
      end
    end
  | _ => mret (0, npages, SNP_EXT_REQ_ERROR_GENERIC)
  end.

End Handler.

(** Pages of [TARGET_PAGE_SIZE] bytes needed to hold [sz] bytes. *)
Definition pages_required (sz : Z) : Z :=
  (sz + TARGET_PAGE_SIZE - 1) / TARGET_PAGE_SIZE.

(** An SNP guest configured with a certificate path, and an environment
    in which the file holds [contents] and guest memory maps in full. *)
Definition snp_machine (path : option String.string) : Launch.Machine :=
  Launch.mk_machine
    (Some (Launch.mk_obj
             (Launch.mk_common 51 1 false 0 0 0 3 Launch.SEV_STATE_RUNNING)
             (Launch.SevSnpGuest (Launch.mk_snp_guest path 0 None))))
    [] false false true true true.

Definition env_file (contents : list byte) : Env :=
  mk_env (fun _ _ => Some contents) (fun _ _ len => len).

Definition bundle_of_size (sz : Z) : list byte :=
  replicate (Z.to_nat sz) Byte.x00.

End ExtReq.

(** ** Outcome and calls of a computation *)

(** Run from the history [t], the computation [c] adds the calls [new] to
    it and ends with an outcome, and [post] holds of the two. *)
Definition after {Ev A} (c : M Ev A) (t : list Ev)
    (post : outcome A -> list Ev -> Prop) : Prop :=
  exists new, snd (c t) = t ++ new /\ post (fst (c t)) new.

(** ** Reading a launch trace *)

Module LaunchTraces.
Import Launch.

(** The arguments of the calls to [ram_block_discard_disable]. *)
Definition discard_calls (t : list event) : list bool :=
  omap (fun ev => match ev with
                  | EvRamBlockDiscardDisable on => Some on
                  | _ => None
                  end) t.



(** The page type with which [snp_populate_metadata_pages] queues the
    page of a metadata descriptor. *)
Definition queued_type (c : SevCommonState) (desc : OvmfSevMetadataDesc) : Z :=
  if meta_type desc =? SEV_DESC_TYPE_SNP_KERNEL_HASHES
  then if kernel_hashes c then KVM_SEV_SNP_PAGE_TYPE_NORMAL
       else KVM_SEV_SNP_PAGE_TYPE_ZERO
  else snp_metadata_desc_to_page_type (meta_type desc).

(** The command that ends the launch of a guest. *)
Definition finish_cmd (o : SevObject) : sev_cmd :=
  match kind o with
  | SevGuest _ => KVM_SEV_LAUNCH_FINISH
  | SevSnpGuest _ => KVM_SEV_SNP_LAUNCH_FINISH
  end.

Definition is_finish_cmd (cmd : sev_cmd) : bool :=
  match cmd with
  | KVM_SEV_LAUNCH_FINISH | KVM_SEV_SNP_LAUNCH_FINISH => true
  | _ => false
  end.

End LaunchTraces.

(** ** Monitor queries *)

Module Monitor.
Import Launch.

(** [sev_get_launch_measurement]: the measurement bytes (the C code keeps
    and hands out their base64 text), [None] for [NULL]. *)
Definition sev_get_launch_measurement (m : Machine) : option (list byte) :=
  match cgs m with
  | Some (mk_obj c (SevGuest sev_guest)) =>
    if SevState_val SEV_STATE_LAUNCH_SECRET <=? SevState_val (state c)
    then measurement sev_guest
    else None
  | _ => None
  end.

Inductive query_error : Type :=
| ErrMeasurementNotAvailable.  (* "SEV launch measurement is not available" *)

(** [qmp_query_sev_launch_measure]. *)
Definition qmp_query_sev_launch_measure (m : Machine)
  : option (list byte) * option query_error :=
  match sev_get_launch_measurement m with
  | None => (None, Some ErrMeasurementNotAvailable)
  | Some data => (Some data, None)
  end.

End Monitor.

(** ** Initial CPU state of SEV-ES guests (VMSA) *)

Module Vmsa.

(** The [len] bits from bit [lo] up. *)
Definition bit_mask (lo len : Z) : Z := Z.shiftl (Z.ones len) lo.

(** Convert between the VMSA and the [SegmentCache] attribute layouts. *)
Definition FLAGS_VMSA_TO_SEGCACHE (flags : Z) : Z :=
  Z.lor (Z.shiftl (Z.land flags 0xff00) 12) (Z.shiftl (Z.land flags 0xff) 8).

Definition FLAGS_SEGCACHE_TO_VMSA (flags : Z) : Z :=
  Z.lor (Z.shiftr (Z.land flags 0xff00) 8) (Z.shiftr (Z.land flags 0xf00000) 12).

(** Modelled from the spec: the descriptor flag bits, the register numbers
    and the structures [SegmentCache], [CPUX86State], [struct vmcb_seg] and
    [struct sev_es_save_area] are declared with the CPU model, outside this
    file. Of the CPU state and of the save area only the fields this file
    reads or writes are kept; [memset] leaves every other field of a save
    area zero. *)
Definition DESC_A_MASK : Z := Z.shiftl 1 8.
Definition DESC_R_MASK : Z := Z.shiftl 1 9.
Definition DESC_CS_MASK : Z := Z.shiftl 1 11.
Definition DESC_S_MASK : Z := Z.shiftl 1 12.
Definition DESC_P_MASK : Z := Z.shiftl 1 15.

Definition R_EAX : nat := 0.
Definition R_ECX : nat := 1.
Definition R_EDX : nat := 2.
Definition R_EBX : nat := 3.
Definition R_ESP : nat := 4.
Definition R_EBP : nat := 5.
Definition R_ESI : nat := 6.
Definition R_EDI : nat := 7.
Definition R_R8 : nat := 8.
Definition R_R9 : nat := 9.
Definition R_R10 : nat := 10.
Definition R_R11 : nat := 11.
Definition R_R12 : nat := 12.
Definition R_R13 : nat := 13.
Definition R_R14 : nat := 14.
Definition R_R15 : nat := 15.

Definition R_ES : nat := 0.
Definition R_CS : nat := 1.
Definition R_SS : nat := 2.
Definition R_DS : nat := 3.
Definition R_FS : nat := 4.
Definition R_GS : nat := 5.

Record SegmentCache : Type := mk_seg {
  selector : Z;     (* uint32_t *)
  base : Z;         (* target_ulong *)
  limit : Z;        (* uint32_t *)
  flags : Z         (* uint32_t *)
}.

#[global] Instance SegmentCache_inhabited : Inhabited SegmentCache :=
  populate (mk_seg 0 0 0 0).

Record vmcb_seg : Type := mk_vmcb_seg {
  v_selector : Z;   (* uint16_t *)
  v_attrib : Z;     (* uint16_t *)
  v_limit : Z;      (* uint32_t *)
  v_base : Z        (* uint64_t *)
}.

Record sev_es_save_area : Type := mk_save_area {
  es : vmcb_seg; cs : vmcb_seg; ss : vmcb_seg; ds : vmcb_seg;
  fs : vmcb_seg; gs : vmcb_seg; gdtr : vmcb_seg; idtr : vmcb_seg;
  efer : Z; cr4 : Z; cr3 : Z; cr0 : Z;
  rip : Z; rsp : Z; rax : Z; rcx : Z; rdx : Z; rbx : Z;
  rbp : Z; rsi : Z; rdi : Z;
  r8 : Z; r9 : Z; r10 : Z; r11 : Z; r12 : Z; r13 : Z; r14 : Z; r15 : Z
}.

Record CPUX86State : Type := mk_cpu_env {
  env_efer : Z;
  cr : list Z;                 (* target_ulong cr[5] *)
  segs : list SegmentCache;    (* SegmentCache segs[6] *)
  gdt : SegmentCache;
  idt : SegmentCache;
  regs : list Z;               (* target_ulong regs[CPU_NB_REGS] *)
  eip : Z
}.

Record CPUState : Type := mk_cpu {
  cpu_index : Z;               (* int *)
  env : CPUX86State
}.

(** [struct SevLaunchVmsa], an element of [sev_common->launch_vmsa]. *)
Record SevLaunchVmsa : Type := mk_launch_vmsa {
  vmsa_cpu_index : Z;          (* uint16_t *)
  vmsa : sev_es_save_area
}.

Definition seg_to_vmsa (cpu_seg : SegmentCache) : vmcb_seg :=
  mk_vmcb_seg (wrap16 (selector cpu_seg))
              (wrap16 (FLAGS_SEGCACHE_TO_VMSA (flags cpu_seg)))
              (limit cpu_seg) (base cpu_seg).

Definition initialize_vmsa (env : CPUX86State) : sev_es_save_area :=
  {| efer := env_efer env;
     cr0 := cr env !!! 0%nat;
     cr3 := cr env !!! 3%nat;
     cr4 := cr env !!! 4%nat;
     cs := seg_to_vmsa (segs env !!! R_CS);
     ds := seg_to_vmsa (segs env !!! R_DS);
     es := seg_to_vmsa (segs env !!! R_ES);
     fs := seg_to_vmsa (segs env !!! R_FS);
     gs := seg_to_vmsa (segs env !!! R_GS);
     ss := seg_to_vmsa (segs env !!! R_SS);
     gdtr := seg_to_vmsa (gdt env);
     idtr := seg_to_vmsa (idt env);
     rax := regs env !!! R_EAX;
     rcx := regs env !!! R_ECX;
     rdx := regs env !!! R_EDX;
     rbx := regs env !!! R_EBX;
     rsp := regs env !!! R_ESP;
     rbp := regs env !!! R_EBP;
     rsi := regs env !!! R_ESI;
     rdi := regs env !!! R_EDI;
     r8 := regs env !!! R_R8;
     r9 := regs env !!! R_R9;
     r10 := regs env !!! R_R10;
     r11 := regs env !!! R_R11;
     r12 := regs env !!! R_R12;
     r13 := regs env !!! R_R13;
     r14 := regs env !!! R_R14;
     r15 := regs env !!! R_R15;
     rip := eip env |}.

Definition set_cs_rip (v : sev_es_save_area) (new_cs : vmcb_seg) (new_rip : Z)
  : sev_es_save_area :=
  {| es := es v; cs := new_cs; ss := ss v; ds := ds v; fs := fs v; gs := gs v;
     gdtr := gdtr v; idtr := idtr v;
     efer := efer v; cr4 := cr4 v; cr3 := cr3 v; cr0 := cr0 v;
     rip := new_rip; rsp := rsp v; rax := rax v; rcx := rcx v; rdx := rdx v;
     rbx := rbx v; rbp := rbp v; rsi := rsi v; rdi := rdi v;
     r8 := r8 v; r9 := r9 v; r10 := r10 v; r11 := r11 v; r12 := r12 v;
     r13 := r13 v; r14 := r14 v; r15 := r15 v |}.

(** The [QTAILQ_FOREACH] of [sev_set_cpu_context]: the context of the first
    element with this CPU index is overwritten; [None] when there is none. *)
Fixpoint replace_context (q : list SevLaunchVmsa) (cpu_index : Z)
    (ctx : sev_es_save_area) : option (list SevLaunchVmsa) :=
  match q with
  | [] => None
  | launch_vmsa :: q' =>
    if cpu_index =? vmsa_cpu_index launch_vmsa
    then Some (mk_launch_vmsa (vmsa_cpu_index launch_vmsa) ctx :: q')
    else cons launch_vmsa <$> replace_context q' cpu_index ctx
  end.

(** The [QTAILQ_FOREACH] of [sev_apply_cpu_context]: the first element
    with this CPU index. *)
Fixpoint find_context (q : list SevLaunchVmsa) (cpu_index : Z)
  : option sev_es_save_area :=
  match q with
  | [] => None
  | launch_vmsa :: q' =>
    if cpu_index =? vmsa_cpu_index launch_vmsa then Some (vmsa launch_vmsa)
    else find_context q' cpu_index
  end.

(** The calls of [sev_apply_cpu_context] into the CPU model, with the CPU
    they are made for and the argument values as written at the call. *)
Inductive event : Type :=
| EvLoadEfer (cpu val : Z)                (* cpu_load_efer *)
| EvUpdateCr4 (cpu val : Z)               (* cpu_x86_update_cr4 *)
| EvUpdateCr0 (cpu val : Z)               (* cpu_x86_update_cr0 *)
| EvUpdateCr3 (cpu val : Z)               (* cpu_x86_update_cr3 *)
| EvLoadSegCache (cpu : Z) (seg_reg : nat) (selector base limit flags : Z).
                                          (* cpu_x86_load_seg_cache *)

(** What those calls do to the CPU state. *)
Record Env : Type := mk_env {
  cpu_load_efer : CPUX86State -> Z -> CPUX86State;
  cpu_x86_update_cr4 : CPUX86State -> Z -> CPUX86State;
  cpu_x86_update_cr0 : CPUX86State -> Z -> CPUX86State;
  cpu_x86_update_cr3 : CPUX86State -> Z -> CPUX86State;
  cpu_x86_load_seg_cache : CPUX86State -> nat -> Z -> Z -> Z -> Z -> CPUX86State
}.

Section Functions.
(** [sizeof(struct sev_es_save_area)]. *)
Variable sizeof_sev_es_save_area : Z.
Variable E : Env.
(** [pc_system_ovmf_table_find(guid, &data, NULL)]: the bytes of the
    firmware table entry, when the table has one for this GUID. *)
Variable pc_system_ovmf_table_find : String.string -> option (list byte).

(** [sev_set_cpu_context]: the return value and the list
    [sev_common->launch_vmsa]. *)
Definition sev_set_cpu_context (m : Launch.Machine) (q : list SevLaunchVmsa)
    (cpu_index : Z) (ctx : sev_es_save_area) (ctx_len : Z)
  : Z * list SevLaunchVmsa :=
  if negb (Launch.sev_es_enabled m) then (1, q)
  else if ctx_len <? sizeof_sev_es_save_area then (1, q)
  else
    (* If the context of this VP has already been set then replace it *)
    match replace_context q cpu_index ctx with
    | Some q' => (0, q')
    | None => (0, q ++ [mk_launch_vmsa cpu_index ctx])   (* New VP context *)
    end.

(** The body of the [CPU_FOREACH] of [sev_es_set_vmsa]. The CPU index, an
    [int], is passed for a [uint16_t] parameter. *)
Definition set_vmsa_step (m : Launch.Machine) (reset_addr : Z)
    (q : list SevLaunchVmsa) (cpu : CPUState) : list SevLaunchVmsa :=
  let cs := mk_seg 0xf000 (Z.land reset_addr 0xffff0000) 0xffff
              (Z.lor DESC_P_MASK
                 (Z.lor DESC_S_MASK
                    (Z.lor DESC_CS_MASK (Z.lor DESC_R_MASK DESC_A_MASK)))) in
  if cpu_index cpu =? 0 then q      (* Do not update the BSP reset state *)
  else
    let vmsa := initialize_vmsa (env cpu) in
    let vmsa := set_cs_rip vmsa (seg_to_vmsa cs) (Z.land reset_addr 0x0000ffff) in
    snd (sev_set_cpu_context m q (wrap16 (cpu_index cpu)) vmsa
                             sizeof_sev_es_save_area).

Definition sev_es_set_vmsa (m : Launch.Machine) (q : list SevLaunchVmsa)
    (cpus : list CPUState) (reset_addr : Z) : list SevLaunchVmsa :=
  foldl (set_vmsa_step m reset_addr) q cpus.

Definition load_seg (cpu : Z) (env : CPUX86State) (seg_reg : nat) (s : vmcb_seg)
  : M event CPUX86State :=
  let flags := FLAGS_VMSA_TO_SEGCACHE (v_attrib s) in
  call (EvLoadSegCache cpu seg_reg (v_selector s) (v_base s) (v_limit s) flags)
       (fun _ => cpu_x86_load_seg_cache E env seg_reg (v_selector s) (v_base s)
                                        (v_limit s) flags).

Definition set_gdt_idt_regs_eip (env : CPUX86State) (v : sev_es_save_area)
  : CPUX86State :=
  mk_cpu_env (env_efer env) (cr env) (segs env)
    (mk_seg (selector (gdt env)) (v_base (gdtr v)) (v_limit (gdtr v))
            (flags (gdt env)))
    (mk_seg (selector (idt env)) (v_base (idtr v)) (v_limit (idtr v))
            (flags (idt env)))
    (<[R_R15 := r15 v]> (<[R_R14 := r14 v]> (<[R_R13 := r13 v]>
     (<[R_R12 := r12 v]> (<[R_R11 := r11 v]> (<[R_R10 := r10 v]>
     (<[R_R9 := r9 v]> (<[R_R8 := r8 v]>
     (<[R_EDI := rdi v]> (<[R_ESI := rsi v]> (<[R_EBP := rbp v]>
     (<[R_ESP := rsp v]> (<[R_EBX := rbx v]> (<[R_EDX := rdx v]>
     (<[R_ECX := rcx v]> (<[R_EAX := rax v]> (regs env)))))))))))))))))
    (rip v).

(** [sev_apply_cpu_context]: the CPU state it leaves. *)
Definition sev_apply_cpu_context (q : list SevLaunchVmsa) (cpu : CPUState)
  : M event CPUState :=
  (* See if an initial VMSA has been provided for this CPU *)
  match find_context q (cpu_index cpu) with
  | None => mret cpu
  | Some v =>
    let i := cpu_index cpu in
    env1 ← call (EvLoadEfer i (efer v)) (fun _ => cpu_load_efer E (env cpu) (efer v));
    env2 ← call (EvUpdateCr4 i (cr4 v)) (fun _ => cpu_x86_update_cr4 E env1 (cr4 v));
    env3 ← call (EvUpdateCr0 i (cr0 v)) (fun _ => cpu_x86_update_cr0 E env2 (cr0 v));
    env4 ← call (EvUpdateCr3 i (cr3 v)) (fun _ => cpu_x86_update_cr3 E env3 (cr3 v));
    env5 ← load_seg i env4 R_CS (cs v);
    env6 ← load_seg i env5 R_DS (ds v);
    env7 ← load_seg i env6 R_ES (es v);
    env8 ← load_seg i env7 R_FS (fs v);
    env9 ← load_seg i env8 R_GS (gs v);
    env10 ← load_seg i env9 R_SS (ss v);
    mret (mk_cpu i (set_gdt_idt_regs_eip env10 v))
  end.

Definition sev_es_set_reset_vector (m : Launch.Machine) (q : list SevLaunchVmsa)
    (cpu : CPUState) : M event CPUState :=
  if Launch.sev_enabled m then sev_apply_cpu_context q cpu else mret cpu.

#[global] Instance byte_eq_decision : EqDecision byte := Byte.byte_eq_dec.

(** Bytes [off .. off + n - 1] of a buffer, when they lie inside it. *)
Definition read_bytes (mem : list byte) (off : Z) (n : nat) : option (list byte) :=
  if decide (0 <= off /\ off + Z.of_nat n <= Z.of_nat (length mem))
  then Some (take n (drop (Z.to_nat off) mem))
  else None.

(** The value of a little-endian byte sequence. *)
Definition le_value (bs : list byte) : Z :=
  foldr (fun b acc => Z.of_N (Byte.to_N b) + 256 * acc) 0 bs.

(** [SEV_INFO_BLOCK_GUID], parsed and byte-swapped ("GUIDs are LE"). *)
Definition info_guid : list byte :=
  HashTable.UUID_LE 0x00f771de 0x1a7e 0x4fcb 0x89 0x0e 0x68 0xc7 0x7e 0x2f 0xb4 0x4e.

(** [sev_es_parse_reset_block] on the [SevInfoBlock] at offset [off] of
    [mem]: the return value and [*addr], which it writes on success only.
    The field is read in host byte order, little-endian on the hosts with
    SEV. *)
Definition sev_es_parse_reset_block (mem : list byte) (off : Z) (addr : Z)
  : outcome (Z * Z) :=
  match read_bytes mem off 4 with
  | None => Stop (OutOfRange off)
  | Some info =>
    let reset_addr := le_value info in
    if reset_addr =? 0 then Ret (1, addr) else Ret (0, reset_addr)
  end.

(** [sev_es_find_reset_vector]: the return value and [*addr]. The flash
    image is given with its contents, [flash_size] being the length. *)
Definition sev_es_find_reset_vector (flash : list byte) : outcome (Z * Z) :=
  let flash_size := Z.of_nat (length flash) in
  let addr := 0 in
  (* Check the Firmware GUID Table first. *)
  match pc_system_ovmf_table_find "00f771de-1a7e-4fcb-890e-68c77e2fb44e" with
  | Some data => sev_es_parse_reset_block data 0 addr
  | None =>
    (* fall back to the original implementation *)
    let data := flash_size - 0x20 in
    let guid := data - HashTable.sizeof_QemuUUID in
    match read_bytes flash guid 16 with
    | None => Stop (OutOfRange guid)
    | Some g =>
      if negb (bool_decide (g = info_guid)) then Ret (1, addr)
      else
        let len := guid - 2 in
        match read_bytes flash len 2 with
        | None => Stop (OutOfRange len)
        | Some l => sev_es_parse_reset_block flash (data - le_value l) addr
        end
    end
  end.

(** The [CPU_FOREACH] of [sev_es_save_reset_vector]. *)
Fixpoint apply_all (q : list SevLaunchVmsa) (cpus : list CPUState)
  : M event (list CPUState) :=
  match cpus with
  | [] => mret []
  | cpu :: cpus' =>
    cpu' ← sev_apply_cpu_context q cpu;
    rest ← apply_all q cpus';
    mret (cpu' :: rest)
  end.

(** [sev_es_save_reset_vector]: the return value, the list of initial
    contexts and the CPUs. *)
Definition sev_es_save_reset_vector (m : Launch.Machine)
    (q : list SevLaunchVmsa) (cpus : list CPUState) (flash : list byte)
  : M event (Z * list SevLaunchVmsa * list CPUState) :=
  if negb (Launch.sev_es_enabled m) then mret (0, q, cpus)
  else
    match sev_es_find_reset_vector flash with
    | Stop s => m_stop s
    | Ret (ret, addr) =>
      if negb (ret =? 0) then mret (ret, q, cpus)
      else
        let q' := if negb (addr =? 0) then sev_es_set_vmsa m q cpus addr else q in
        cpus' ← apply_all q' cpus;
        mret (0, q', cpus')
    end.

End Functions.

(** A firmware image that ends with a [SevInfoBlock] for [reset_addr],
    the block length and GUID and the 32 bytes that close the flash. *)
Definition flash_with_block (pre : list byte) (reset_addr : Z) (mid tail : list byte)
  : list byte :=
  pre ++ HashTable.le_bytes 4 reset_addr ++ mid
      ++ HashTable.le_bytes 2 (Z.of_nat (length mid) + 22) ++ info_guid ++ tail.

Definition no_table (guid : String.string) : option (list byte) := None.

(** CPU-model calls that store what they are given. *)
Definition env_store : Env :=
  mk_env (fun e v => mk_cpu_env v (cr e) (segs e) (gdt e) (idt e) (regs e) (eip e))
         (fun e v => mk_cpu_env (env_efer e) (<[4%nat := v]> (cr e)) (segs e)
                                (gdt e) (idt e) (regs e) (eip e))
         (fun e v => mk_cpu_env (env_efer e) (<[0%nat := v]> (cr e)) (segs e)
                                (gdt e) (idt e) (regs e) (eip e))
         (fun e v => mk_cpu_env (env_efer e) (<[3%nat := v]> (cr e)) (segs e)
                                (gdt e) (idt e) (regs e) (eip e))
         (fun e r sel b l f =>
            mk_cpu_env (env_efer e) (cr e) (<[r := mk_seg sel b l f]> (segs e))
                       (gdt e) (idt e) (regs e) (eip e)).

Definition cpu_reset (i : Z) : CPUState :=
  mk_cpu i (mk_cpu_env 0 (replicate 5 0) (replicate 6 (mk_seg 0 0 0xffff 0x9300))
                       (mk_seg 0 0 0xffff 0) (mk_seg 0 0 0xffff 0)
                       (replicate 16 0) 0xfff0).


End Vmsa.

(** ** The SNP CPUID page *)

Module Cpuid.

Definition KVM_MAX_CPUID_ENTRIES : Z := 100.
Definition SNP_CPUID_FUNCTION_MAXCOUNT : Z := 64.

(** Modelled from the spec: [struct kvm_cpuid_entry2] and the flag
    [KVM_CPUID_FLAG_SIGNIFCANT_INDEX] come from <linux/kvm.h>; the fields
    are 32-bit. Of [struct kvm_cpuid2] the entry count [nent] is kept. *)
Definition KVM_CPUID_FLAG_SIGNIFCANT_INDEX : Z := 1.

Record kvm_cpuid_entry2 : Type := mk_kvm_entry {
  function : Z;
  index : Z;
  flags : Z;
  eax : Z;
  ebx : Z;
  ecx : Z;
  edx : Z
}.

(** [KvmCpuidInfo]: [cpuid.nent] and [entries[KVM_MAX_CPUID_ENTRIES]]. *)
Record KvmCpuidInfo : Type := mk_kvm_info {
  nent : Z;                              (* __u32 *)
  entries : list kvm_cpuid_entry2
}.

(** [SnpCpuidFunc] (packed). *)
Record SnpCpuidFunc : Type := mk_func {
  eax_in : Z;        (* uint32_t *)
  ecx_in : Z;        (* uint32_t *)
  xcr0_in : Z;       (* uint64_t *)
  xss_in : Z;        (* uint64_t *)
  f_eax : Z;         (* uint32_t *)
  f_ebx : Z;
  f_ecx : Z;
  f_edx : Z;
  f_reserved : Z     (* uint64_t *)
}.

(** [SnpCpuidInfo] (packed): the header and
    [entries[SNP_CPUID_FUNCTION_MAXCOUNT]]. *)
Record SnpCpuidInfo : Type := mk_info {
  count : Z;         (* uint32_t *)
  reserved1 : Z;     (* uint32_t *)
  reserved2 : Z;     (* uint64_t *)
  s_entries : list SnpCpuidFunc
}.

Definition zero_func : SnpCpuidFunc := mk_func 0 0 0 0 0 0 0 0 0.

(** The table after the [memset] that clears all of it. *)
Definition zero_info : SnpCpuidInfo :=
  mk_info 0 0 0 (replicate (Z.to_nat SNP_CPUID_FUNCTION_MAXCOUNT) zero_func).

(** The body of the loop of [sev_snp_cpuid_info_fill]: the assignments to
    [*snp_cpuid_entry], in the order of the source. *)
Definition fill_entry (snp_cpuid_entry : SnpCpuidFunc)
    (kvm_cpuid_entry : kvm_cpuid_entry2) : SnpCpuidFunc :=
  let e := snp_cpuid_entry in
  let e := mk_func (function kvm_cpuid_entry) (ecx_in e) (xcr0_in e) (xss_in e)
                   (f_eax e) (f_ebx e) (f_ecx e) (f_edx e) (f_reserved e) in
  let e := if flags kvm_cpuid_entry =? KVM_CPUID_FLAG_SIGNIFCANT_INDEX
           then mk_func (eax_in e) (index kvm_cpuid_entry) (xcr0_in e) (xss_in e)
                        (f_eax e) (f_ebx e) (f_ecx e) (f_edx e) (f_reserved e)
           else e in
  let e := mk_func (eax_in e) (ecx_in e) (xcr0_in e) (xss_in e)
                   (eax kvm_cpuid_entry) (ebx kvm_cpuid_entry)
                   (ecx kvm_cpuid_entry) (edx kvm_cpuid_entry) (f_reserved e) in
  if (eax_in e =? 0xD) && ((ecx_in e =? 0x0) || (ecx_in e =? 0x1))
  then mk_func (eax_in e) (ecx_in e) 1 0 (f_eax e) 0x240 (f_ecx e) (f_edx e)
               (f_reserved e)
  else e.

(** The [for] loop of [sev_snp_cpuid_info_fill], run for the [n] indices
    from [i] on. *)
Fixpoint fill_loop (n : nat) (i : nat) (kvm_cpuid_info : KvmCpuidInfo)
    (info : SnpCpuidInfo) : outcome SnpCpuidInfo :=
  match n with
  | O => Ret (mk_info (Z.of_nat i) (reserved1 info) (reserved2 info)
                      (s_entries info))
  | S n' =>
    match entries kvm_cpuid_info !! i, s_entries info !! i with
    | Some kvm_cpuid_entry, Some snp_cpuid_entry =>
      fill_loop n' (S i) kvm_cpuid_info
        (mk_info (count info) (reserved1 info) (reserved2 info)
                 (<[i := fill_entry snp_cpuid_entry kvm_cpuid_entry]>
                    (s_entries info)))
    | _, _ => Stop (OutOfRange (Z.of_nat i))
    end
  end.

(** [sev_snp_cpuid_info_fill]: the return value and [*snp_cpuid_info]. *)
Definition sev_snp_cpuid_info_fill (snp_cpuid_info : SnpCpuidInfo)
    (kvm_cpuid_info : KvmCpuidInfo) : outcome (Z * SnpCpuidInfo) :=
  if SNP_CPUID_FUNCTION_MAXCOUNT <? nent kvm_cpuid_info
  then Ret (-1, snp_cpuid_info)
  else
    match fill_loop (Z.to_nat (nent kvm_cpuid_info)) 0 kvm_cpuid_info zero_info with
    | Stop s => Stop s
    | Ret info => Ret (0, info)
    end.

(** *** The table in the words of the specification *)

(** The sub-leaf a KVM entry stands for: its index when the entry is
    flagged as indexed, 0 otherwise. *)
Definition sub_leaf (k : kvm_cpuid_entry2) : Z :=
  if flags k =? KVM_CPUID_FLAG_SIGNIFCANT_INDEX then index k else 0.

(** The entries whose extended-state size is forced: function 0xD,
    sub-leaf 0 or 1. *)
Definition is_xsave_base (k : kvm_cpuid_entry2) : bool :=
  (function k =? 0xD) && ((sub_leaf k =? 0) || (sub_leaf k =? 1)).

(** One leaf re-encoded for the CPUID page. *)
Definition encode_leaf (k : kvm_cpuid_entry2) : SnpCpuidFunc :=
  mk_func (function k) (sub_leaf k)
          (if is_xsave_base k then 1 else 0) 0
          (eax k) (if is_xsave_base k then 0x240 else ebx k) (ecx k) (edx k) 0.

(** The page for the first [n] KVM entries: their encodings, then zero
    entries up to the 64 slots of the table. *)
Definition encode_table (n : nat) (ks : list kvm_cpuid_entry2) : SnpCpuidInfo :=
  mk_info (Z.of_nat n) 0 0
          ((encode_leaf <$> take n ks)
           ++ replicate (Z.to_nat SNP_CPUID_FUNCTION_MAXCOUNT - n) zero_func).

(** KVM entries to run the function on. *)
Definition kvm_info_sample : KvmCpuidInfo :=
  mk_kvm_info 3
    ([mk_kvm_entry 0 0 0 0x10 0x68747541 0x444d4163 0x69746e65;
      mk_kvm_entry 0xD 0 1 0x207 0x988 0x988 0;
      mk_kvm_entry 0xD 2 0 0x100 0x240 0 0]
     ++ replicate 97 (mk_kvm_entry 0 0 0 0 0 0 0)).

End Cpuid.

(** ** Reading the trace of a VMGEXIT handler *)

Module PscTraces.
Import Psc.

Definition is_map (ev : event) : bool :=
  match ev with
  | EvMap _ _ => true
  | _ => false
  end.

Definition is_unmap (ev : event) : bool :=
  match ev with
  | EvUnmap _ _ => true
  | _ => false
  end.

(** Events of a trace that satisfy [p]. *)
Definition count (p : event -> bool) (t : list event) : nat :=
  length (filter (fun ev => p ev = true) t).

End PscTraces.

(** * Properties *)

(** ** The call-trace monad *)

(** Unfolds the operations of the monad, so that a computation applied to
    a trace reduces to the case analysis on its oracles. *)
Ltac m_unfold :=
  unfold mbind, M_bind, m_bind, mret, M_ret, m_ret, m_stop, call, emit in *.

Lemma m_bind_unfold {Ev A B} (m : M Ev A) (f : A -> M Ev B) (t : list Ev) :
  (m ≫= f) t = match m t with
               | (Ret a, t') => f a t'
               | (Stop s, t') => (Stop s, t')
               end.
Proof. reflexivity. Qed.

(** ** Page-state-change protocol *)

Module PscFacts.
Import Psc.

(** *** Bit fields of an entry *)

Lemma entry_gfn_range (e : psc_entry) : 0 <= entry_gfn e < 2 ^ 40.
Proof.
  unfold entry_gfn. rewrite Z.land_ones by lia.
  apply Z.mod_pos_bound. lia.
Qed.

Lemma entry_page_count_range (e : psc_entry) : 1 <= entry_page_count e <= 512.
Proof. unfold entry_page_count. destruct (entry_pagesize e =? 0); lia. Qed.

Lemma set_cur_page_shiftr (e v k : Z) :
  12 <= k -> Z.shiftr (entry_set_cur_page e v) k = Z.shiftr e k.
Proof.
  intros Hk. apply Z.bits_inj'. intros n Hn.
  unfold entry_set_cur_page.
  rewrite !Z.shiftr_spec by lia.
  rewrite Z.lor_spec, Z.ldiff_spec, Z.land_spec.
  rewrite Z.ones_spec_high by lia.
  destruct (Z.testbit e (n + k)), (Z.testbit v (n + k)); reflexivity.
Qed.

Lemma set_cur_page_gfn (e v : Z) :
  entry_gfn (entry_set_cur_page e v) = entry_gfn e.
Proof. unfold entry_gfn. now rewrite set_cur_page_shiftr by lia. Qed.

Lemma set_cur_page_operation (e v : Z) :
  entry_operation (entry_set_cur_page e v) = entry_operation e.
Proof. unfold entry_operation. now rewrite set_cur_page_shiftr by lia. Qed.

Lemma set_cur_page_pagesize (e v : Z) :
  entry_pagesize (entry_set_cur_page e v) = entry_pagesize e.
Proof. unfold entry_pagesize. now rewrite set_cur_page_shiftr by lia. Qed.

Lemma set_cur_page_cur_page (e v : Z) :
  0 <= v < 2 ^ 12 -> entry_cur_page (entry_set_cur_page e v) = v.
Proof.
  intros Hv. unfold entry_cur_page, entry_set_cur_page.
  transitivity (Z.land v (Z.ones 12)).
  - apply Z.bits_inj'. intros n Hn.
    rewrite !Z.land_spec, Z.lor_spec, Z.ldiff_spec, Z.land_spec.
    destruct (Z.testbit (Z.ones 12) n), (Z.testbit e n), (Z.testbit v n);
      reflexivity.
  - rewrite Z.land_ones by lia. apply Z.mod_small. lia.
Qed.

Lemma mark_cur_page (e : psc_entry) :
  entry_cur_page (mark e) = entry_page_count e.
Proof.
  unfold mark. apply set_cur_page_cur_page.
  pose proof (entry_page_count_range e). lia.
Qed.

Lemma mark_page_count (e : psc_entry) :
  entry_page_count (mark e) = entry_page_count e.
Proof. unfold mark, entry_page_count. now rewrite set_cur_page_pagesize. Qed.

Lemma mark_to_private (e : psc_entry) :
  entry_to_private (mark e) = entry_to_private e.
Proof. unfold mark, entry_to_private. now rewrite set_cur_page_operation. Qed.

Lemma mark_gfn (e : psc_entry) : entry_gfn (mark e) = entry_gfn e.
Proof. apply set_cur_page_gfn. Qed.

(** *** The range extractor *)

Lemma mark_range_0 (j : nat) (es : list psc_entry) : mark_range j 0 es = es.
Proof.
  unfold mark_range. rewrite take_0, Nat.add_0_r. simpl. apply take_drop.
Qed.

Lemma mark_range_step (es : list psc_entry) (j k : nat) (e : psc_entry) :
  es !! j = Some e ->
  mark_range (S j) k (<[j := mark e]> es) = mark_range j (S k) es.
Proof.
  intros He. unfold mark_range.
  assert (Hj : (j < length es)%nat) by (eapply lookup_lt_Some; eauto).
  rewrite (take_S_r _ j (mark e)) by (apply list_lookup_insert_eq; lia).
  rewrite take_insert_ge by lia.
  rewrite !drop_insert_lt by lia.
  rewrite (drop_S es e j He). simpl.
  rewrite <- app_assoc. simpl.
  now replace (j + S k)%nat with (S (j + k)) by lia.
Qed.

Lemma desc_entry_of_nat (h : psc_hdr) (es : list psc_entry) (j : nat) :
  length es = Z.to_nat VMGEXIT_PSC_MAX_ENTRY ->
  desc_entry (mk_desc h es) (Z.of_nat j) = es !! j.
Proof.
  intros Hlen. unfold desc_entry. simpl. rewrite Nat2Z.id.
  destruct (decide (0 <= Z.of_nat j < VMGEXIT_PSC_MAX_ENTRY)) as [H|H]; [done|].
  symmetry. apply lookup_ge_None_2. rewrite Hlen.
  unfold VMGEXIT_PSC_MAX_ENTRY in *. lia.
Qed.

Lemma contig_loop_inner (n : nat) :
  forall (j : nat) (h : psc_hdr) (es : list psc_entry) (r : contig_range)
         (prev : psc_entry),
    length es = Z.to_nat VMGEXIT_PSC_MAX_ENTRY ->
    0 <= entries_processed r <= Z.of_nat j ->
    0 <= gfn_base r < 2 ^ 40 ->
    0 < gfn_count r <= 512 * Z.of_nat j ->
    gfn_base r + gfn_count r = entry_gfn prev + entry_page_count prev ->
    range_to_private r = entry_to_private prev ->
    contig_loop n (Z.of_nat j) (mk_desc h es) r =
      let w := take n (drop j es) in
      let k := run_ext prev w in
      if decide (k = length w /\ (length w < n)%nat)
      then Stop (OutOfRange (Z.of_nat (j + k)))
      else Ret (0,
                mk_range (entries_processed r + Z.of_nat k) (gfn_base r)
                         (gfn_count r + sum_pages (take k w))
                         (range_to_private r),
                mk_desc h (mark_range j k es)).
Proof.
  induction n as [|n IH]; intros j h es r prev Hlen Hep Hbase Hcnt Hsum Hdir.
  - cbv zeta. rewrite take_0. cbn [contig_loop run_ext length take].
    rewrite decide_False by lia.
    replace (gfn_count r =? 0) with false by (symmetry; apply Z.eqb_neq; lia).
    rewrite mark_range_0. destruct r; simpl. do 3 f_equal. f_equal; lia.
  - cbv zeta. cbn [contig_loop]. rewrite desc_entry_of_nat by done.
    destruct (es !! j) as [e|] eqn:He.
    + assert (Hj : (j < length es)%nat) by (eapply lookup_lt_Some; eauto).
      rewrite Hlen in Hj. unfold VMGEXIT_PSC_MAX_ENTRY in Hj.
      replace (gfn_count r =? 0) with false by (symmetry; apply Z.eqb_neq; lia).
      rewrite (drop_S es e j He). cbn [take run_ext length].
      assert (Hw : wrap64 (gfn_base r + gfn_count r)
                   = entry_gfn prev + entry_page_count prev).
      { unfold wrap64. rewrite Z.mod_small; lia. }
      assert (Hadj : negb (entry_gfn e =? wrap64 (gfn_base r + gfn_count r))
                     || negb (eqb (entry_to_private e) (range_to_private r))
                     = negb (adjacent prev e)).
      { rewrite Hw, Hdir. unfold adjacent. rewrite negb_andb.
        now destruct (entry_to_private prev), (entry_to_private e). }
      rewrite Hadj. destruct (adjacent prev e) eqn:Hadj'; simpl negb; cbv iota.
      * unfold set_entry. cbn [hdr entries]. rewrite Nat2Z.id.
        replace (Z.of_nat j + 1) with (Z.of_nat (S j)) by lia.
        apply andb_prop in Hadj'. destruct Hadj' as [Hg Hd].
        apply Z.eqb_eq in Hg. apply eqb_prop in Hd.
        pose proof (entry_page_count_range e).
        rewrite (IH (S j) h _ _ e); cbn [entries_processed gfn_base gfn_count
                                          range_to_private].
        -- rewrite drop_insert_lt by lia.
           fold (mark e). rewrite mark_range_step by done.
           set (w := take n (drop (S j) es)).
           set (k := run_ext e w).
           destruct (decide (k = length w /\ (length w < n)%nat)) as [D|D].
           ++ rewrite decide_True by lia.
              do 2 f_equal. lia.
           ++ rewrite decide_False by lia.
              unfold wrap16. rewrite Z.mod_small by lia.
              cbn [take sum_pages foldr]. fold (sum_pages (take k w)).
              do 3 f_equal. f_equal; lia.
        -- now rewrite length_insert.
        -- unfold wrap16. rewrite Z.mod_small; lia.
        -- lia.
        -- lia.
        -- lia.
        -- congruence.
      * rewrite decide_False by lia.
        rewrite mark_range_0. destruct r; simpl. do 3 f_equal. f_equal; lia.
    + assert (Hj : (length es <= j)%nat) by (now apply lookup_ge_None_1).
      rewrite drop_ge by done. rewrite take_nil. cbn [run_ext length].
      rewrite decide_True by lia. do 2 f_equal. lia.
Qed.

Lemma run_ext_le (l : list psc_entry) :
  forall prev, (run_ext prev l <= length l)%nat.
Proof.
  induction l as [|e l IH]; intros prev; simpl; [lia|].
  destruct (adjacent prev e); [specialize (IH e)|]; lia.
Qed.

(** The cursor is past the end entry: nothing is read, and the extractor
    reports that no entry is left. *)
Lemma next_contig_none (d : snp_psc_desc) :
  end_entry (hdr d) < cur_entry (hdr d) ->
  next_contig_gpa_range d = Ret (- ENOENT, mk_range 0 0 0 false, d).
Proof.
  intros H. unfold next_contig_gpa_range.
  replace (Z.to_nat (end_entry (hdr d) + 1 - cur_entry (hdr d))) with O by lia.
  reflexivity.
Qed.

(** The cursor is at or before the end entry but outside the array. *)
Lemma next_contig_out_of_range (d : snp_psc_desc) :
  desc_wf d ->
  cur_entry (hdr d) <= end_entry (hdr d) ->
  VMGEXIT_PSC_MAX_ENTRY <= cur_entry (hdr d) ->
  next_contig_gpa_range d = Stop (OutOfRange (cur_entry (hdr d))).
Proof.
  intros (Hlen & Hc & He) Hle Hge. unfold next_contig_gpa_range.
  destruct (Z.to_nat (end_entry (hdr d) + 1 - cur_entry (hdr d))) eqn:Hn; [lia|].
  cbn [contig_loop]. unfold desc_entry.
  now rewrite decide_False by lia.
Qed.

(** The cursor is at an entry [e] of the array: the extractor takes [e]
    and every following entry that continues the run, up to the end entry;
    it leaves the array only when the run reaches the last slot while the
    end entry lies beyond it. *)
Lemma next_contig_first (d : snp_psc_desc) (e : psc_entry) :
  desc_wf d ->
  cur_entry (hdr d) <= end_entry (hdr d) ->
  entries d !! Z.to_nat (cur_entry (hdr d)) = Some e ->
  next_contig_gpa_range d =
    let j := Z.to_nat (cur_entry (hdr d)) in
    let n' := Z.to_nat (end_entry (hdr d) - cur_entry (hdr d)) in
    let w' := take n' (drop (S j) (entries d)) in
    let k' := run_ext e w' in
    if decide (k' = length w' /\ (length w' < n')%nat)
    then Stop (OutOfRange (Z.of_nat (S j + k')))
    else Ret (0,
              mk_range (1 + Z.of_nat k') (entry_gfn e)
                       (entry_page_count e + sum_pages (take k' w'))
                       (entry_to_private e),
              mk_desc (hdr d) (mark_range j (S k') (entries d))).
Proof.
  intros (Hlen & Hc & He) Hle Hlk. cbv zeta. unfold next_contig_gpa_range.
  destruct d as [h es]. cbn [hdr entries] in *.
  set (j := Z.to_nat (cur_entry h)) in *.
  assert (Hj : (j < length es)%nat) by (eapply lookup_lt_Some; eauto).
  replace (Z.to_nat (end_entry h + 1 - cur_entry h))
    with (S (Z.to_nat (end_entry h - cur_entry h))) by lia.
  set (n' := Z.to_nat (end_entry h - cur_entry h)).
  replace (cur_entry h) with (Z.of_nat j) by lia.
  cbn [contig_loop]. rewrite desc_entry_of_nat by done. rewrite Hlk.
  cbn [gfn_count gfn_base range_to_private entries_processed]. simpl (0 =? 0).
  cbv iota. cbn [gfn_count gfn_base range_to_private entries_processed].
  pose proof (entry_gfn_range e) as Hg.
  pose proof (entry_page_count_range e) as Hp.
  replace (wrap64 (entry_gfn e + 0)) with (entry_gfn e)
    by (unfold wrap64; rewrite Z.add_0_r, Z.mod_small; lia).
  rewrite Z.eqb_refl, eqb_reflx. simpl negb. simpl orb. cbv iota.
  unfold set_entry. cbn [hdr entries]. rewrite Nat2Z.id.
  replace (Z.of_nat j + 1) with (Z.of_nat (S j)) by lia.
  fold (mark e).
  rewrite (contig_loop_inner n' (S j) h _ _ e);
    cbn [entries_processed gfn_base gfn_count range_to_private];
    try (unfold wrap16; simpl; lia); try reflexivity.
  - rewrite drop_insert_lt by lia. rewrite mark_range_step by done.
    unfold wrap16. simpl (0 + 1). rewrite Z.mod_small by lia. reflexivity.
  - now rewrite length_insert.
  - unfold wrap16. simpl (0 + 1). rewrite Z.mod_small; lia.
Qed.



Lemma length_mark_range (j k : nat) (es : list psc_entry) :
  length (mark_range j k es) = length es.
Proof.
  unfold mark_range.
  rewrite !length_app, length_fmap, !length_take, !length_drop. lia.
Qed.






(** *** Runs *)







(** *** The batch loop, as the specification words it *)


(** *** Termination of the batch loop *)

Lemma psc_loop_unfold (E : Env) (fuel : nat) (d : snp_psc_desc) (t : list event) :
  psc_loop E (S fuel) d t =
    match next_contig_gpa_range d with
    | Stop s => (Stop s, t)
    | Ret (rc, r, d1) =>
      if rc =? 0 then
        if kvm_convert_memory E t (wrap64 (gfn_base r * 0x1000))
             (gfn_count r * 0x1000) (range_to_private r) =? 0
        then psc_loop E fuel
               (set_cur_entry d1
                  (wrap16 (cur_entry (hdr d1) + entries_processed r)))
               (t ++ [EvConvertMemory (wrap64 (gfn_base r * 0x1000))
                        (gfn_count r * 0x1000) (range_to_private r)])
        else (Ret (Z.shiftl 0x100 32, d1),
              t ++ [EvConvertMemory (wrap64 (gfn_base r * 0x1000))
                      (gfn_count r * 0x1000) (range_to_private r)])
      else (Ret (0, d1), t)
    end.
Proof.
  cbn [psc_loop].
  destruct (next_contig_gpa_range d) as [[[rc r] d1]|s]; [|reflexivity].
  destruct (rc =? 0); [|reflexivity].
  unfold convert_memory, call. rewrite m_bind_unfold.
  now destruct (kvm_convert_memory E t _ _ _ =? 0).
Qed.


Lemma psc_loop_bounded (E : Env) (fuel : nat) :
  forall (d : snp_psc_desc) (t : list event),
    desc_wf d ->
    (Z.to_nat (end_entry (hdr d) + 1 - cur_entry (hdr d)) < fuel)%nat ->
    exists res cs,
      psc_loop E fuel d t = (res, t ++ cs)
      /\ res <> Stop OutOfFuel
      /\ (length cs <= Z.to_nat (end_entry (hdr d) + 1 - cur_entry (hdr d)))%nat
      /\ forallb is_convert cs = true.
Proof.
  induction fuel as [|fuel IH]; intros d t Hwf Hfuel; [lia|].
  pose proof Hwf as (Hlen & Hc & He).
  unfold VMGEXIT_PSC_MAX_ENTRY in Hlen.
  rewrite psc_loop_unfold.
  destruct (Z_lt_dec (end_entry (hdr d)) (cur_entry (hdr d))) as [Hlt|Hle].
  { rewrite next_contig_none by done. simpl (- ENOENT =? 0). cbv iota.
    exists (Ret (0, d)), []. rewrite app_nil_r. split_and!; try done. simpl. lia. }
  destruct (Z_le_dec VMGEXIT_PSC_MAX_ENTRY (cur_entry (hdr d))) as [Hge|Hin].
  { rewrite next_contig_out_of_range by (done || lia).
    exists (Stop (OutOfRange (cur_entry (hdr d)))), [].
    rewrite app_nil_r. split_and!; try done. simpl. lia. }
  unfold VMGEXIT_PSC_MAX_ENTRY in Hin.
  destruct (entries d !! Z.to_nat (cur_entry (hdr d))) as [e|] eqn:Hlk;
    [|apply lookup_ge_None_1 in Hlk; lia].
  rewrite (next_contig_first d e Hwf) by (done || lia). cbv zeta.
  set (j := Z.to_nat (cur_entry (hdr d))) in *.
  set (n' := Z.to_nat (end_entry (hdr d) - cur_entry (hdr d))).
  set (w' := take n' (drop (S j) (entries d))).
  set (k' := run_ext e w').
  assert (Hk : (k' <= length w')%nat) by apply run_ext_le.
  assert (Hw : (length w' <= n' /\ length w' <= 253 - S j)%nat).
  { unfold w'. rewrite length_take, length_drop. lia. }
  destruct (decide (k' = length w' /\ (length w' < n')%nat)) as [Hout|Hok].
  { exists (Stop (OutOfRange (Z.of_nat (S j + k')))), [].
    rewrite app_nil_r. split_and!; try done. simpl. lia. }
  simpl (0 =? 0). cbv iota.
  cbn [gfn_base gfn_count range_to_private entries_processed hdr].
  set (ev := EvConvertMemory _ _ _).
  destruct (kvm_convert_memory E t _ _ _ =? 0).
  - set (d2 := set_cur_entry _ _).
    assert (Hcur2 : cur_entry (hdr d2) = cur_entry (hdr d) + 1 + Z.of_nat k').
    { unfold d2, set_cur_entry. cbn [hdr cur_entry]. unfold wrap16.
      rewrite Z.mod_small; lia. }
    assert (Hend2 : end_entry (hdr d2) = end_entry (hdr d)) by reflexivity.
    destruct (IH d2 (t ++ [ev])) as (res & cs & Hrun & Hres & Hcs & Hconv).
    { unfold desc_wf. rewrite Hcur2, Hend2. unfold d2, set_cur_entry.
      cbn [entries]. rewrite length_mark_range.
      unfold VMGEXIT_PSC_MAX_ENTRY. lia. }
    { rewrite Hcur2, Hend2. lia. }
    exists res, (ev :: cs). rewrite Hrun, <- app_assoc.
    split_and!; try done.
    rewrite Hcur2, Hend2 in Hcs. simpl. lia.
  - exists (Ret (Z.shiftl 0x100 32,
                 mk_desc (hdr d) (mark_range j (S k') (entries d)))), [ev].
    split_and!; try done. simpl. lia.
Qed.





(** *** The batch handler *)



(** Frames 10, 11, 12 to private and then frame 20 to shared: one call for
    three frames from frame 10, then one call for frame 20. *)
Example psc_three_then_one :
  run_length (window desc_three_then_one) = 3%nat
  /\ snd (psc_loop (env_const desc_three_then_one 0)
                   (psc_fuel desc_three_then_one) desc_three_then_one [])
     = [EvConvertMemory (10 * 0x1000) (3 * 0x1000) true;
        EvConvertMemory (20 * 0x1000) (1 * 0x1000) false].
Proof. split; vm_compute; reflexivity. Qed.

(** A direction change at frame 11 ends the run although the frames stay
    contiguous. *)
Example psc_direction_change :
  run_length (window desc_direction_change) = 1%nat
  /\ snd (psc_loop (env_const desc_direction_change 0)
                   (psc_fuel desc_direction_change) desc_direction_change [])
     = [EvConvertMemory (10 * 0x1000) (1 * 0x1000) true;
        EvConvertMemory (11 * 0x1000) (1 * 0x1000) false;
        EvConvertMemory (12 * 0x1000) (1 * 0x1000) true].
Proof. split; vm_compute; reflexivity. Qed.

Lemma handler_unfold (E : Env) (gpa : Z) (t : list event) :
  let len := address_space_map E t gpa GHCB_SHARED_BUF_SIZE in
  let t1 := t ++ [EvMap gpa GHCB_SHARED_BUF_SIZE] in
  let d := shared_buffer E t1 gpa in
  let t2 := t1 ++ [EvUnmap len len] in
  GHCB_SHARED_BUF_SIZE <= len ->
  kvm_handle_vmgexit_psc E gpa t =
    match psc_loop E (psc_fuel d) d t2 with
    | (Ret (psc_ret, d'), t3) =>
      let len2 := address_space_map E t3 gpa len in
      if len2 <? GHCB_SHARED_BUF_SIZE
      then (Ret (0, PSC_ERROR_GENERIC),
            t3 ++ [EvMap gpa len; EvUnmap len2 len2])
      else (Ret (0, psc_ret),
            t3 ++ [EvMap gpa len; EvWriteBack gpa d'; EvUnmap len2 len2])
    | (Stop s, t3) => (Stop s, t3)
    end.
Proof.
  intros len t1 d t2 Hlen. unfold kvm_handle_vmgexit_psc, call, emit.
  rewrite m_bind_unfold. fold len.
  replace (len <? GHCB_SHARED_BUF_SIZE) with false
    by (symmetry; apply Z.ltb_ge; lia).
  rewrite !m_bind_unfold. fold t1 d t2.
  destruct (psc_loop E (psc_fuel d) d t2) as [[[psc_ret d']|s] t3]; [|done].
  rewrite m_bind_unfold.
  destruct (address_space_map E t3 gpa len <? GHCB_SHARED_BUF_SIZE).
  - rewrite m_bind_unfold. unfold mret, M_ret, m_ret.
    now rewrite <- !app_assoc.
  - rewrite !m_bind_unfold. unfold mret, M_ret, m_ret.
    now rewrite <- !app_assoc.
Qed.







(** The handler as a whole never runs into the iteration bound. *)
Lemma handler_terminates (E : Env) (gpa : Z) (t : list event) :
  (forall t', desc_wf (shared_buffer E t' gpa)) ->
  fst (kvm_handle_vmgexit_psc E gpa t) <> Stop OutOfFuel.
Proof.
  intros Hwf.
  destruct (Z_lt_dec (address_space_map E t gpa GHCB_SHARED_BUF_SIZE)
                     GHCB_SHARED_BUF_SIZE) as [Hshort|Hfull].
  - unfold kvm_handle_vmgexit_psc, call. rewrite m_bind_unfold.
    apply Z.ltb_lt in Hshort. rewrite Hshort. done.
  - rewrite handler_unfold by lia.
    set (d := shared_buffer E _ gpa). set (t2 := _ ++ [EvUnmap _ _]).
    destruct (psc_loop_bounded E (psc_fuel d) d t2) as (res & cs & Hrun & Hres & _).
    { apply Hwf. }
    { unfold psc_fuel. lia. }
    rewrite Hrun. destruct res as [[psc_ret d']|s];
      [|simpl; intros [= ->]; now apply Hres].
    cbv zeta. now destruct (_ <? _).
Qed.

(** Whenever the end entry lies outside the array and no conversion
    fails, the loop ends at an entry access outside the array. *)
Lemma psc_loop_out_of_range (E : Env) (fuel : nat) :
  forall (d : snp_psc_desc) (t : list event),
    desc_wf d ->
    (forall t' start size p, kvm_convert_memory E t' start size p = 0) ->
    cur_entry (hdr d) <= end_entry (hdr d) ->
    VMGEXIT_PSC_MAX_ENTRY <= end_entry (hdr d) ->
    (Z.to_nat (end_entry (hdr d) + 1 - cur_entry (hdr d)) < fuel)%nat ->
    exists i, VMGEXIT_PSC_MAX_ENTRY <= i
              /\ fst (psc_loop E fuel d t) = Stop (OutOfRange i).
Proof.
  induction fuel as [|fuel IH]; intros d t Hwf Hall Hle Hend Hfuel; [lia|].
  pose proof Hwf as (Hlen & Hc & He).
  unfold VMGEXIT_PSC_MAX_ENTRY in *.
  rewrite psc_loop_unfold.
  destruct (Z_le_dec 253 (cur_entry (hdr d))) as [Hge|Hin].
  { rewrite next_contig_out_of_range by (done || unfold VMGEXIT_PSC_MAX_ENTRY; lia).
    exists (cur_entry (hdr d)). split; [lia|done]. }
  destruct (entries d !! Z.to_nat (cur_entry (hdr d))) as [e|] eqn:Hlk;
    [|apply lookup_ge_None_1 in Hlk; lia].
  rewrite (next_contig_first d e Hwf) by (done || lia). cbv zeta.
  set (j := Z.to_nat (cur_entry (hdr d))) in *.
  set (n' := Z.to_nat (end_entry (hdr d) - cur_entry (hdr d))).
  set (w' := take n' (drop (S j) (entries d))).
  set (k' := run_ext e w').
  assert (Hk : (k' <= length w')%nat) by apply run_ext_le.
  assert (Hw : length w' = (253 - S j)%nat).
  { unfold w'. rewrite length_take, length_drop. lia. }
  destruct (decide (k' = length w' /\ (length w' < n')%nat)) as [Hout|Hok].
  { exists (Z.of_nat (S j + k')). split; [lia|done]. }
  simpl (0 =? 0). cbv iota.
  cbn [gfn_base gfn_count range_to_private entries_processed hdr].
  rewrite Hall. simpl (0 =? 0). cbv iota.
  set (d2 := set_cur_entry _ _).
  assert (Hcur2 : cur_entry (hdr d2) = cur_entry (hdr d) + 1 + Z.of_nat k').
  { unfold d2, set_cur_entry. cbn [hdr cur_entry]. unfold wrap16.
    rewrite Z.mod_small; lia. }
  assert (Hend2 : end_entry (hdr d2) = end_entry (hdr d)) by reflexivity.
  apply IH; try done.
  - unfold desc_wf. rewrite Hcur2, Hend2. unfold d2, set_cur_entry.
    cbn [entries]. rewrite length_mark_range.
    unfold VMGEXIT_PSC_MAX_ENTRY. lia.
  - rewrite Hcur2, Hend2. lia.
  - rewrite Hcur2, Hend2. lia.
Qed.

(** C9. The descriptor has all 253 slots filled with one contiguous run
    and its end entry set to 253: the extractor goes on to entries[253],
    one past the array, and so does the handler. *)
Theorem psc_end_entry_253_out_of_range :
  desc_wf desc_end_253
  /\ next_contig_gpa_range desc_end_253 = Stop (OutOfRange 253)
  /\ fst (kvm_handle_vmgexit_psc (env_const desc_end_253 0) 0 [])
     = Stop (OutOfRange 253).
Proof.
  split_and!.
  - unfold desc_wf. simpl. repeat split; lia.
  - vm_compute. reflexivity.
  - vm_compute. reflexivity.
Qed.

End PscFacts.

(** ** Extended guest request *)

Module ExtReqFacts.
Import ExtReq.


(** The page count the handler answers is the number of pages the bundle
    needs, except for a bundle that ends on a page boundary, where it is
    one more. *)
Lemma answered_pages (sz : Z) :
  0 <= sz ->
  sz / TARGET_PAGE_SIZE + 1
  = if sz mod TARGET_PAGE_SIZE =? 0 then pages_required sz + 1
    else pages_required sz.
Proof.
  intros Hsz. unfold pages_required, TARGET_PAGE_SIZE.
  pose proof (Z.div_mod sz 4096 ltac:(lia)) as Hdm.
  pose proof (Z.mod_pos_bound sz 4096 ltac:(lia)) as Hm.
  destruct (sz mod 4096 =? 0) eqn:H0.
  - apply Z.eqb_eq in H0.
    replace (sz + 4096 - 1) with (4095 + sz / 4096 * 4096) by lia.
    rewrite Z.div_add by lia. reflexivity.
  - apply Z.eqb_neq in H0.
    replace (sz + 4096 - 1)
      with ((sz mod 4096 - 1) + (sz / 4096 + 1) * 4096) by lia.
    rewrite Z.div_add by lia.
    rewrite (Z.div_small (sz mod 4096 - 1)) by lia. lia.
Qed.

(** C2. A one-page guest buffer and a certificate bundle of exactly two
    pages (8192 bytes): the handler reports the length error and asks for
    3 pages, where 2 pages hold the bundle - and a 2-page buffer is what
    the same handler accepts for it. *)
Theorem ext_req_two_page_bundle_asks_three :
  let bundle := bundle_of_size 8192 in
  kvm_handle_vmgexit_ext_req (env_file bundle) (snp_machine (Some "certs"%string))
                             0 1 []
  = (Ret (0, 3, SNP_EXT_REQ_ERROR_INVALID_LEN), [EvGetContents "certs"%string])
  /\ pages_required (Z.of_nat (length bundle)) = 2
  /\ kvm_handle_vmgexit_ext_req (env_file bundle)
       (snp_machine (Some "certs"%string)) 0 2 []
     = (Ret (0, 2, 0),
        [EvGetContents "certs"%string; EvMap 0 8192; EvCopy 0 bundle 8192;
         EvUnmap 8192 8192]).
Proof. split_and!; vm_compute; reflexivity. Qed.

(** A bundle that does not end on a page boundary is answered with the
    pages it needs. *)
Example ext_req_5000_bytes_asks_two :
  kvm_handle_vmgexit_ext_req (env_file (bundle_of_size 5000))
                             (snp_machine (Some "certs"%string)) 0 1 []
  = (Ret (0, 2, SNP_EXT_REQ_ERROR_INVALID_LEN), [EvGetContents "certs"%string]).
Proof. vm_compute. reflexivity. Qed.

End ExtReqFacts.

(** ** Measured kernel-hash table *)

Module HashTableFacts.
Import HashTable.

Lemma hash_step_length sha (data digest : list byte) :
  hash_step sha data = Ret (Some digest) ->
  length (take (Z.to_nat HASH_SIZE) digest) = Z.to_nat HASH_SIZE.
Proof.
  unfold hash_step. destruct (sha data) as [dg|]; [|done].
  destruct (Z.of_nat (length dg) =? HASH_SIZE) eqn:Hlen; [|done].
  intros [= <-]. apply Z.eqb_eq in Hlen. rewrite length_take. lia.
Qed.

Lemma lookup_padded_bytes (p : PaddedSevHashTable) (i : nat) :
  Z.of_nat (length (table_bytes (ht p))) = sizeof_SevHashTable ->
  (Z.to_nat sizeof_SevHashTable <= i)%nat ->
  padded_bytes p !! i = padding p !! (i - Z.to_nat sizeof_SevHashTable)%nat.
Proof.
  intros Hlen Hi. unfold padded_bytes.
  rewrite lookup_app_r by lia. f_equal. lia.
Qed.

(** C7. Whatever the command line, initrd, setup data and kernel are, and
    whatever the destination held before, the table that
    [build_kernel_loader_hashes] builds is 176 bytes long, a multiple of
    16: the 168 bytes of the hash table and 8 bytes of padding, each of
    them zero. With a hash function that yields 32-byte digests the table
    is built. *)
Theorem built_table_padding_is_zero
    (sha : list byte -> option (list byte))
    (old p : PaddedSevHashTable) (ctx : SevKernelLoaderContext) :
  build_kernel_loader_hashes sha old ctx = Ret (true, p) ->
  Z.of_nat (length (padded_bytes p)) = sizeof_PaddedSevHashTable
  /\ sizeof_PaddedSevHashTable = ROUND_UP sizeof_SevHashTable 16
  /\ sizeof_PaddedSevHashTable mod 16 = 0
  /\ Z.of_nat (length (padding p)) = sizeof_padding
  /\ Forall (fun b => b = Byte.x00) (padding p)
  /\ forall i : Z,
       sizeof_SevHashTable <= i < sizeof_PaddedSevHashTable ->
       padded_bytes p !! Z.to_nat i = Some Byte.x00.
Proof.
  unfold build_kernel_loader_hashes.
  destruct (hash_step sha (cmdline_data ctx)) as [[h1|]|] eqn:H1; try done.
  destruct (hash_step sha (initrd_data ctx)) as [[h2|]|] eqn:H2; try done.
  destruct (hash_step sha (setup_data ctx ++ kernel_data ctx))
    as [[h3|]|] eqn:H3; try done.
  intros [= <-].
  apply hash_step_length in H1, H2, H3.
  set (p := mk_padded _ _).
  assert (Htab : Z.of_nat (length (table_bytes (ht p))) = sizeof_SevHashTable).
  { unfold p. cbn [ht]. unfold table_bytes, entry_bytes.
    cbn [guid len cmdline initrd kernel e_guid e_len e_hash].
    rewrite !length_app, H1, H2, H3. reflexivity. }
  assert (Hpad : padding p = replicate (Z.to_nat sizeof_padding) Byte.x00)
    by reflexivity.
  split_and!.
  - unfold padded_bytes. rewrite length_app, Nat2Z.inj_add, Htab, Hpad.
    rewrite length_replicate. reflexivity.
  - reflexivity.
  - reflexivity.
  - rewrite Hpad, length_replicate. reflexivity.
  - rewrite Hpad. apply Forall_forall. intros b Hb.
    apply elem_of_replicate in Hb. apply Hb.
  - intros i Hi. rewrite lookup_padded_bytes by (done || lia).
    rewrite Hpad. apply lookup_replicate_2.
    unfold sizeof_PaddedSevHashTable in Hi. lia.
Qed.

Lemma built_table_padding_is_zero_witness :
  exists p,
    build_kernel_loader_hashes digest_stub table_scratch ctx_sample
    = Ret (true, p)
    /\ Z.of_nat (length (padded_bytes p)) = sizeof_PaddedSevHashTable
    /\ sizeof_PaddedSevHashTable = ROUND_UP sizeof_SevHashTable 16
    /\ sizeof_PaddedSevHashTable mod 16 = 0
    /\ Z.of_nat (length (padding p)) = sizeof_padding
    /\ Forall (fun b => b = Byte.x00) (padding p)
    /\ forall i : Z,
         sizeof_SevHashTable <= i < sizeof_PaddedSevHashTable ->
         padded_bytes p !! Z.to_nat i = Some Byte.x00.
Proof.
  eexists. split; [reflexivity|].
  apply (built_table_padding_is_zero digest_stub table_scratch _ ctx_sample).
  reflexivity.
Defined.

(** With a hash function that always yields a 32-byte digest the table
    is built, for every input. *)
Lemma build_succeeds (sha : list byte -> option (list byte))
    (old : PaddedSevHashTable) (ctx : SevKernelLoaderContext) :
  (forall data, exists digest,
      sha data = Some digest /\ Z.of_nat (length digest) = HASH_SIZE) ->
  exists p, build_kernel_loader_hashes sha old ctx = Ret (true, p).
Proof.
  intros Hsha. unfold build_kernel_loader_hashes, hash_step.
  destruct (Hsha (cmdline_data ctx)) as (h1 & -> & Hl1).
  destruct (Hsha (initrd_data ctx)) as (h2 & -> & Hl2).
  destruct (Hsha (setup_data ctx ++ kernel_data ctx)) as (h3 & -> & Hl3).
  apply Z.eqb_eq in Hl1, Hl2, Hl3. rewrite Hl1, Hl2, Hl3. eauto.
Qed.

(** The sizes of the packed structures. *)
Example table_sizes :
  sizeof_SevHashTableEntry = 50
  /\ sizeof_SevHashTable = 168
  /\ sizeof_padding = 8
  /\ sizeof_PaddedSevHashTable = 176.
Proof. repeat split. Qed.

End HashTableFacts.

(** ** Launch state machine *)

Module LaunchFacts.
Import Launch.

(** C4. Secret injection while the launch state is not [LAUNCH_SECRET]
    returns 1 with the not-in-correct-state error, which carries the
    state found; it makes no call - no platform command, no guest address
    lookup - and leaves the machine as it was. *)
Theorem inject_secret_wrong_state (E : Env) (m : Machine) (o : SevObject)
    (packet_hdr secret : String.string) (gpa : Z) (t : list event) :
  cgs m = Some o ->
  state (common o) <> SEV_STATE_LAUNCH_SECRET ->
  sev_inject_launch_secret E m packet_hdr secret gpa t
  = (Ret (1, Some (ErrNotInState (state (common o))), m), t).
Proof.
  intros Hcgs Hst. unfold sev_inject_launch_secret. rewrite Hcgs.
  unfold sev_check_state. now rewrite bool_decide_eq_false_2.
Qed.

Lemma inject_secret_wrong_state_witness :
  sev_inject_launch_secret env_ok (sev_machine 0 SEV_STATE_LAUNCH_UPDATE)
                           "aGRy" "c2VjcmV0" 0x1000 []
  = (Ret (1, Some (ErrNotInState SEV_STATE_LAUNCH_UPDATE),
          sev_machine 0 SEV_STATE_LAUNCH_UPDATE), []).
Proof.
  apply (inject_secret_wrong_state env_ok
           (sev_machine 0 SEV_STATE_LAUNCH_UPDATE)
           (mk_obj (common_sample SEV_STATE_LAUNCH_UPDATE)
                   (SevGuest (mk_sev_guest None 0 0 None None)))).
  - reflexivity.
  - discriminate.
Defined.

(** In the [LAUNCH_SECRET] state the same call reaches the platform. *)
Example inject_secret_right_state :
  sev_inject_launch_secret env_ok (sev_machine 0 SEV_STATE_LAUNCH_SECRET)
                           "aGRy" "c2VjcmV0" 0x1000 []
  = (Ret (0, None, sev_machine 0 SEV_STATE_LAUNCH_SECRET),
     [EvGpa2Hva 0x1000 1;
      EvSevIoctl 3 (KVM_SEV_LAUNCH_SECRET [Byte.x01] [Byte.x01]
                                          0x7f0000001000 1)]).
Proof. vm_compute. reflexivity. Qed.

(** *** The measurement step *)

Lemma get_measure_unfold (E : Env) (m : Machine) (c : SevCommonState)
    (g : SevGuestState) (t : list event) :
  cgs m = Some (mk_obj c (SevGuest g)) ->
  state c = SEV_STATE_LAUNCH_UPDATE ->
  let fd := sev_fd c in
  let vmsa := EvSevIoctl fd KVM_SEV_LAUNCH_UPDATE_VMSA in
  let t0 := if sev_es_enabled m then t ++ [vmsa] else t in
  let r1 := kvm_sev_ioctl E t0 fd (KVM_SEV_LAUNCH_MEASURE false 0) in
  let t1 := t0 ++ [EvSevIoctl fd (KVM_SEV_LAUNCH_MEASURE false 0)] in
  let r2 := kvm_sev_ioctl E t1 fd (KVM_SEV_LAUNCH_MEASURE true (io_len r1)) in
  let t2 := t1 ++ [EvSevIoctl fd (KVM_SEV_LAUNCH_MEASURE true (io_len r1))] in
  sev_launch_get_measure E m t =
    if sev_es_enabled m
       && negb (io_ret (kvm_sev_ioctl E t fd KVM_SEV_LAUNCH_UPDATE_VMSA) =? 0)
    then (Stop (Exit 1), t ++ [vmsa])
    else if io_len r1 =? 0 then (Ret m, t1)
    else if negb (io_ret r2 =? 0) then (Ret m, t2)
    else (Ret (set_cgs m
                 (mk_obj (set_state c SEV_STATE_LAUNCH_SECRET)
                    (SevGuest (mk_sev_guest (Some (io_data r2)) (handle g)
                                 (policy g) (dh_cert_file g) (session_file g))))),
          t2 ++ [EvChangeState SEV_STATE_LAUNCH_UPDATE SEV_STATE_LAUNCH_SECRET]).
Proof.
  intros Hcgs Hst. cbv zeta. unfold sev_launch_get_measure. rewrite Hcgs.
  unfold sev_check_state. rewrite bool_decide_eq_true_2 by done.
  remember (sev_es_enabled m) as es.
  unfold sev_launch_update_vmsa, sev_ioctl, sev_set_guest_state, exit.
  m_unfold. rewrite Hst. destruct es; cbn.
  - destruct (io_ret (kvm_sev_ioctl E t (sev_fd c) KVM_SEV_LAUNCH_UPDATE_VMSA) =? 0);
      cbn; [|reflexivity].
    destruct (io_len _ =? 0); cbn; [reflexivity|].
    destruct (io_ret _ =? 0); cbn; reflexivity.
  - destruct (io_len _ =? 0); cbn; [reflexivity|].
    destruct (io_ret _ =? 0); cbn; reflexivity.
Qed.

(** C6, as the code has it. In the machine-init-done measurement step
    of a guest in the [LAUNCH_UPDATE] state: if the update of the VM save
    areas (SEV-ES) fails, the process exits with status 1; if the
    launch-measure length query leaves a zero length, or the retrieval of
    the measurement fails, the step returns with the machine unchanged -
    state still [LAUNCH_UPDATE], no measurement stored - and the process
    goes on. The return value of the length query itself is not looked
    at. On every path each command is issued at most once, in the order
    VMSA update, length query, retrieval: nothing is retried. *)
Theorem measure_failures (E : Env) (m : Machine) (c : SevCommonState)
    (g : SevGuestState) (t : list event) :
  cgs m = Some (mk_obj c (SevGuest g)) ->
  state c = SEV_STATE_LAUNCH_UPDATE ->
  let fd := sev_fd c in
  let vmsa := EvSevIoctl fd KVM_SEV_LAUNCH_UPDATE_VMSA in
  let query := EvSevIoctl fd (KVM_SEV_LAUNCH_MEASURE false 0) in
  let t0 := if sev_es_enabled m then t ++ [vmsa] else t in
  let r1 := kvm_sev_ioctl E t0 fd (KVM_SEV_LAUNCH_MEASURE false 0) in
  let fetch := EvSevIoctl fd (KVM_SEV_LAUNCH_MEASURE true (io_len r1)) in
  let r2 := kvm_sev_ioctl E (t0 ++ [query]) fd
                          (KVM_SEV_LAUNCH_MEASURE true (io_len r1)) in
  let vmsa_ok :=
    sev_es_enabled m = false
    \/ io_ret (kvm_sev_ioctl E t fd KVM_SEV_LAUNCH_UPDATE_VMSA) = 0 in
  (sev_es_enabled m = true ->
   io_ret (kvm_sev_ioctl E t fd KVM_SEV_LAUNCH_UPDATE_VMSA) <> 0 ->
   sev_launch_get_measure E m t = (Stop (Exit 1), t ++ [vmsa]))
  /\ (vmsa_ok -> io_len r1 = 0 ->
      sev_launch_get_measure E m t = (Ret m, t0 ++ [query]))
  /\ (vmsa_ok -> io_len r1 <> 0 -> io_ret r2 <> 0 ->
      sev_launch_get_measure E m t = (Ret m, t0 ++ [query; fetch]))
  /\ (exists new,
        snd (sev_launch_get_measure E m t) = t ++ new
        /\ new `prefix_of`
             (if sev_es_enabled m then [vmsa] else []) ++ [query; fetch]
               ++ [EvChangeState SEV_STATE_LAUNCH_UPDATE SEV_STATE_LAUNCH_SECRET]).
Proof.
  intros Hcgs Hst fd vmsa query t0 r1 fetch r2 vmsa_ok.
  pose proof (get_measure_unfold E m c g t Hcgs Hst) as Hu. cbv zeta in Hu.
  fold fd vmsa t0 r1 query in Hu. fold fetch r2 in Hu.
  split_and!.
  - intros Hes Hret. rewrite Hu, Hes. cbn [andb].
    apply Z.eqb_neq in Hret. now rewrite Hret.
  - intros Hok Hlen. rewrite Hu.
    replace (sev_es_enabled m && negb (io_ret _ =? 0)) with false.
    + now rewrite Hlen.
    + destruct Hok as [Hok|Hok]; rewrite Hok; [done|].
      simpl. now rewrite andb_false_r.
  - intros Hok Hlen Hret. rewrite Hu.
    replace (sev_es_enabled m && negb (io_ret _ =? 0)) with false.
    + apply Z.eqb_neq in Hlen, Hret. rewrite Hlen, Hret. cbn [negb].
      now rewrite <- app_assoc.
    + destruct Hok as [Hok|Hok]; rewrite Hok; [done|].
      simpl. now rewrite andb_false_r.
  - rewrite Hu. unfold t0.
    destruct (sev_es_enabled m); cbn [andb];
      repeat match goal with
             | |- context [if ?b then _ else _] => destruct b
             end;
      cbn [snd negb];
      eexists; (split; [rewrite <- ?app_assoc; reflexivity|]);
      cbn [app]; repeat apply prefix_cons; apply prefix_nil.
Qed.

Lemma measure_failures_witness :
  sev_launch_get_measure env_vmsa_fails
    (sev_machine SEV_POLICY_ES SEV_STATE_LAUNCH_UPDATE) []
  = (Stop (Exit 1), [] ++ [EvSevIoctl 3 KVM_SEV_LAUNCH_UPDATE_VMSA]).
Proof.
  refine (proj1 (measure_failures env_vmsa_fails
                   (sev_machine SEV_POLICY_ES SEV_STATE_LAUNCH_UPDATE)
                   (common_sample SEV_STATE_LAUNCH_UPDATE)
                   (mk_sev_guest None 0 SEV_POLICY_ES None None) []
                   eq_refl eq_refl) _ _).
  - reflexivity.
  - vm_compute. discriminate.
Defined.

(** The launch-measure length query fails (return value -1, no length):
    the step returns and the guest stays in [LAUNCH_UPDATE]; likewise when
    the retrieval that follows a good length query fails. The process is
    not terminated. *)
Lemma measure_failure_counterexample :
  io_ret (kvm_sev_ioctl env_measure_fails [] 3 (KVM_SEV_LAUNCH_MEASURE false 0))
  <> 0
  /\ sev_launch_get_measure env_measure_fails
       (sev_machine 0 SEV_STATE_LAUNCH_UPDATE) []
     = (Ret (sev_machine 0 SEV_STATE_LAUNCH_UPDATE),
        [EvSevIoctl 3 (KVM_SEV_LAUNCH_MEASURE false 0)])
  /\ io_ret (kvm_sev_ioctl env_measure_retrieval_fails
               [EvSevIoctl 3 (KVM_SEV_LAUNCH_MEASURE false 0)] 3
               (KVM_SEV_LAUNCH_MEASURE true 48))
     <> 0
  /\ sev_launch_get_measure env_measure_retrieval_fails
       (sev_machine 0 SEV_STATE_LAUNCH_UPDATE) []
     = (Ret (sev_machine 0 SEV_STATE_LAUNCH_UPDATE),
        [EvSevIoctl 3 (KVM_SEV_LAUNCH_MEASURE false 0);
         EvSevIoctl 3 (KVM_SEV_LAUNCH_MEASURE true 48)]).
Proof. split_and!; vm_compute; (reflexivity || discriminate). Qed.

(** When nothing fails the measurement is stored and the state advances. *)
Example measure_succeeds :
  sev_launch_get_measure env_ok (sev_machine 0 SEV_STATE_LAUNCH_UPDATE) []
  = (Ret (mk_machine
            (Some (mk_obj (common_sample SEV_STATE_LAUNCH_SECRET)
                     (SevGuest (mk_sev_guest (Some (replicate 48 Byte.x00))
                                             0 0 None None))))
            [] false false false false false),
     [EvSevIoctl 3 (KVM_SEV_LAUNCH_MEASURE false 0);
      EvSevIoctl 3 (KVM_SEV_LAUNCH_MEASURE true 48);
      EvChangeState SEV_STATE_LAUNCH_UPDATE SEV_STATE_LAUNCH_SECRET]).
Proof. vm_compute. reflexivity. Qed.

(** *** State changes along a launch sequence *)

Lemma follow_app ok (t1 t2 : list event) :
  forall s, follow ok s (t1 ++ t2) = follow ok s t1 ≫= fun s' => follow ok s' t2.
Proof.
  induction t1 as [|ev t1 IH]; intros s; [reflexivity|].
  destruct ev; cbn [app follow]; try apply IH.
  destruct (bool_decide (old = s) && ok old new); [apply IH|reflexivity].
Qed.

Section Tracks.
Variable ok : SevState -> SevState -> bool.

Lemma tracks_ret {A} (s : SevState) (a : A) (post : A -> SevState -> Prop) :
  post a s -> tracks ok s (mret a) post.
Proof.
  intros Hp t. exists [], s. rewrite app_nil_r. split_and!; try done.
  now intros a' [= <-].
Qed.

Lemma tracks_stop {A} (s : SevState) (x : stop) (post : A -> SevState -> Prop) :
  tracks ok s (m_stop x) post.
Proof. intros t. exists [], s. rewrite app_nil_r. split_and!; done. Qed.

Lemma tracks_bind {A B} (s : SevState) (c : M event A) (f : A -> M event B)
    (post1 : A -> SevState -> Prop) (post2 : B -> SevState -> Prop) :
  tracks ok s c post1 ->
  (forall a s1, post1 a s1 -> tracks ok s1 (f a) post2) ->
  tracks ok s (c ≫= f) post2.
Proof.
  intros Hc Hf t. rewrite m_bind_unfold.
  destruct (Hc t) as (new1 & s1 & Ht1 & Hf1 & Hp1).
  destruct (c t) as [[a|x] t1]; cbn [fst snd] in *; subst t1.
  - destruct (Hf a s1 (Hp1 a eq_refl) (t ++ new1)) as (new2 & s2 & Ht2 & Hf2 & Hp2).
    exists (new1 ++ new2), s2. rewrite Ht2, app_assoc. split_and!; try done.
    rewrite follow_app, Hf1. exact Hf2.
  - exists new1, s1. split_and!; done.
Qed.

Lemma tracks_call {A} (s : SevState) (ev : event) (reply : list event -> A) :
  is_change ev = false -> tracks ok s (call ev reply) (fun _ s' => s' = s).
Proof.
  intros Hev t. exists [ev], s. split_and!; try done.
  destruct ev; try done.
Qed.

Lemma tracks_emit (s : SevState) (ev : event) :
  is_change ev = false -> tracks ok s (emit ev) (fun _ s' => s' = s).
Proof.
  intros Hev t. exists [ev], s. split_and!; try done.
  destruct ev; try done.
Qed.

Lemma tracks_set_state (c : SevCommonState) (new : SevState) :
  ok (state c) new = true ->
  tracks ok (state c) (sev_set_guest_state c new)
         (fun c' s' => s' = new /\ c' = set_state c new).
Proof.
  intros Hok t. unfold sev_set_guest_state.
  replace (SevState_val new <? SEV_STATE__MAX) with true by (now destruct new).
  exists [EvChangeState (state c) new], new. m_unfold. cbn.
  rewrite bool_decide_eq_true_2, Hok by done. split_and!; try done.
  now intros a [= <-].
Qed.

Lemma tracks_weaken {A} (s : SevState) (c : M event A)
    (post post' : A -> SevState -> Prop) :
  tracks ok s c post ->
  (forall a s', post a s' -> post' a s') ->
  tracks ok s c post'.
Proof.
  intros Hc Hw t. destruct (Hc t) as (new & s' & Ht & Hf & Hp).
  exists new, s'. split_and!; try done. intros a Ha. auto.
Qed.

End Tracks.

(** One step of the rules above on a goal about [tracks]. *)
Ltac tracks_step :=
  lazymatch goal with
  | |- tracks _ _ (mret _) _ => apply tracks_ret
  | |- tracks _ _ (m_stop _) _ => apply tracks_stop
  | |- tracks _ _ (exit _) _ => apply tracks_stop
  | |- tracks _ _ (call _ _ ≫= _) _ =>
    eapply tracks_bind; [apply tracks_call; reflexivity | intros ? ? ->]
  | |- tracks _ _ (emit _ ≫= _) _ =>
    eapply tracks_bind; [apply tracks_emit; reflexivity | intros ? ? ->]
  | |- tracks _ _ (if ?b then _ else _) _ => destruct b eqn:?
  | |- tracks _ _ (match ?x with _ => _ end) _ => destruct x eqn:?
  end.


Section TracksHelpers.
Variable ok : SevState -> SevState -> bool.
Variable E : Env.

(** The helpers below make calls but record no state change. *)
Lemma tracks_sev_ioctl (s : SevState) (fd : Z) (cmd : sev_cmd) :
  tracks ok s (sev_ioctl E fd cmd) (fun _ s' => s' = s).
Proof. now apply tracks_call. Qed.

Lemma tracks_convert_memory (s : SevState) (start size : Z) (p : bool) :
  tracks ok s (convert_memory E start size p) (fun _ s' => s' = s).
Proof. now apply tracks_call. Qed.

Lemma tracks_update_vmsa (s : SevState) (c : SevCommonState) :
  tracks ok s (sev_launch_update_vmsa E c) (fun _ s' => s' = s).
Proof.
  unfold sev_launch_update_vmsa.
  eapply tracks_bind; [apply tracks_sev_ioctl|]. intros r s1 ->.
  now apply tracks_ret.
Qed.

Lemma tracks_snp_launch_update (s : SevState) (c : SevCommonState)
    (data : SevLaunchUpdateData) :
  tracks ok s (sev_snp_launch_update E c data) (fun _ s' => s' = s).
Proof.
  unfold sev_snp_launch_update.
  destruct ((hva data =? 0) || (len data =? 0)); [now apply tracks_ret|].
  eapply tracks_bind; [apply tracks_sev_ioctl|]. intros r s1 ->.
  destruct (negb (io_ret r =? 0)); [now apply tracks_ret|].
  apply tracks_convert_memory.
Qed.

Lemma tracks_foreach (s : SevState) (c : SevCommonState)
    (q : list SevLaunchUpdateData) :
  tracks ok s (launch_update_foreach E c q) (fun _ s' => s' = s).
Proof.
  induction q as [|data q IH]; cbn [launch_update_foreach].
  - now apply tracks_ret.
  - eapply tracks_bind; [apply tracks_snp_launch_update|]. intros ret s1 ->.
    destruct (negb (ret =? 0)); [apply tracks_stop|apply IH].
Qed.

Lemma tracks_cpuid (s : SevState) (m : Machine) (addr hva len : Z) :
  tracks ok s (snp_launch_update_cpuid E m addr hva len)
         (fun r s' => s' = s /\ cgs (snd r) = cgs m).
Proof.
  unfold snp_launch_update_cpuid. repeat tracks_step; done.
Qed.

Lemma tracks_kernel_hashes (s : SevState) (m : Machine) (c : SevCommonState)
    (snp : SevSnpGuestState) (addr hva len : Z) :
  tracks ok s (snp_launch_update_kernel_hashes m c snp addr hva len)
         (fun r s' => s' = s /\ cgs (snd r) = cgs m).
Proof.
  unfold snp_launch_update_kernel_hashes. repeat tracks_step; done.
Qed.

Lemma tracks_populate (s : SevState) (c : SevCommonState)
    (snp : SevSnpGuestState) (descs : list OvmfSevMetadataDesc) :
  forall m,
    tracks ok s (snp_populate_metadata_pages E m c snp descs)
           (fun m' s' => s' = s /\ cgs m' = cgs m).
Proof.
  induction descs as [|desc descs IH]; intros m;
    cbn [snp_populate_metadata_pages].
  - now apply tracks_ret.
  - cbv zeta. repeat tracks_step.
    eapply tracks_bind.
    { instantiate (1 := fun r s' => s' = s /\ cgs (snd r) = cgs m).
      repeat tracks_step; try done.
      - apply tracks_cpuid.
      - apply tracks_kernel_hashes. }
    intros [ret m1] s1 [-> Hcgs]. cbn [snd] in Hcgs.
    tracks_step; [apply tracks_stop|].
    eapply tracks_weaken; [apply IH|].
    intros m' s' [-> Hm']. split; congruence.
Qed.

Lemma tracks_read_file (s : SevState) (f : String.string) :
  tracks ok s (sev_read_file_base64 E f) (fun _ s' => s' = s).
Proof. now apply tracks_call. Qed.

Lemma tracks_update_data (s : SevState) (c : SevCommonState) (addr len : Z) :
  tracks ok s (sev_launch_update_data E c addr len) (fun _ s' => s' = s).
Proof.
  unfold sev_launch_update_data. tracks_step; [now apply tracks_ret|].
  eapply tracks_bind; [apply tracks_sev_ioctl|]. intros r s1 ->.
  now apply tracks_ret.
Qed.

End TracksHelpers.

Section TracksLaunch.
Variable E : Env.

Lemma tracks_launch_finish (m : Machine) (o : SevObject) :
  cgs m = Some o ->
  launched_state (state (common o)) = true ->
  state (common o) <> SEV_STATE_RUNNING ->
  tracks allowed_change (state (common o)) (sev_launch_finish E m o) in_state.
Proof.
  intros Hcgs Hl Hr. unfold sev_launch_finish.
  eapply tracks_bind; [apply tracks_sev_ioctl|]. intros r s1 ->.
  tracks_step; [apply tracks_stop|].
  eapply tracks_bind.
  { apply tracks_set_state. destruct (state (common o)); done. }
  intros c' s1 [-> ->]. tracks_step. tracks_step; [apply tracks_stop|].
  apply tracks_ret. done.
Qed.

Lemma tracks_snp_launch_finish (m : Machine) (o : SevObject)
    (snp : SevSnpGuestState) :
  cgs m = Some o ->
  launched_state (state (common o)) = true ->
  state (common o) <> SEV_STATE_RUNNING ->
  tracks allowed_change (state (common o)) (sev_snp_launch_finish E m o snp)
         in_state.
Proof.
  intros Hcgs Hl Hr. unfold sev_snp_launch_finish.
  tracks_step; [|apply tracks_stop].
  eapply tracks_bind; [apply tracks_populate|]. intros m1 s1 [-> Hm1].
  eapply tracks_bind; [apply tracks_foreach|]. intros [] s1 ->.
  eapply tracks_bind; [apply tracks_sev_ioctl|]. intros r s1 ->.
  tracks_step; [apply tracks_stop|].
  eapply tracks_bind.
  { apply tracks_set_state. destruct (state (common o)); done. }
  intros c' s1 [-> ->]. tracks_step. tracks_step; [apply tracks_stop|].
  apply tracks_ret. done.
Qed.

Lemma tracks_vm_state_change (m : Machine) (running : bool) :
  launched m ->
  tracks allowed_change (machine_state m) (sev_vm_state_change E m running)
         in_state.
Proof.
  intros Hl. unfold sev_vm_state_change, machine_state, launched in *.
  destruct running; [|now apply tracks_ret].
  destruct (cgs m) as [o|] eqn:Hcgs; [|apply tracks_stop].
  unfold sev_check_state. case_bool_decide as Hst; cbn [negb].
  - apply tracks_ret. unfold in_state, machine_state, launched.
    now rewrite Hcgs.
  - destruct (kind o).
    + now apply tracks_launch_finish.
    + now apply tracks_snp_launch_finish.
Qed.

Lemma tracks_get_measure (m : Machine) :
  launched m ->
  tracks allowed_change (machine_state m) (sev_launch_get_measure E m) in_state.
Proof.
  intros Hl. unfold sev_launch_get_measure, machine_state, launched in *.
  destruct (cgs m) as [[c [g|snp]]|] eqn:Hcgs; try apply tracks_stop.
  cbn [common] in *.
  unfold sev_check_state. case_bool_decide as Hst; cbn [negb].
  - eapply tracks_bind.
    { instantiate (1 := fun _ s' => s' = state c).
      tracks_step; [|now apply tracks_ret].
      eapply tracks_bind; [apply tracks_update_vmsa|]. intros r s1 ->.
      tracks_step; [apply tracks_stop|now apply tracks_ret]. }
    intros [] s1 ->.
    eapply tracks_bind; [apply tracks_sev_ioctl|]. intros r1 s1 ->.
    tracks_step.
    { apply tracks_ret. unfold in_state, machine_state, launched.
      now rewrite Hcgs. }
    eapply tracks_bind; [apply tracks_sev_ioctl|]. intros r2 s1 ->.
    tracks_step.
    { apply tracks_ret. unfold in_state, machine_state, launched.
      now rewrite Hcgs. }
    eapply tracks_bind.
    { apply tracks_set_state. now rewrite Hst. }
    intros c' s1 [-> ->]. apply tracks_ret. done.
  - apply tracks_ret. unfold in_state, machine_state, launched.
    now rewrite Hcgs.
Qed.

Lemma tracks_encrypt_flash (m : Machine) (gpa ptr len : Z) :
  launched m ->
  tracks allowed_change (machine_state m) (sev_encrypt_flash E m gpa ptr len)
         (fun r s' => in_state (snd r) s').
Proof.
  intros Hl. unfold sev_encrypt_flash.
  assert (Hm : in_state m (machine_state m)) by done.
  destruct (cgs m) as [o|] eqn:Hcgs; [|now apply tracks_ret].
  tracks_step; [|now apply tracks_ret].
  eapply tracks_bind.
  { instantiate (1 := fun r s' => in_state (snd r) s').
    tracks_step.
    - apply tracks_ret. cbn [snd snp_launch_update_data].
      unfold in_state, machine_state, launched in *. cbn [cgs set_launch_update].
      now rewrite Hcgs in *.
    - eapply tracks_bind; [apply tracks_update_data|]. intros r s1 ->.
      now apply tracks_ret. }
  intros [ret m'] s1 Hin. cbn [snd] in Hin.
  tracks_step; now apply tracks_ret.
Qed.

Lemma tracks_inject_secret (m : Machine) (h sec : String.string) (gpa : Z) :
  launched m ->
  tracks allowed_change (machine_state m)
         (sev_inject_launch_secret E m h sec gpa)
         (fun r s' => in_state (snd r) s').
Proof.
  intros Hl. unfold sev_inject_launch_secret, sev_ioctl.
  assert (Hm : in_state m (machine_state m)) by done.
  repeat tracks_step; done.
Qed.

Lemma tracks_launch_step (m : Machine) (op : launch_op) :
  launched m ->
  tracks allowed_change (machine_state m) (launch_step E m op) in_state.
Proof.
  intros Hl. assert (Hm : in_state m (machine_state m)) by done.
  destruct op; cbn [launch_step].
  - tracks_step; [now apply tracks_get_measure|now apply tracks_ret].
  - tracks_step; [now apply tracks_vm_state_change|now apply tracks_ret].
  - eapply tracks_bind; [now apply tracks_encrypt_flash|].
    intros r s1 Hr. now apply tracks_ret.
  - eapply tracks_bind; [now apply tracks_inject_secret|].
    intros r s1 Hr. now apply tracks_ret.
Qed.

Lemma tracks_launch_steps (ops : list launch_op) :
  forall m,
    launched m ->
    tracks allowed_change (machine_state m) (launch_steps E m ops) in_state.
Proof.
  induction ops as [|op ops IH]; intros m Hl; cbn [launch_steps].
  - now apply tracks_ret.
  - eapply tracks_bind; [now apply tracks_launch_step|].
    intros m' s1 [<- Hl']. now apply IH.
Qed.

Lemma tracks_launch_start (c : SevCommonState) (g : SevGuestState) :
  state c = SEV_STATE_UNINIT ->
  tracks allowed_change SEV_STATE_UNINIT (sev_launch_start E c g)
         (fun r s' => state (common (snd r)) = s'
                      /\ (fst r = 0 -> s' = SEV_STATE_LAUNCH_UPDATE)).
Proof.
  intros Hst. unfold sev_launch_start. cbv zeta.
  eapply tracks_bind.
  { instantiate (1 := fun _ s' => s' = SEV_STATE_UNINIT).
    tracks_step; [|now apply tracks_ret].
    eapply tracks_bind; [apply tracks_read_file|]. intros r s1 ->.
    now apply tracks_ret. }
  intros session s1 ->.
  assert (Hfail : tracks allowed_change SEV_STATE_UNINIT
                    (mret (1, mk_obj c (SevGuest g)) : M event (Z * SevObject))
                    (fun r s' => state (common (snd r)) = s'
                                 /\ (fst r = 0 -> s' = SEV_STATE_LAUNCH_UPDATE))).
  { apply tracks_ret. cbn. done. }
  assert (Hrest : forall session' : option (list byte),
    tracks allowed_change SEV_STATE_UNINIT
      (dh_cert ← match dh_cert_file g with
                 | Some f => r ← sev_read_file_base64 E f; mret (Some r)
                 | None => mret None
                 end;
       match dh_cert with
       | Some None => mret (1, mk_obj c (SevGuest g))
       | _ =>
         r ← sev_ioctl E (sev_fd c)
               (KVM_SEV_LAUNCH_START (handle g) (policy g) session'
                  (mjoin dh_cert));
         if io_ret r <? 0 then mret (1, mk_obj c (SevGuest g))
         else
           c' ← sev_set_guest_state c SEV_STATE_LAUNCH_UPDATE;
           mret (0, mk_obj c' (SevGuest
                      (mk_sev_guest (measurement g) (io_handle r) (policy g)
                                    (dh_cert_file g) (session_file g))))
       end)
      (fun r s' => state (common (snd r)) = s'
                   /\ (fst r = 0 -> s' = SEV_STATE_LAUNCH_UPDATE))).
  { intros session'.
    eapply tracks_bind.
    { instantiate (1 := fun _ s' => s' = SEV_STATE_UNINIT).
      tracks_step; [|now apply tracks_ret].
      eapply tracks_bind; [apply tracks_read_file|]. intros r s1 ->.
      now apply tracks_ret. }
    intros dh s1 ->.
    assert (Hgo : forall dh' : option (list byte),
      tracks allowed_change SEV_STATE_UNINIT
        (r ← sev_ioctl E (sev_fd c)
               (KVM_SEV_LAUNCH_START (handle g) (policy g) session' dh');
         if io_ret r <? 0 then mret (1, mk_obj c (SevGuest g))
         else
           c' ← sev_set_guest_state c SEV_STATE_LAUNCH_UPDATE;
           mret (0, mk_obj c' (SevGuest
                      (mk_sev_guest (measurement g) (io_handle r) (policy g)
                                    (dh_cert_file g) (session_file g)))))
        (fun r s' => state (common (snd r)) = s'
                     /\ (fst r = 0 -> s' = SEV_STATE_LAUNCH_UPDATE))).
    { intros dh'.
      eapply tracks_bind; [apply tracks_sev_ioctl|]. intros r s1 ->.
      tracks_step; [exact Hfail|].
      eapply tracks_bind.
      { rewrite <- Hst. apply tracks_set_state. now rewrite Hst. }
      intros c' s1 [-> ->]. apply tracks_ret. cbn. done. }
    destruct dh as [[dh|]|]; [apply Hgo|exact Hfail|apply Hgo]. }
  destruct session as [[session|]|]; [apply Hrest|exact Hfail|apply Hrest].
Qed.

Lemma tracks_snp_launch_start (m : Machine) (c : SevCommonState)
    (snp : SevSnpGuestState) :
  state c = SEV_STATE_UNINIT ->
  machine_state m = SEV_STATE_UNINIT ->
  tracks allowed_change SEV_STATE_UNINIT (sev_snp_launch_start E m c snp)
         (fun r s' => machine_state (snd r) = s'
                      /\ (fst r = 0 -> launched (snd r))).
Proof.
  intros Hst Hm. unfold sev_snp_launch_start.
  eapply tracks_bind; [apply tracks_sev_ioctl|]. intros r s1 ->.
  tracks_step; [apply tracks_ret; cbn; done|].
  eapply tracks_bind.
  { rewrite <- Hst. apply tracks_set_state. now rewrite Hst. }
  intros c' s1 [-> ->]. apply tracks_ret. cbn. done.
Qed.

Lemma tracks_kvm_init (m : Machine) :
  machine_state m = SEV_STATE_UNINIT ->
  tracks allowed_change SEV_STATE_UNINIT (sev_kvm_init E m)
         (fun r s' => machine_state (snd r) = s'
                      /\ (fst (fst r) = 0 -> launched (snd r))).
Proof.
  intros Hm. unfold sev_kvm_init.
  destruct (cgs m) as [o|] eqn:Hcgs.
  2: { apply tracks_ret. cbn [fst snd]. split; [done|]. intros _.
       unfold launched. now rewrite Hcgs. }
  tracks_step. tracks_step; [now apply tracks_ret|].
  cbv zeta.
  assert (Herr : forall (e : option error) (m' : Machine),
    machine_state m' = SEV_STATE_UNINIT ->
    tracks allowed_change SEV_STATE_UNINIT
      (_ ← call (EvRamBlockDiscardDisable false)
                (fun t => ram_block_discard_disable E t false);
       mret (-1, e, m'))
      (fun r s' => machine_state (snd r) = s'
                   /\ (fst (fst r) = 0 -> launched (snd r)))).
  { intros e m' Hm'. tracks_step. now apply tracks_ret. }
  repeat (tracks_step; try (apply Herr; reflexivity)).
  eapply tracks_bind; [apply tracks_sev_ioctl|]. intros r s1 ->.
  tracks_step; [apply Herr; reflexivity|].
  eapply tracks_bind
    with (post1 := fun r s' => machine_state (snd r) = s'
                               /\ (fst r = 0 -> launched (snd r))).
  { destruct (kind o) as [g|g].
    - eapply tracks_bind; [now apply tracks_launch_start|].
      intros [ret o'] s1 [Hs Hret]. cbn [fst snd] in *.
      apply tracks_ret. cbn [fst snd]. split; [exact Hs|].
      intros H0. unfold launched. cbn [cgs set_cgs]. rewrite Hs.
      now rewrite (Hret H0).
    - now apply tracks_snp_launch_start. }
  intros [ret m4] s1 [Hs Hl]. cbn [fst snd] in *.
  destruct (negb (ret =? 0)) eqn:Hret0.
  - tracks_step. now apply tracks_ret.
  - apply tracks_ret. cbn [fst snd]. split; [exact Hs|]. intros _.
    apply negb_false_iff, Z.eqb_eq in Hret0. exact (Hl Hret0).
Qed.

Lemma tracks_launch (m : Machine) (ops : list launch_op) :
  machine_state m = SEV_STATE_UNINIT ->
  tracks allowed_change SEV_STATE_UNINIT (launch E m ops)
         (fun m' s' => machine_state m' = s').
Proof.
  intros Hm. unfold launch.
  eapply tracks_bind; [now apply tracks_kvm_init|].
  intros [[ret e] m1] s1 [<- Hl]. cbn [fst snd] in *.
  destruct (ret =? 0) eqn:Hret.
  - apply Z.eqb_eq in Hret. eapply tracks_weaken.
    + apply tracks_launch_steps. exact (Hl Hret).
    + intros m' s' [H _]. exact H.
  - now apply tracks_ret.
Qed.

End TracksLaunch.

Lemma allowed_change_forward (old new : SevState) :
  allowed_change old new = true ->
  SevState_val old < SevState_val new <= SevState_val SEV_STATE_RUNNING.
Proof. destruct old, new; cbn; intros H; try discriminate; lia. Qed.

Lemma follow_changes ok (t : list event) :
  forall s s',
    follow ok s t = Some s' ->
    forall old new, In (old, new) (state_changes t) -> ok old new = true.
Proof.
  induction t as [|ev t IH]; intros s s' Hf old new Hin; [done|].
  destruct ev; cbn [follow state_changes omap] in *; eauto.
  destruct (bool_decide (old0 = s) && ok old0 new0) eqn:Hok; [|done].
  apply andb_prop in Hok. destruct Hok as [_ Hok].
  destruct Hin as [[= <- <-]|Hin]; eauto.
Qed.

(** C5, as the code has it. Along every launch sequence - [sev_kvm_init]
    on a fresh object, then any machine-init-done notifications, run-state
    changes, flash encryptions and secret injections - every recorded
    state change starts from the state reached before it and is one of
    UNINIT to LAUNCH_UPDATE, LAUNCH_UPDATE to LAUNCH_SECRET,
    LAUNCH_UPDATE to RUNNING, LAUNCH_SECRET to RUNNING. So the state takes
    only the values UNINIT, LAUNCH_UPDATE, LAUNCH_SECRET, RUNNING and
    never moves backward; LAUNCH_SECRET may be left out. *)
Theorem launch_state_only_advances (E : Env) (m : Machine)
    (ops : list launch_op) (t : list event) :
  machine_state m = SEV_STATE_UNINIT ->
  exists new s',
    snd (launch E m ops t) = t ++ new
    /\ follow allowed_change SEV_STATE_UNINIT new = Some s'
    /\ (forall m', fst (launch E m ops t) = Ret m' -> machine_state m' = s')
    /\ (forall old nw,
          In (old, nw) (state_changes new) ->
          allowed_change old nw = true
          /\ SevState_val old < SevState_val nw <= SevState_val SEV_STATE_RUNNING).
Proof.
  intros Hm.
  destruct (tracks_launch E m ops Hm t) as (new & s' & Ht & Hf & Hp).
  exists new, s'. split_and!; try done.
  intros old nw Hin.
  pose proof (follow_changes _ _ _ _ Hf old nw Hin) as Hok.
  split; [done|]. now apply allowed_change_forward.
Qed.

Lemma launch_state_only_advances_witness :
  exists new s',
    snd (launch env_ok (sev_machine 0 SEV_STATE_UNINIT)
                [OpMachineInitDone; OpVmStateChange true] [])
    = [] ++ new
    /\ follow allowed_change SEV_STATE_UNINIT new = Some s'
    /\ (forall m',
          fst (launch env_ok (sev_machine 0 SEV_STATE_UNINIT)
                      [OpMachineInitDone; OpVmStateChange true] [])
          = Ret m' ->
          machine_state m' = s')
    /\ (forall old nw,
          In (old, nw) (state_changes new) ->
          allowed_change old nw = true
          /\ SevState_val old < SevState_val nw <= SevState_val SEV_STATE_RUNNING).
Proof.
  apply (launch_state_only_advances env_ok (sev_machine 0 SEV_STATE_UNINIT)
           [OpMachineInitDone; OpVmStateChange true] []).
  reflexivity.
Defined.

(** A plain SEV guest whose launch-measure query fails: the notifier
    returns with the state still [LAUNCH_UPDATE], and the first run request
    finishes the launch - the state goes from [LAUNCH_UPDATE] to [RUNNING]
    and [LAUNCH_SECRET] is never entered. *)
Lemma launch_skips_secret_counterexample :
  state_changes
    (snd (launch env_measure_fails (sev_machine 0 SEV_STATE_UNINIT)
                 [OpMachineInitDone; OpVmStateChange true] []))
  = [(SEV_STATE_UNINIT, SEV_STATE_LAUNCH_UPDATE);
     (SEV_STATE_LAUNCH_UPDATE, SEV_STATE_RUNNING)]
  /\ follow next_in_chain SEV_STATE_UNINIT
       (snd (launch env_measure_fails (sev_machine 0 SEV_STATE_UNINIT)
                    [OpMachineInitDone; OpVmStateChange true] []))
     = None
  /\ exists m',
      fst (launch env_measure_fails (sev_machine 0 SEV_STATE_UNINIT)
                  [OpMachineInitDone; OpVmStateChange true] [])
      = Ret m'
      /\ machine_state m' = SEV_STATE_RUNNING.
Proof.
  split_and!; [vm_compute; reflexivity..|].
  eexists. split; vm_compute; reflexivity.
Qed.

(** The same sequence on a platform where nothing fails goes through all
    four states; an SNP guest goes from [LAUNCH_UPDATE] to [RUNNING]. *)
Example launch_all_four_states :
  state_changes
    (snd (launch env_ok (sev_machine 0 SEV_STATE_UNINIT)
                 [OpMachineInitDone; OpVmStateChange true] []))
  = [(SEV_STATE_UNINIT, SEV_STATE_LAUNCH_UPDATE);
     (SEV_STATE_LAUNCH_UPDATE, SEV_STATE_LAUNCH_SECRET);
     (SEV_STATE_LAUNCH_SECRET, SEV_STATE_RUNNING)]
  /\ state_changes
       (snd (launch env_ok (snp_machine [] SEV_STATE_UNINIT)
                    [OpMachineInitDone; OpVmStateChange true] []))
     = [(SEV_STATE_UNINIT, SEV_STATE_LAUNCH_UPDATE);
        (SEV_STATE_LAUNCH_UPDATE, SEV_STATE_RUNNING)].
Proof. split; vm_compute; reflexivity. Qed.

(** *** Draining the launch-update queue *)

Lemma snp_launch_update_unfold (E : Env) (c : SevCommonState)
    (data : SevLaunchUpdateData) (t : list event) :
  sev_snp_launch_update E c data t =
    if (hva data =? 0) || (len data =? 0) then (Ret 1, t)
    else
      let r := kvm_sev_ioctl E t (sev_fd c) (update_cmd data) in
      let t1 := t ++ [EvSevIoctl (sev_fd c) (update_cmd data)] in
      if negb (io_ret r =? 0) then (Ret (io_ret r), t1)
      else (Ret (kvm_convert_memory E t1 (gpa data) (len data) true),
            t1 ++ [EvConvertMemory (gpa data) (len data) true]).
Proof.
  unfold sev_snp_launch_update, sev_ioctl, convert_memory. m_unfold.
  destruct ((hva data =? 0) || (len data =? 0)); [reflexivity|].
  cbv zeta. fold (update_cmd data).
  now destruct (negb (io_ret _ =? 0)).
Qed.

Lemma foreach_cons (E : Env) (c : SevCommonState) (data : SevLaunchUpdateData)
    (q : list SevLaunchUpdateData) (t : list event) :
  launch_update_foreach E c (data :: q) t =
    match sev_snp_launch_update E c data t with
    | (Ret ret, t') =>
      if negb (ret =? 0) then (Stop (Exit 1), t')
      else launch_update_foreach E c q t'
    | (Stop s, t') => (Stop s, t')
    end.
Proof.
  cbn [launch_update_foreach]. rewrite m_bind_unfold.
  destruct (sev_snp_launch_update E c data t) as [[ret|s] t']; [|reflexivity].
  now destruct (negb (ret =? 0)).
Qed.

Lemma update_ok_run (E : Env) (c : SevCommonState) (t : list event)
    (data : SevLaunchUpdateData) :
  update_ok E c t data ->
  sev_snp_launch_update E c data t = (Ret 0, t ++ update_events c data).
Proof.
  intros (Hh & Hl & Hio & Hconv). rewrite snp_launch_update_unfold.
  apply Z.eqb_neq in Hh, Hl. rewrite Hh, Hl. cbn [orb]. cbv zeta.
  rewrite Hio, Hconv. cbn [negb Z.eqb]. unfold update_events.
  now rewrite <- app_assoc.
Qed.

(** When every entry is accepted the whole queue is sent, in order. *)
Lemma foreach_ok (E : Env) (c : SevCommonState) (q : list SevLaunchUpdateData) :
  forall t,
    updates_ok E c t q ->
    launch_update_foreach E c q t
    = (Ret tt, t ++ concat (update_events c <$> q)).
Proof.
  induction q as [|data q IH]; intros t Hok.
  - cbn. now rewrite app_nil_r.
  - destruct Hok as [Hd Hq]. rewrite foreach_cons, update_ok_run by done.
    cbn [negb Z.eqb]. rewrite IH by done.
    cbn [fmap list_fmap concat]. now rewrite <- app_assoc.
Qed.


Lemma sev_cmds_app (t1 t2 : list event) :
  sev_cmds (t1 ++ t2) = sev_cmds t1 ++ sev_cmds t2.
Proof. unfold sev_cmds. apply omap_app. Qed.





(** Five queued entries, the platform rejecting the third: the first
    three commands are sent in queue order, the process exits, and the
    fourth and fifth are never sent. With a platform that accepts
    everything all five are sent, then SNP_LAUNCH_FINISH. *)
Example five_updates_third_fails :
  let m := snp_machine five_updates SEV_STATE_LAUNCH_UPDATE in
  let o := mk_obj (common_sample SEV_STATE_LAUNCH_UPDATE)
                  (SevSnpGuest (mk_snp_guest None 0 None)) in
  let snp := mk_snp_guest None 0 None in
  fst (sev_snp_launch_finish env_third_fails m o snp []) = Stop (Exit 1)
  /\ sev_cmds (snd (sev_snp_launch_finish env_third_fails m o snp []))
     = update_cmd <$> take 3 five_updates
  /\ sev_cmds (snd (sev_snp_launch_finish env_ok m o snp []))
     = (update_cmd <$> five_updates) ++ [KVM_SEV_SNP_LAUNCH_FINISH].
Proof. split_and!; vm_compute; reflexivity. Qed.

End LaunchFacts.

(** ** Outcome and calls of a computation *)

Lemma after_ret {Ev A} (a : A) (t : list Ev) (post : outcome A -> list Ev -> Prop) :
  post (Ret a) [] -> after (mret a) t post.
Proof. intros H. exists []. now rewrite app_nil_r. Qed.

Lemma after_stop {Ev A} (s : stop) (t : list Ev)
    (post : outcome A -> list Ev -> Prop) :
  post (Stop s) [] -> after (m_stop s) t post.
Proof. intros H. exists []. now rewrite app_nil_r. Qed.

Lemma after_bind {Ev A B} (c : M Ev A) (f : A -> M Ev B) (t : list Ev)
    (pre : outcome A -> list Ev -> Prop) (post : outcome B -> list Ev -> Prop) :
  after c t pre ->
  (forall a new1, pre (Ret a) new1 ->
     after (f a) (t ++ new1) (fun r new2 => post r (new1 ++ new2))) ->
  (forall s new1, pre (Stop s) new1 -> post (Stop s) new1) ->
  after (c ≫= f) t post.
Proof.
  intros (new1 & Ht & Hpre) Hf Hs. unfold after. rewrite m_bind_unfold.
  destruct (c t) as [[a|s] t1]; cbn [fst snd] in *; subst t1.
  - destruct (Hf a new1 Hpre) as (new2 & Ht2 & Hpost).
    exists (new1 ++ new2). rewrite Ht2, app_assoc. done.
  - exists new1. split; [done|]. now apply Hs.
Qed.

Lemma after_call {Ev A B} (ev : Ev) (reply : list Ev -> A) (f : A -> M Ev B)
    (t : list Ev) (post : outcome B -> list Ev -> Prop) :
  after (f (reply t)) (t ++ [ev]) (fun r new => post r (ev :: new)) ->
  after (call ev reply ≫= f) t post.
Proof.
  intros (new & Ht & Hpost). unfold after. rewrite m_bind_unfold. cbn.
  exists (ev :: new). rewrite Ht, <- app_assoc. done.
Qed.

Lemma after_emit {Ev B} (ev : Ev) (f : unit -> M Ev B)
    (t : list Ev) (post : outcome B -> list Ev -> Prop) :
  after (f tt) (t ++ [ev]) (fun r new => post r (ev :: new)) ->
  after (emit ev ≫= f) t post.
Proof.
  intros (new & Ht & Hpost). unfold after. rewrite m_bind_unfold. cbn.
  exists (ev :: new). rewrite Ht, <- app_assoc. done.
Qed.

Lemma after_read {Ev A B} (read : list Ev -> A) (f : A -> M Ev B)
    (t : list Ev) (post : outcome B -> list Ev -> Prop) :
  after (f (read t)) t post ->
  after ((fun t0 => (Ret (read t0), t0)) ≫= f) t post.
Proof. intros H. exact H. Qed.

Lemma after_call_end {Ev A} (ev : Ev) (reply : list Ev -> A)
    (t : list Ev) (post : outcome A -> list Ev -> Prop) :
  post (Ret (reply t)) [ev] -> after (call ev reply) t post.
Proof. intros H. exists [ev]. done. Qed.

Lemma after_weaken {Ev A} (c : M Ev A) (t : list Ev)
    (post post' : outcome A -> list Ev -> Prop) :
  after c t post -> (forall r new, post r new -> post' r new) -> after c t post'.
Proof. intros (new & Ht & H) Hw. exists new. auto. Qed.

Lemma after_elim {Ev A} (c : M Ev A) (t : list Ev)
    (post : outcome A -> list Ev -> Prop) :
  after c t post -> exists new, c t = (fst (c t), t ++ new) /\ post (fst (c t)) new.
Proof.
  intros (new & Ht & H). exists new. split; [|done].
  rewrite <- Ht. now destruct (c t).
Qed.

Lemma after_ret_bind {Ev A B} (a : A) (f : A -> M Ev B) (t : list Ev)
    (post : outcome B -> list Ev -> Prop) :
  after (f a) t post -> after (mret a ≫= f) t post.
Proof. intros H. exact H. Qed.

Lemma after_stop_bind {Ev A B} (s : stop) (f : A -> M Ev B) (t : list Ev)
    (post : outcome B -> list Ev -> Prop) :
  post (Stop s) [] -> after (m_stop s ≫= f) t post.
Proof. intros H. exists []. now rewrite app_nil_r. Qed.

Lemma after_bind_assoc {Ev A B C} (c : M Ev A) (f : A -> M Ev B)
    (g : B -> M Ev C) (t : list Ev) (post : outcome C -> list Ev -> Prop) :
  after (c ≫= fun a => f a ≫= g) t post -> after ((c ≫= f) ≫= g) t post.
Proof.
  unfold after. rewrite !m_bind_unfold.
  destruct (c t) as [[a|s] t1]; [|done].
  now rewrite m_bind_unfold.
Qed.

(** One step through a computation on a goal about [after]. *)
Ltac after_step :=
  lazymatch goal with
  | |- after (mret _) _ _ => apply after_ret
  | |- after (m_stop _) _ _ => apply after_stop
  | |- after (Launch.exit _) _ _ => apply after_stop
  | |- after (call _ _ ≫= _) _ _ => apply after_call
  | |- after (emit _ ≫= _) _ _ => apply after_emit
  | |- after (mret _ ≫= _) _ _ => apply after_ret_bind
  | |- after (m_stop _ ≫= _) _ _ => apply after_stop_bind
  | |- after (Launch.exit _ ≫= _) _ _ => apply after_stop_bind
  | |- after ((_ ≫= _) ≫= _) _ _ => apply after_bind_assoc
  | |- after ((if ?b then _ else _) ≫= _) _ _ => destruct b eqn:?
  | |- after ((match ?x with _ => _ end) ≫= _) _ _ => destruct x eqn:?
  | |- after (call _ _) _ _ => apply after_call_end
  | |- after (if ?b then _ else _) _ _ => destruct b eqn:?
  | |- after (match ?x with _ => _ end) _ _ => destruct x eqn:?
  | |- after (let _ := _ in _) _ _ => cbv zeta
  end.

Module LaunchMoreFacts.
Import Launch LaunchTraces.

Lemma discard_calls_app (t1 t2 : list event) :
  discard_calls (t1 ++ t2) = discard_calls t1 ++ discard_calls t2.
Proof. apply omap_app. Qed.

Lemma discard_calls_cons (ev : event) (t : list event) :
  discard_calls (ev :: t)
  = match ev with
    | EvRamBlockDiscardDisable on => on :: discard_calls t
    | _ => discard_calls t
    end.
Proof. now destruct ev. Qed.

Lemma after_launch_start (E : Env) (c : SevCommonState) (g : SevGuestState)
    (t : list event) :
  after (sev_launch_start E c g) t
    (fun r new =>
       exists ret o',
         r = Ret (ret, o')
         /\ discard_calls new = []
         /\ ((ret = 1 /\ o' = mk_obj c (SevGuest g)
              /\ (sev_cmds new = []
                  \/ exists s d,
                       sev_cmds new
                       = [KVM_SEV_LAUNCH_START (handle g) (policy g) s d]))
             \/ (ret = 0
                 /\ exists s d hdl,
                      o' = mk_obj (set_state c SEV_STATE_LAUNCH_UPDATE)
                             (SevGuest (mk_sev_guest (measurement g) hdl
                                          (policy g) (dh_cert_file g)
                                          (session_file g)))
                      /\ sev_cmds new
                         = [KVM_SEV_LAUNCH_START (handle g) (policy g) s d]))
         /\ (forall f, session_file g = Some f ->
                read_file_base64 E t f = None ->
                ret = 1 /\ new = [EvReadFile f])
         /\ (forall f, dh_cert_file g = Some f ->
                read_file_base64 E (t ++ match session_file g with
                                         | Some f0 => [EvReadFile f0]
                                         | None => []
                                         end) f = None ->
                ret = 1 /\ sev_cmds new = [])).
Proof.
  unfold sev_launch_start, sev_read_file_base64, sev_ioctl, sev_set_guest_state.
  cbn [SevState_val]. change (1 <? SEV_STATE__MAX) with true. cbv iota.
  destruct g as [meas hdl pol dh sess]. cbn [session_file dh_cert_file handle policy measurement].
  destruct sess as [fs|], dh as [fd|]; repeat after_step;
    eexists _, _; (split; [reflexivity|]); cbn [discard_calls sev_cmds omap];
    rewrite ?app_nil_r in *; naive_solver.
Qed.

Lemma after_snp_launch_start (E : Env) (m : Machine) (c : SevCommonState)
    (snp : SevSnpGuestState) (t : list event) :
  after (sev_snp_launch_start E m c snp) t
    (fun r new =>
       exists ret m',
         r = Ret (ret, m')
         /\ discard_calls new = []
         /\ sev_cmds new = [KVM_SEV_SNP_LAUNCH_START]
         /\ ((ret = 1 /\ m' = m)
             \/ (ret = 0
                 /\ m' = set_launch_update
                           (set_cgs m (mk_obj (set_state c SEV_STATE_LAUNCH_UPDATE)
                                              (SevSnpGuest snp))) []))).
Proof.
  unfold sev_snp_launch_start, sev_ioctl, sev_set_guest_state.
  cbn [SevState_val]. change (1 <? SEV_STATE__MAX) with true. cbv iota.
  repeat after_step; eexists _, _; (split; [reflexivity|]);
    cbn [discard_calls sev_cmds omap]; naive_solver.
Qed.

(** Discards a path on which a test of a constant went the wrong way. *)
Ltac discriminate_test :=
  match goal with
  | H : negb (1 =? 0) = false |- _ => discriminate H
  | H : negb (0 =? 0) = true |- _ => discriminate H
  end.

(** Closes a goal about the outcome of one path through a computation. *)
Ltac path_done :=
  lazymatch goal with
  | |- after _ _ _ => fail
  | |- _ => idtac
  end.

(** [sev_kvm_init] on a machine with an SEV object always returns, with 0
    or -1. On 0 the guest is in the LAUNCH_UPDATE state and marked ready,
    the VM state-change handler is registered, and RAM block discarding
    was disabled once and is left disabled. On -1 the ready flag and the
    handler are as before, and either disabling RAM block discarding was
    the only call and the machine is unchanged, or the last call
    re-enables it and the guest is left in the UNINIT state. *)
Theorem kvm_init_outcome (E : Env) (m : Machine) (o : SevObject) (t : list event) :
  cgs m = Some o ->
  after (sev_kvm_init E m) t
    (fun r new =>
       exists ret err m',
         r = Ret (ret, err, m')
         /\ ((ret = 0 /\ err = None
              /\ machine_state m' = SEV_STATE_LAUNCH_UPDATE
              /\ cgs_ready m' = true
              /\ vm_change_state_handler m' = true
              /\ discard_calls new = [true])
             \/ (ret = -1
                 /\ cgs_ready m' = cgs_ready m
                 /\ vm_change_state_handler m' = vm_change_state_handler m
                 /\ ((m' = m /\ new = [EvRamBlockDiscardDisable true])
                     \/ (machine_state m' = SEV_STATE_UNINIT
                         /\ exists pre,
                              new = pre ++ [EvRamBlockDiscardDisable false]
                              /\ discard_calls pre = [true]))))).
Proof.
  intros Hcgs. unfold sev_kvm_init, sev_ioctl. rewrite Hcgs. cbv zeta.
  repeat after_step.
  all: try (path_done; eexists _, _, _; (split; [reflexivity|]);
            right; split_and!; try reflexivity;
            first [ left; split; reflexivity
                  | right; split; [reflexivity|];
                    match goal with
                    | |- exists pre, ?l = pre ++ [_] /\ _ =>
                      exists (removelast l)
                    end; split; reflexivity ]).
  - eapply after_bind; [apply after_launch_start| |].
    + intros [ret o'] new1 (? & ? & [= <- <-] & Hd & Hcases & _).
      destruct Hcases as [(-> & -> & _)|(-> & s & d & hdl & -> & _)];
        repeat after_step; try discriminate_test;
        eexists _, _, _; (split; [reflexivity|]).
      * right. split_and!; try reflexivity. right. split; [reflexivity|].
        eexists (_ :: _ :: _ :: _ :: new1). split; [reflexivity|].
        rewrite !discard_calls_cons, Hd. reflexivity.
      * left. split_and!; try reflexivity.
        rewrite !discard_calls_cons, discard_calls_app, Hd. reflexivity.
    + intros s new1 (? & ? & [=] & _).
  - eapply after_bind; [apply after_snp_launch_start| |].
    + intros [ret m'] new1 (? & ? & [= <- <-] & Hd & _ & Hcases).
      destruct Hcases as [(-> & ->)|(-> & ->)];
        repeat after_step; try discriminate_test;
        eexists _, _, _; (split; [reflexivity|]).
      * right. split_and!; try reflexivity. right. split; [reflexivity|].
        eexists (_ :: _ :: _ :: _ :: new1). split; [reflexivity|].
        rewrite !discard_calls_cons, Hd. reflexivity.
      * left. split_and!; try reflexivity.
        rewrite !discard_calls_cons, discard_calls_app, Hd. reflexivity.
    + intros s new1 (? & ? & [=] & _).
Qed.

Lemma kvm_init_outcome_witness :
  let m := sev_machine 0 SEV_STATE_UNINIT in
  after (sev_kvm_init env_ok m) []
    (fun r new =>
       exists ret err m',
         r = Ret (ret, err, m')
         /\ ((ret = 0 /\ err = None
              /\ machine_state m' = SEV_STATE_LAUNCH_UPDATE
              /\ cgs_ready m' = true
              /\ vm_change_state_handler m' = true
              /\ discard_calls new = [true])
             \/ (ret = -1
                 /\ cgs_ready m' = cgs_ready m
                 /\ vm_change_state_handler m' = vm_change_state_handler m
                 /\ ((m' = m /\ new = [EvRamBlockDiscardDisable true])
                     \/ (machine_state m' = SEV_STATE_UNINIT
                         /\ exists pre,
                              new = pre ++ [EvRamBlockDiscardDisable false]
                              /\ discard_calls pre = [true]))))).
Proof.
  exact (kvm_init_outcome env_ok (sev_machine 0 SEV_STATE_UNINIT)
           (mk_obj (common_sample SEV_STATE_UNINIT)
                   (SevGuest (mk_sev_guest None 0 0 None None)))
           [] eq_refl).
Defined.

Lemma sev_cmds_cons (ev : event) (t : list event) :
  sev_cmds (ev :: t)
  = match ev with
    | EvSevIoctl _ cmd => cmd :: sev_cmds t
    | _ => sev_cmds t
    end.
Proof. now destruct ev. Qed.




(** *** Flash encryption *)


(** *** After the launch *)

(** Once the guest is in the RUNNING state, the machine-done notifier
    (which an SNP guest does not have), VM state changes, flash
    encryption and secret injection, in any number and order, make no
    call and leave the machine as it is. *)
Theorem running_is_inert (E : Env) (m : Machine) (o : SevObject)
    (ops : list launch_op) (t : list event) :
  cgs m = Some o ->
  state (common o) = SEV_STATE_RUNNING ->
  (sev_snp_enabled m = true -> machine_done_notifier m = false) ->
  launch_steps E m ops t = (Ret m, t).
Proof.
  intros Hcgs Hst Hsnp.
  induction ops as [|op ops IH]; [reflexivity|].
  cbn [launch_steps]. rewrite m_bind_unfold.
  assert (Hstep : launch_step E m op t = (Ret m, t)).
  { destruct op; cbn [launch_step].
    - destruct (machine_done_notifier m) eqn:Hn; [|reflexivity].
      unfold sev_launch_get_measure. rewrite Hcgs.
      destruct o as [c [g|snp]]; cbn [common] in *.
      + unfold sev_check_state. rewrite Hst.
        now rewrite bool_decide_eq_false_2.
      + assert (Hs : sev_snp_enabled m = true)
          by (unfold sev_snp_enabled; now rewrite Hcgs).
        specialize (Hsnp Hs). congruence.
    - destruct (vm_change_state_handler m); [|reflexivity].
      unfold sev_vm_state_change. destruct running; [|reflexivity].
      rewrite Hcgs. unfold sev_check_state. rewrite Hst.
      now rewrite bool_decide_eq_true_2.
    - rewrite m_bind_unfold. unfold sev_encrypt_flash. rewrite Hcgs.
      unfold sev_check_state. rewrite Hst.
      now rewrite bool_decide_eq_false_2.
    - rewrite m_bind_unfold. unfold sev_inject_launch_secret. rewrite Hcgs.
      unfold sev_check_state. rewrite Hst.
      now rewrite bool_decide_eq_false_2. }
  rewrite Hstep. exact IH.
Qed.

Lemma running_is_inert_witness :
  let m := snp_machine five_updates SEV_STATE_RUNNING in
  launch_steps env_ok m
    [OpVmStateChange true; OpEncryptFlash 0x1000 0x7f0000001000 0x1000;
     OpInjectSecret "aGRy" "c2VjcmV0" 0x2000; OpMachineInitDone;
     OpVmStateChange false] []
  = (Ret m, []).
Proof.
  exact (running_is_inert env_ok (snp_machine five_updates SEV_STATE_RUNNING)
           (mk_obj (common_sample SEV_STATE_RUNNING)
                   (SevSnpGuest (mk_snp_guest None 0 None)))
           _ [] eq_refl eq_refl (fun _ => eq_refl)).
Defined.

(** *** The measurement *)



(** *** Secret injection *)

(** In the LAUNCH_SECRET state [sev_inject_launch_secret] leaves the
    machine as it is and returns 0 exactly when it sets no error. Either
    it returns 1 without a platform command, or it translated the guest
    address and sent one LAUNCH_SECRET command with the decoded header
    and secret, both non-empty, at a non-null host address, and returns
    the result of that command. *)
Theorem inject_secret_in_window (E : Env) (m : Machine) (o : SevObject)
    (packet_hdr secret : String.string) (gpa : Z) (t : list event) :
  cgs m = Some o ->
  state (common o) = SEV_STATE_LAUNCH_SECRET ->
  let hdr := g_base64_decode E packet_hdr in
  let data := g_base64_decode E secret in
  let data_sz := Z.of_nat (length data) in
  after (sev_inject_launch_secret E m packet_hdr secret gpa) t
    (fun r new =>
       exists ret err,
         r = Ret (ret, err, m)
         /\ (ret = 0 <-> err = None)
         /\ ((ret = 1 /\ sev_cmds new = [])
             \/ (exists hva,
                   new = [EvGpa2Hva gpa data_sz;
                          EvSevIoctl (sev_fd (common o))
                            (KVM_SEV_LAUNCH_SECRET hdr data hva data_sz)]
                   /\ hdr <> [] /\ data <> [] /\ hva <> 0
                   /\ ret = io_ret (kvm_sev_ioctl E (t ++ [EvGpa2Hva gpa data_sz])
                                      (sev_fd (common o))
                                      (KVM_SEV_LAUNCH_SECRET hdr data hva
                                                             data_sz))))).
Proof.
  intros Hcgs Hst hdr data data_sz.
  unfold sev_inject_launch_secret, sev_ioctl. rewrite Hcgs.
  unfold sev_check_state. rewrite bool_decide_eq_true_2 by done.
  cbn [negb]. fold hdr. cbv zeta. fold data. fold data_sz.
  repeat after_step; eexists _, _; (split; [reflexivity|]).
  - split; [done|]. now left.
  - split; [done|]. now left.
  - split; [done|]. now left.
  - apply negb_true_iff, Z.eqb_neq in Heqb2.
    split; [done|]. right. eexists. split_and!; try reflexivity.
    + intros Hh. rewrite Hh in Heqb. done.
    + intros Hd. unfold data_sz in Heqb0. rewrite Hd in Heqb0. done.
    + now apply Z.eqb_neq in Heqb1.
  - apply negb_false_iff, Z.eqb_eq in Heqb2.
    split; [done|]. right. eexists. split_and!; try reflexivity.
    + intros Hh. rewrite Hh in Heqb. done.
    + intros Hd. unfold data_sz in Heqb0. rewrite Hd in Heqb0. done.
    + now apply Z.eqb_neq in Heqb1.
    + now rewrite Heqb2.
Qed.

Lemma inject_secret_in_window_witness :
  let m := sev_machine 0 SEV_STATE_LAUNCH_SECRET in
  let o := mk_obj (common_sample SEV_STATE_LAUNCH_SECRET)
                  (SevGuest (mk_sev_guest None 0 0 None None)) in
  let hdr := g_base64_decode env_ok "aGRy" in
  let data := g_base64_decode env_ok "c2VjcmV0" in
  let data_sz := Z.of_nat (length data) in
  after (sev_inject_launch_secret env_ok m "aGRy" "c2VjcmV0" 0x1000) []
    (fun r new =>
       exists ret err,
         r = Ret (ret, err, m)
         /\ (ret = 0 <-> err = None)
         /\ ((ret = 1 /\ sev_cmds new = [])
             \/ (exists hva,
                   new = [EvGpa2Hva 0x1000 data_sz;
                          EvSevIoctl (sev_fd (common o))
                            (KVM_SEV_LAUNCH_SECRET hdr data hva data_sz)]
                   /\ hdr <> [] /\ data <> [] /\ hva <> 0
                   /\ ret = io_ret (kvm_sev_ioctl env_ok
                                      ([] ++ [EvGpa2Hva 0x1000 data_sz])
                                      (sev_fd (common o))
                                      (KVM_SEV_LAUNCH_SECRET hdr data hva
                                                             data_sz))))).
Proof.
  exact (inject_secret_in_window env_ok
           (sev_machine 0 SEV_STATE_LAUNCH_SECRET)
           (mk_obj (common_sample SEV_STATE_LAUNCH_SECRET)
                   (SevGuest (mk_sev_guest None 0 0 None None)))
           "aGRy" "c2VjcmV0" 0x1000 [] eq_refl eq_refl).
Defined.

(** *** The SNP launch-update queue *)

Lemma after_update_cpuid (E : Env) (m : Machine) (addr hva len : Z)
    (t : list event) :
  after (snp_launch_update_cpuid E m addr hva len) t
    (fun r new =>
       forall ret m1, r = Ret (ret, m1) ->
         sev_cmds new = []
         /\ ((ret = 1 /\ m1 = m)
             \/ (ret = 0
                 /\ m1 = set_launch_update m
                           (launch_update m
                            ++ [mk_update addr hva (wrap32 len)
                                  KVM_SEV_SNP_PAGE_TYPE_CPUID])))).
Proof.
  unfold snp_launch_update_cpuid, snp_launch_update_data.
  repeat after_step; try done; intros ret m1 [= <- <-]; split; eauto.
Qed.

Lemma after_update_kernel_hashes (m : Machine) (c : SevCommonState)
    (snp : SevSnpGuestState) (addr hva len : Z) (t : list event) :
  after (snp_launch_update_kernel_hashes m c snp addr hva len) t
    (fun r new =>
       forall ret m1, r = Ret (ret, m1) ->
         sev_cmds new = []
         /\ ret = 0
         /\ m1 = set_launch_update m
                   (launch_update m
                    ++ [mk_update addr hva (wrap32 len)
                          (if kernel_hashes c then KVM_SEV_SNP_PAGE_TYPE_NORMAL
                           else KVM_SEV_SNP_PAGE_TYPE_ZERO)])).
Proof.
  unfold snp_launch_update_kernel_hashes, snp_launch_update_data.
  repeat after_step; try done; intros ret m1 [= <- <-]; done.
Qed.

Lemma after_populate (E : Env) (c : SevCommonState) (snp : SevSnpGuestState)
    (descs : list OvmfSevMetadataDesc) :
  forall (m : Machine) (t : list event),
    after (snp_populate_metadata_pages E m c snp descs) t
      (fun r new =>
         forall m1, r = Ret m1 ->
           cgs m1 = cgs m
           /\ sev_cmds new = []
           /\ exists added,
                launch_update m1 = launch_update m ++ added
                /\ Forall2
                     (fun desc data =>
                        gpa data = meta_base desc
                        /\ len data = wrap32 (meta_len desc)
                        /\ hva data <> 0
                        /\ type data = queued_type c desc)
                     descs added).
Proof.
  induction descs as [|desc descs IH]; intros m t;
    cbn [snp_populate_metadata_pages].
  - after_step. intros m1 [= <-]. split_and!; try done.
    exists []. rewrite app_nil_r. split; [done|constructor].
  - cbv zeta.
    destruct (snp_metadata_desc_to_page_type (meta_type desc) <? 0) eqn:Hty;
      [after_step; done|].
    after_step.
    destruct (gpa2hva E t (meta_base desc) (meta_len desc) =? 0) eqn:Hhva;
      [after_step; done|].
    apply Z.eqb_neq in Hhva.
    set (hva0 := gpa2hva E t (meta_base desc) (meta_len desc)) in *.
    eapply after_bind with
      (pre := fun r new =>
                forall ret m1, r = Ret (ret, m1) ->
                  sev_cmds new = []
                  /\ (ret <> 0
                      \/ m1 = set_launch_update m
                                (launch_update m
                                 ++ [mk_update (meta_base desc) hva0
                                       (wrap32 (meta_len desc))
                                       (queued_type c desc)]))).
    + unfold queued_type.
      destruct (snp_metadata_desc_to_page_type (meta_type desc)
                =? KVM_SEV_SNP_PAGE_TYPE_CPUID) eqn:Hcpuid.
      * eapply after_weaken; [apply after_update_cpuid|].
        intros r new H ret m1 Hr. destruct (H ret m1 Hr) as [Hc Hcase].
        split; [done|]. destruct Hcase as [[-> _]|[_ ->]]; [now left|right].
        apply Z.eqb_eq in Hcpuid. rewrite Hcpuid.
        replace (meta_type desc =? SEV_DESC_TYPE_SNP_KERNEL_HASHES) with false;
          [reflexivity|].
        symmetry. apply Z.eqb_neq. intros Heq. rewrite Heq in Hcpuid. done.
      * destruct (meta_type desc =? SEV_DESC_TYPE_SNP_KERNEL_HASHES) eqn:Hkh.
        -- eapply after_weaken; [apply after_update_kernel_hashes|].
           intros r new H ret m1 Hr. destruct (H ret m1 Hr) as (Hc & _ & ->).
           split; [done|]. now right.
        -- after_step. intros ret m1 [= <- <-]. split; [done|]. now right.
    + intros [ret m1] new1 Hpre.
      destruct (Hpre ret m1 eq_refl) as [Hc Hm1].
      destruct (negb (ret =? 0)) eqn:Hret; [after_step; done|].
      apply negb_false_iff, Z.eqb_eq in Hret.
      destruct Hm1 as [Hm1| ->]; [done|].
      eapply after_weaken; [apply IH|].
      intros r new2 H m2 Hr.
      destruct (H m2 Hr) as (Hcgs & Hc2 & added & Hq & Hall).
      split_and!.
      * exact Hcgs.
      * rewrite !sev_cmds_cons. cbn. rewrite LaunchFacts.sev_cmds_app, Hc, Hc2.
        reflexivity.
      * eexists (_ :: added). split.
        -- rewrite Hq. cbn [launch_update set_launch_update].
           rewrite <- app_assoc. reflexivity.
        -- constructor; [|exact Hall]. cbn. done.
    + intros s new1 Hpre. done.
Qed.

(** When [snp_populate_metadata_pages] returns, it has sent no platform
    command and kept the SEV object, and the update queue is the old
    queue followed by one entry per metadata descriptor, in the order of
    the descriptors: the descriptor's base and length, a non-null host
    address, and the page type of the descriptor, whose kernel-hashes
    page is queued as NORMAL with kernel hashes on and as ZERO without. *)
Theorem populate_queues_in_order (E : Env) (m : Machine) (c : SevCommonState)
    (snp : SevSnpGuestState) (descs : list OvmfSevMetadataDesc)
    (t : list event) :
  after (snp_populate_metadata_pages E m c snp descs) t
    (fun r new =>
       forall m1, r = Ret m1 ->
         cgs m1 = cgs m
         /\ sev_cmds new = []
         /\ exists added,
              launch_update m1 = launch_update m ++ added
              /\ Forall2
                   (fun desc data =>
                      gpa data = meta_base desc
                      /\ len data = wrap32 (meta_len desc)
                      /\ hva data <> 0
                      /\ type data = queued_type c desc)
                   descs added).
Proof. apply after_populate. Qed.

(** *** The end of the launch *)

Lemma after_snp_launch_update (E : Env) (c : SevCommonState)
    (data : SevLaunchUpdateData) (t : list event) :
  after (sev_snp_launch_update E c data) t
    (fun r new => Forall (fun cmd => is_finish_cmd cmd = false) (sev_cmds new)).
Proof.
  unfold sev_snp_launch_update, sev_ioctl, convert_memory.
  repeat after_step; cbn; repeat constructor.
Qed.

Lemma after_foreach (E : Env) (c : SevCommonState)
    (q : list SevLaunchUpdateData) :
  forall t,
    after (launch_update_foreach E c q) t
      (fun r new => Forall (fun cmd => is_finish_cmd cmd = false) (sev_cmds new)).
Proof.
  induction q as [|data q IH]; intros t; cbn [launch_update_foreach].
  - after_step. constructor.
  - eapply after_bind; [apply after_snp_launch_update| |].
    + intros ret new1 H1. destruct (negb (ret =? 0)).
      * after_step. now rewrite app_nil_r.
      * eapply after_weaken; [apply IH|]. intros r new2 H2. cbn beta.
        rewrite LaunchFacts.sev_cmds_app. now apply Forall_app.
    + intros s new1 H1. exact H1.
Qed.

Lemma after_finish (E : Env) (m : Machine) (o : SevObject) (t : list event) :
  cgs m = Some o ->
  after (match kind o with
         | SevSnpGuest snp => sev_snp_launch_finish E m o snp
         | SevGuest _ => sev_launch_finish E m o
         end) t
    (fun r new =>
       forall m1, r = Ret m1 ->
         cgs m1 = Some (mk_obj (set_state (common o) SEV_STATE_RUNNING) (kind o))
         /\ exists pre,
              sev_cmds new = pre ++ [finish_cmd o]
              /\ Forall (fun cmd => is_finish_cmd cmd = false) pre).
Proof.
  intros Hcgs. unfold finish_cmd.
  destruct (kind o) as [g|snp] eqn:Hk.
  - unfold sev_launch_finish, sev_ioctl, sev_set_guest_state.
    cbn [SevState_val]. change (3 <? SEV_STATE__MAX) with true. cbv iota.
    repeat after_step; try done.
    intros m1 [= <-]. split.
    + cbn [cgs set_common set_cgs]. now rewrite Hk.
    + exists []. split; [reflexivity|constructor].
  - unfold sev_snp_launch_finish, sev_ioctl, sev_set_guest_state.
    cbn [SevState_val]. change (3 <? SEV_STATE__MAX) with true. cbv iota.
    destruct (ovmf_sev_metadata E) as [descs|]; [|after_step; done].
    eapply after_bind; [apply after_populate| |]; [|done].
    intros m1 new1 H1. destruct (H1 m1 eq_refl) as (Hcgs1 & Hc1 & _).
    eapply after_bind; [apply after_foreach| |]; [|done].
    intros [] new2 H2.
    repeat after_step; try done.
    intros m2 [= <-]. split.
    + cbn [cgs set_common set_cgs]. now rewrite Hk.
    + exists (sev_cmds new2).
      rewrite LaunchFacts.sev_cmds_app, Hc1. cbn [app].
      rewrite LaunchFacts.sev_cmds_app. split; [reflexivity|exact H2].
Qed.

(** When the VM starts running and [sev_vm_state_change] returns, the
    guest is in the RUNNING state and every later state change does
    nothing. A guest already RUNNING gets no call. Any other guest gets
    the finish command of its type exactly once, as the last platform
    command. *)
Theorem launch_finish_once (E : Env) (m : Machine) (o : SevObject)
    (t : list event) :
  cgs m = Some o ->
  after (sev_vm_state_change E m true) t
    (fun r new =>
       forall m1, r = Ret m1 ->
         machine_state m1 = SEV_STATE_RUNNING
         /\ (forall running t', sev_vm_state_change E m1 running t' = (Ret m1, t'))
         /\ (state (common o) = SEV_STATE_RUNNING -> new = [] /\ m1 = m)
         /\ (state (common o) <> SEV_STATE_RUNNING ->
             exists pre,
               sev_cmds new = pre ++ [finish_cmd o]
               /\ Forall (fun cmd => is_finish_cmd cmd = false) pre)).
Proof.
  intros Hcgs. unfold sev_vm_state_change at 1. rewrite Hcgs.
  unfold sev_check_state. case_bool_decide as Hst; cbn [negb].
  - after_step. intros m1 [= <-]. split_and!; try done.
    + unfold machine_state. now rewrite Hcgs.
    + intros running t'. unfold sev_vm_state_change.
      destruct running; [|reflexivity]. rewrite Hcgs.
      unfold sev_check_state. now rewrite bool_decide_eq_true_2.
  - eapply after_weaken.
    + exact (after_finish E m o t Hcgs).
    + intros r new H m1 Hr. destruct (H m1 Hr) as (Hcgs1 & Hpre).
      split_and!; try done.
      * unfold machine_state. now rewrite Hcgs1.
      * intros running t'. unfold sev_vm_state_change.
        destruct running; [|reflexivity]. rewrite Hcgs1.
        unfold sev_check_state. now rewrite bool_decide_eq_true_2.
Qed.

Lemma launch_finish_once_witness :
  let m := snp_machine five_updates SEV_STATE_LAUNCH_UPDATE in
  let o := mk_obj (common_sample SEV_STATE_LAUNCH_UPDATE)
                  (SevSnpGuest (mk_snp_guest None 0 None)) in
  after (sev_vm_state_change env_ok m true) []
    (fun r new =>
       forall m1, r = Ret m1 ->
         machine_state m1 = SEV_STATE_RUNNING
         /\ (forall running t',
               sev_vm_state_change env_ok m1 running t' = (Ret m1, t'))
         /\ (state (common o) = SEV_STATE_RUNNING -> new = [] /\ m1 = m)
         /\ (state (common o) <> SEV_STATE_RUNNING ->
             exists pre,
               sev_cmds new = pre ++ [finish_cmd o]
               /\ Forall (fun cmd => is_finish_cmd cmd = false) pre)).
Proof.
  exact (launch_finish_once env_ok
           (snp_machine five_updates SEV_STATE_LAUNCH_UPDATE)
           (mk_obj (common_sample SEV_STATE_LAUNCH_UPDATE)
                   (SevSnpGuest (mk_snp_guest None 0 None)))
           [] eq_refl).
Defined.

End LaunchMoreFacts.

Module VmsaFacts.
Import Vmsa.

(** *** Segment attributes *)

Lemma testbit_bit_mask (lo len n : Z) :
  0 <= lo -> 0 <= len ->
  Z.testbit (bit_mask lo len) n = (lo <=? n) && (n <? lo + len).
Proof.
  intros Hlo Hlen. unfold bit_mask.
  destruct (Z.leb_spec lo n) as [H|H]; simpl.
  - rewrite Z.shiftl_spec by lia.
    destruct (Z.ltb_spec n (lo + len)).
    + apply Z.ones_spec_low. lia.
    + apply Z.ones_spec_high. lia.
  - destruct (Z.neg_nonneg_cases n) as [Hn|Hn]; [now apply Z.testbit_neg_r|].
    rewrite Z.shiftl_spec by lia. apply Z.testbit_neg_r. lia.
Qed.

Ltac bits_step :=
  first
    [ rewrite Z.lor_spec | rewrite Z.land_spec
    | rewrite Z.shiftr_spec by lia | rewrite Z.shiftl_spec by lia
    | rewrite testbit_bit_mask by lia
    | match goal with
      | |- context [Z.testbit (Z.shiftr ?a ?k) ?m] =>
        destruct (Z.neg_nonneg_cases m);
        [rewrite (Z.testbit_neg_r (Z.shiftr a k) m) by lia
        |rewrite (Z.shiftr_spec a k m) by lia]
      | |- context [?x <=? ?y] => destruct (Z.leb_spec x y); try (exfalso; lia)
      | |- context [?x <? ?y] => destruct (Z.ltb_spec x y); try (exfalso; lia)
      end ].

Ltac bits :=
  apply Z.bits_inj'; intros ?n ?Hn;
  repeat bits_step;
  cbn [andb orb];
  rewrite ?andb_true_r, ?andb_false_r, ?orb_false_r, ?orb_false_l;
  try reflexivity; try (f_equal; lia).

Lemma flags_vmsa_segcache_vmsa (attrib : Z) :
  FLAGS_SEGCACHE_TO_VMSA (FLAGS_VMSA_TO_SEGCACHE attrib) = Z.land attrib 0xfff.
Proof.
  unfold FLAGS_SEGCACHE_TO_VMSA, FLAGS_VMSA_TO_SEGCACHE.
  change 0xff00 with (bit_mask 8 8). change 0xff with (bit_mask 0 8).
  change 0xf00000 with (bit_mask 20 4). change 0xfff with (bit_mask 0 12).
  bits.
Qed.

Lemma flags_segcache_vmsa_segcache (flags : Z) :
  FLAGS_VMSA_TO_SEGCACHE (FLAGS_SEGCACHE_TO_VMSA flags) = Z.land flags 0xf0ff00.
Proof.
  unfold FLAGS_SEGCACHE_TO_VMSA, FLAGS_VMSA_TO_SEGCACHE.
  change 0xff00 with (bit_mask 8 8). change 0xff with (bit_mask 0 8).
  change 0xf00000 with (bit_mask 20 4).
  change 0xf0ff00 with (Z.lor (bit_mask 8 8) (bit_mask 20 4)).
  bits.
Qed.

Lemma flags_segcache_to_vmsa_range (flags : Z) :
  0 <= FLAGS_SEGCACHE_TO_VMSA flags < 2 ^ 12.
Proof.
  assert (H : FLAGS_SEGCACHE_TO_VMSA flags
              = Z.land (FLAGS_SEGCACHE_TO_VMSA flags) (Z.ones 12)).
  { unfold FLAGS_SEGCACHE_TO_VMSA.
    change 0xff00 with (bit_mask 8 8). change 0xf00000 with (bit_mask 20 4).
    change (Z.ones 12) with (bit_mask 0 12). bits. }
  rewrite H, Z.land_ones by lia. apply Z.mod_pos_bound. lia.
Qed.

(** The two attribute conversions undo each other on the bits they
    carry: expanding VMSA attributes and packing them again keeps the low
    12 bits; packing segment flags and expanding them again keeps the
    flag bits 8..15 and 20..23. A segment captured with [seg_to_vmsa]
    keeps its base and limit and the low 16 bits of its selector, and
    its attributes expand to exactly those flag bits. *)
Theorem segment_attributes_round_trip (attrib : Z) (s : SegmentCache) :
  FLAGS_SEGCACHE_TO_VMSA (FLAGS_VMSA_TO_SEGCACHE attrib) = Z.land attrib 0xfff
  /\ FLAGS_VMSA_TO_SEGCACHE (FLAGS_SEGCACHE_TO_VMSA (flags s))
     = Z.land (flags s) 0xf0ff00
  /\ v_base (seg_to_vmsa s) = base s
  /\ v_limit (seg_to_vmsa s) = limit s
  /\ v_selector (seg_to_vmsa s) = selector s mod 2 ^ 16
  /\ FLAGS_VMSA_TO_SEGCACHE (v_attrib (seg_to_vmsa s))
     = Z.land (flags s) 0xf0ff00.
Proof.
  unfold seg_to_vmsa. cbn [v_base v_limit v_selector v_attrib].
  split_and!; try reflexivity.
  - apply flags_vmsa_segcache_vmsa.
  - apply flags_segcache_vmsa_segcache.
  - unfold wrap16.
    rewrite Z.mod_small
      by (pose proof (flags_segcache_to_vmsa_range (flags s)); lia).
    apply flags_segcache_vmsa_segcache.
Qed.

(** *** The list of initial contexts *)











(** *** The reset state of the application processors *)







(** *** Applying a context *)




(** *** The reset vector in the firmware image *)

Lemma byte_of_Z_value (v : Z) :
  Z.of_N (Byte.to_N (HashTable.byte_of_Z v)) = v mod 256.
Proof.
  unfold HashTable.byte_of_Z.
  pose proof (Z.mod_pos_bound v 256 ltac:(lia)) as Hb.
  pose proof (Byte.to_of_N_option_map (Z.to_N (v mod 256))) as H.
  replace (Z.to_N (v mod 256) <=? 255)%N with true in H
    by (symmetry; apply N.leb_le; lia).
  destruct (Byte.of_N (Z.to_N (v mod 256))) as [b|]; [|done].
  cbn [option_map] in H. injection H as H.
  change (default Byte.x00 (Some b)) with b. rewrite H. lia.
Qed.

Lemma le_bytes_S (n : nat) (v : Z) :
  HashTable.le_bytes (S n) v
  = HashTable.byte_of_Z v :: HashTable.le_bytes n (Z.shiftr v 8).
Proof.
  unfold HashTable.le_bytes. cbn [seq fmap list_fmap]. f_equal.
  rewrite <- seq_shift, <- list_fmap_compose.
  apply list_fmap_ext. intros _ i _. cbn. f_equal.
  rewrite Z.shiftr_shiftr by lia. f_equal. lia.
Qed.

Lemma le_value_le_bytes (n : nat) :
  forall v, 0 <= v -> le_value (HashTable.le_bytes n v) = v mod 2 ^ (8 * Z.of_nat n).
Proof.
  induction n as [|n IH]; intros v Hv.
  - cbn. now rewrite Z.mod_1_r.
  - rewrite le_bytes_S. cbn [le_value foldr]. fold (le_value (HashTable.le_bytes n (Z.shiftr v 8))).
    rewrite byte_of_Z_value, IH by (apply Z.shiftr_nonneg; lia).
    rewrite Z.shiftr_div_pow2 by lia.
    replace (8 * Z.of_nat (S n)) with (8 + 8 * Z.of_nat n) by lia.
    rewrite Z.pow_add_r by lia. change (2 ^ 8) with 256.
    rewrite (Z.rem_mul_r v 256 (2 ^ (8 * Z.of_nat n))) by lia. lia.
Qed.

Lemma le_value_range (bs : list byte) :
  0 <= le_value bs < 2 ^ (8 * Z.of_nat (length bs)).
Proof.
  induction bs as [|b bs IH]; [cbn; lia|].
  cbn [le_value foldr length]. fold (le_value bs).
  pose proof (Byte.to_N_bounded b).
  replace (8 * Z.of_nat (S (length bs))) with (8 + 8 * Z.of_nat (length bs))
    by lia.
  rewrite Z.pow_add_r by lia. change (2 ^ 8) with 256. nia.
Qed.

Lemma read_bytes_length (mem bs : list byte) (off : Z) (n : nat) :
  read_bytes mem off n = Some bs -> length bs = n.
Proof.
  unfold read_bytes. case_decide as H; [|done]. intros [= <-].
  rewrite length_take, length_drop. lia.
Qed.

Lemma read_bytes_app (pre x post : list byte) (off : Z) (n : nat) :
  off = Z.of_nat (length pre) -> n = length x ->
  read_bytes (pre ++ x ++ post) off n = Some x.
Proof.
  intros -> ->. unfold read_bytes.
  rewrite decide_True by (rewrite !length_app; lia).
  rewrite Nat2Z.id, drop_app_length, take_app_length. reflexivity.
Qed.

Lemma parse_reset_block_result (mem : list byte) (off addr ret a : Z) :
  sev_es_parse_reset_block mem off addr = Ret (ret, a) ->
  (ret = 0 /\ 0 < a < 2 ^ 32) \/ (ret = 1 /\ a = addr).
Proof.
  unfold sev_es_parse_reset_block.
  destruct (read_bytes mem off 4) as [info|] eqn:Hr; [|done].
  apply read_bytes_length in Hr.
  pose proof (le_value_range info) as Hv. rewrite Hr in Hv.
  destruct (le_value info =? 0) eqn:Hz; intros [= <- <-].
  - by right.
  - left. apply Z.eqb_neq in Hz. split; [done|]. change (8 * Z.of_nat 4) with 32 in Hv. lia.
Qed.

Lemma find_reset_vector_cases (tbl : String.string -> option (list byte))
    (flash : list byte) (ret addr : Z) :
  sev_es_find_reset_vector tbl flash = Ret (ret, addr) ->
  (ret = 0 /\ 0 < addr < 2 ^ 32) \/ (ret = 1 /\ addr = 0).
Proof.
  unfold sev_es_find_reset_vector.
  destruct (tbl _) as [data|]; [apply parse_reset_block_result|].
  destruct (read_bytes flash _ 16) as [g|]; [|done].
  destruct (negb _); [intros [= <- <-]; by right|].
  destruct (read_bytes flash _ 2) as [l|]; [|done].
  apply parse_reset_block_result.
Qed.

(** The lookup of the reset vector has two results only: it fails with 1
    and leaves the address 0, or it succeeds with an address that is not
    0 (and fits 32 bits) - a success with address 0 does not occur. When
    it fails, [sev_es_save_reset_vector] returns the 1 and touches neither
    the contexts nor the CPUs. *)
Theorem reset_vector_lookup_result (sizeof : Z) (E : Env)
    (tbl : String.string -> option (list byte)) (m : Launch.Machine)
    (q : list SevLaunchVmsa) (cpus : list CPUState) (flash : list byte)
    (ret addr : Z) (t : list event) :
  sev_es_find_reset_vector tbl flash = Ret (ret, addr) ->
  ((ret = 0 /\ 0 < addr < 2 ^ 32) \/ (ret = 1 /\ addr = 0))
  /\ (ret <> 0 -> Launch.sev_es_enabled m = true ->
      sev_es_save_reset_vector sizeof E tbl m q cpus flash t
      = (Ret (1, q, cpus), t)).
Proof.
  intros Hfind. pose proof (find_reset_vector_cases _ _ _ _ Hfind) as Hc.
  split; [exact Hc|]. intros Hret Hes.
  destruct Hc as [[-> _]|[-> ->]]; [done|].
  unfold sev_es_save_reset_vector. now rewrite Hes, Hfind.
Qed.

Lemma reset_vector_lookup_result_witness :
  ((1 = 0 /\ 0 < 0 < 2 ^ 32) \/ (1 = 1 /\ 0 = 0))
  /\ (1 <> 0 ->
      Launch.sev_es_enabled (Launch.snp_machine [] Launch.SEV_STATE_LAUNCH_UPDATE)
      = true ->
      sev_es_save_reset_vector 1648 env_store no_table
        (Launch.snp_machine [] Launch.SEV_STATE_LAUNCH_UPDATE) []
        [cpu_reset 0; cpu_reset 1] (replicate 64 Byte.x00) []
      = (Ret (1, [], [cpu_reset 0; cpu_reset 1]), [])).
Proof.
  apply (reset_vector_lookup_result 1648 env_store no_table
           (Launch.snp_machine [] Launch.SEV_STATE_LAUNCH_UPDATE) []
           [cpu_reset 0; cpu_reset 1] (replicate 64 Byte.x00) 1 0 []).
  vm_compute. reflexivity.
Defined.

Lemma length_le_bytes (n : nat) (v : Z) : length (HashTable.le_bytes n v) = n.
Proof. unfold HashTable.le_bytes. now rewrite length_fmap, length_seq. Qed.

(** A firmware image without GUID table that ends, 32 bytes before its
    end, with the information block GUID, before it the 16-bit length of
    the block and, that many bytes before the end of the block, the reset
    address: the lookup succeeds and yields that address. *)
Theorem reset_vector_in_flash_footer (pre mid tail : list byte) (reset_addr : Z) :
  0 < reset_addr < 2 ^ 32 ->
  length tail = 32%nat ->
  Z.of_nat (length mid) + 22 < 2 ^ 16 ->
  sev_es_find_reset_vector no_table (flash_with_block pre reset_addr mid tail)
  = Ret (0, reset_addr).
Proof.
  intros Haddr Htail Hmid.
  unfold sev_es_find_reset_vector, no_table.
  set (l4 := HashTable.le_bytes 4 reset_addr).
  set (l2 := HashTable.le_bytes 2 (Z.of_nat (length mid) + 22)).
  assert (H4 : length l4 = 4%nat) by apply length_le_bytes.
  assert (H2 : length l2 = 2%nat) by apply length_le_bytes.
  assert (Hg : length info_guid = 16%nat) by reflexivity.
  assert (Hlen : Z.of_nat (length (flash_with_block pre reset_addr mid tail))
                 = Z.of_nat (length pre) + Z.of_nat (length mid) + 54).
  { unfold flash_with_block. fold l4 l2.
    rewrite !length_app, H4, H2, Hg, Htail. lia. }
  rewrite Hlen. cbv zeta.
  assert (Hguid : read_bytes (flash_with_block pre reset_addr mid tail)
                    (Z.of_nat (length pre) + Z.of_nat (length mid) + 54 - 32
                     - HashTable.sizeof_QemuUUID) 16
                  = Some info_guid).
  { unfold flash_with_block. fold l4 l2.
    replace (pre ++ l4 ++ mid ++ l2 ++ info_guid ++ tail)
      with ((pre ++ l4 ++ mid ++ l2) ++ info_guid ++ tail)
      by (now rewrite <- !app_assoc).
    apply read_bytes_app; [|done].
    rewrite !length_app, H4, H2. unfold HashTable.sizeof_QemuUUID. lia. }
  rewrite Hguid. rewrite bool_decide_eq_true_2 by done. cbn [negb].
  assert (Hl : read_bytes (flash_with_block pre reset_addr mid tail)
                 (Z.of_nat (length pre) + Z.of_nat (length mid) + 54 - 32
                  - HashTable.sizeof_QemuUUID - 2) 2
               = Some l2).
  { unfold flash_with_block. fold l4 l2.
    replace (pre ++ l4 ++ mid ++ l2 ++ info_guid ++ tail)
      with ((pre ++ l4 ++ mid) ++ l2 ++ info_guid ++ tail)
      by (now rewrite <- !app_assoc).
    apply read_bytes_app; [|done].
    rewrite !length_app, H4. unfold HashTable.sizeof_QemuUUID. lia. }
  rewrite Hl. unfold l2 at 1. rewrite le_value_le_bytes by lia.
  change (8 * Z.of_nat 2) with 16. rewrite Z.mod_small by lia.
  unfold sev_es_parse_reset_block.
  assert (Hi : read_bytes (flash_with_block pre reset_addr mid tail)
                 (Z.of_nat (length pre) + Z.of_nat (length mid) + 54 - 32
                  - (Z.of_nat (length mid) + 22)) 4
               = Some l4).
  { unfold flash_with_block. fold l4 l2.
    apply read_bytes_app; [lia|done]. }
  rewrite Hi. unfold l4. rewrite le_value_le_bytes by lia.
  change (8 * Z.of_nat 4) with 32. rewrite Z.mod_small by lia.
  now replace (reset_addr =? 0) with false by (symmetry; apply Z.eqb_neq; lia).
Qed.

Lemma reset_vector_in_flash_footer_witness :
  sev_es_find_reset_vector no_table
    (flash_with_block [Byte.x90; Byte.x90] 0x80b004 [] (replicate 32 Byte.x00))
  = Ret (0, 0x80b004).
Proof.
  apply (reset_vector_in_flash_footer [Byte.x90; Byte.x90] []
           (replicate 32 Byte.x00) 0x80b004).
  - lia.
  - reflexivity.
  - cbn. lia.
Defined.



End VmsaFacts.

Module CpuidFacts.
Import Cpuid.

Lemma fill_entry_zero (k : kvm_cpuid_entry2) :
  fill_entry zero_func k = encode_leaf k.
Proof.
  unfold fill_entry, encode_leaf, is_xsave_base, sub_leaf, zero_func.
  cbn [eax_in ecx_in xcr0_in xss_in f_eax f_ebx f_ecx f_edx f_reserved].
  destruct (flags k =? KVM_CPUID_FLAG_SIGNIFCANT_INDEX);
    cbn [eax_in ecx_in xcr0_in xss_in f_eax f_ebx f_ecx f_edx f_reserved];
    destruct ((function k =? 13) && _); reflexivity.
Qed.

Lemma fill_loop_spec (ks : list kvm_cpuid_entry2) (nent0 : Z) (n : nat) :
  forall (i : nat),
    (i + n <= 64)%nat -> (i + n <= length ks)%nat ->
    fill_loop n i (mk_kvm_info nent0 ks)
      (mk_info 0 0 0 ((encode_leaf <$> take i ks)
                      ++ replicate (64 - i) zero_func))
    = Ret (encode_table (i + n) ks).
Proof.
  induction n as [|n IH]; intros i H64 Hlen.
  - cbn [fill_loop reserved1 reserved2 s_entries]. rewrite Nat.add_0_r.
    reflexivity.
  - cbn [fill_loop entries s_entries].
    destruct (ks !! i) as [k|] eqn:Hk;
      [|apply lookup_ge_None_1 in Hk; lia].
    assert (Hi : length (encode_leaf <$> take i ks) = i)
      by (rewrite length_fmap, length_take; lia).
    rewrite lookup_app_r by lia. rewrite Hi, Nat.sub_diag.
    destruct (64 - i)%nat as [|r] eqn:Hr; [lia|].
    cbn [replicate lookup list_lookup]. cbn [count reserved1 reserved2].
    rewrite fill_entry_zero.
    replace (<[i:=encode_leaf k]> ((encode_leaf <$> take i ks)
                                   ++ zero_func :: replicate r zero_func))
      with ((encode_leaf <$> take (S i) ks) ++ replicate (64 - S i) zero_func).
    + rewrite IH by lia. f_equal. f_equal; lia.
    + rewrite insert_app_r_alt by lia. rewrite Hi, Nat.sub_diag.
      cbn [insert list_insert].
      rewrite (take_S_r ks i k Hk), fmap_app, <- app_assoc. cbn.
      do 3 f_equal. lia.
Qed.

(** [sev_snp_cpuid_info_fill] refuses more than 64 entries with -1 and
    leaves the table as it was. Otherwise it returns 0 and nothing of the
    old table is left: the count is the number of KVM entries, the
    reserved fields are zero, the first slots hold the KVM entries in
    their order (function, sub-leaf, the four registers, and for function
    0xD with sub-leaf 0 or 1 the size 0x240 in EBX and XCR0 1), and the
    remaining slots are zero. *)
Theorem cpuid_table_encoding (old : SnpCpuidInfo) (kvm : KvmCpuidInfo) :
  0 <= nent kvm ->
  Z.of_nat (length (entries kvm)) = KVM_MAX_CPUID_ENTRIES ->
  sev_snp_cpuid_info_fill old kvm
  = if SNP_CPUID_FUNCTION_MAXCOUNT <? nent kvm then Ret (-1, old)
    else Ret (0, encode_table (Z.to_nat (nent kvm)) (entries kvm)).
Proof.
  intros Hn Hlen. unfold sev_snp_cpuid_info_fill.
  destruct (SNP_CPUID_FUNCTION_MAXCOUNT <? nent kvm) eqn:Hmax; [reflexivity|].
  apply Z.ltb_ge in Hmax.
  unfold SNP_CPUID_FUNCTION_MAXCOUNT, KVM_MAX_CPUID_ENTRIES in *.
  destruct kvm as [n ks]. cbn [nent entries] in *.
  pose proof (fill_loop_spec ks n (Z.to_nat n) 0 ltac:(lia) ltac:(lia)) as H.
  change (mk_info 0 0 0 ((encode_leaf <$> take 0 ks)
                         ++ replicate (64 - 0) zero_func))
    with zero_info in H.
  now rewrite H.
Qed.

Lemma cpuid_table_encoding_witness :
  sev_snp_cpuid_info_fill (mk_info 7 7 7 []) kvm_info_sample
  = Ret (0, encode_table 3 (entries kvm_info_sample)).
Proof.
  refine (cpuid_table_encoding (mk_info 7 7 7 []) kvm_info_sample _ eq_refl).
  vm_compute. discriminate.
Defined.

End CpuidFacts.

Module PscMoreFacts.
Import Psc PscTraces.

Lemma count_cons (p : event -> bool) (ev : event) (t : list event) :
  count p (ev :: t) = ((if p ev then 1 else 0) + count p t)%nat.
Proof.
  unfold count. rewrite filter_cons. destruct (p ev); [|reflexivity].
  now rewrite decide_True.
Qed.

Lemma count_app (p : event -> bool) (t1 t2 : list event) :
  count p (t1 ++ t2) = (count p t1 + count p t2)%nat.
Proof. unfold count. now rewrite filter_app, length_app. Qed.

Lemma after_psc_loop (E : Env) (fuel : nat) :
  forall (d : snp_psc_desc) (t : list event),
    after (psc_loop E fuel d) t
      (fun r new =>
         Forall (fun ev => is_convert ev = true) new
         /\ forall psc_ret d', r = Ret (psc_ret, d') ->
              psc_ret = 0 \/ psc_ret = PSC_ERROR_GENERIC).
Proof.
  induction fuel as [|fuel IH]; intros d t; cbn [psc_loop].
  - after_step. split; [constructor|done].
  - destruct (next_contig_gpa_range d) as [[[rc r] d1]|s].
    2: { after_step. split; [constructor|done]. }
    destruct (rc =? 0).
    2: { after_step. split; [constructor|]. intros ? ? [= <- <-]. now left. }
    unfold convert_memory. after_step.
    destruct (_ =? 0).
    + eapply after_weaken; [apply IH|].
      intros r0 new [Hall Hret]. split; [|exact Hret].
      constructor; [reflexivity|exact Hall].
    + after_step. split; [repeat constructor|].
      intros ? ? [= <- <-]. now right.
Qed.

(** When [kvm_handle_vmgexit_psc] returns, it returns 0 and the result
    code is 0 or [PSC_ERROR_GENERIC]. Every mapping of the shared buffer
    has been unmapped: the trace holds as many map as unmap calls. The
    descriptor is written back to the guest at most once, and exactly
    once when the result code is 0. *)
Theorem psc_handler_balance (E : Env) (shared_gpa : Z) (t : list event) :
  after (kvm_handle_vmgexit_psc E shared_gpa) t
    (fun r new =>
       forall ret psc_ret, r = Ret (ret, psc_ret) ->
         ret = 0
         /\ (psc_ret = 0 \/ psc_ret = PSC_ERROR_GENERIC)
         /\ count is_map new = count is_unmap new
         /\ (count is_write_back new <= 1)%nat
         /\ (psc_ret = 0 -> count is_write_back new = 1%nat)).
Proof.
  unfold kvm_handle_vmgexit_psc.
  after_step. destruct (_ <? _).
  { repeat after_step. intros ? ? [= <- <-]. split_and!; try done; eauto. }
  apply after_read. after_step.
  eapply after_bind; [apply after_psc_loop| |]; [|done].
  intros [psc_ret d'] new1 [Hconv Hret].
  assert (Hm : forall p, (forall ev, is_convert ev = true -> p ev = false) ->
                         count p new1 = 0%nat).
  { intros p Hp. unfold count. induction Hconv as [|ev l Hev _ IH'];
      [reflexivity|].
    rewrite filter_cons, decide_False; [exact IH'|].
    rewrite (Hp ev Hev). done. }
  assert (Hmap : count is_map new1 = 0%nat) by (apply Hm; now intros []).
  assert (Hunmap : count is_unmap new1 = 0%nat) by (apply Hm; now intros []).
  assert (Hwb : count is_write_back new1 = 0%nat) by (apply Hm; now intros []).
  destruct (Hret psc_ret d' eq_refl) as [->| ->];
    repeat after_step; intros ? ? [= <- <-];
    rewrite !count_cons, !count_app, Hmap, Hunmap, Hwb;
    cbn; split_and!; try done; eauto.
Qed.

End PscMoreFacts.

Module ExtReqMoreFacts.
Import ExtReq.




End ExtReqMoreFacts.
